(** * GuestLens dashboard: the presentational components and the orchestrator

    A shallow embedding of [frontend/src/App.jsx] and of the components under
    [frontend/src/components/], over a small model of the ECMAScript values
    and of the React element trees they build. *)

From Stdlib Require Import ZArith QArith Qround List String Ascii Bool Lia.
From Stdlib Require Import DecimalString.
From Stdlib Require Import Floats.SpecFloat.
Import ListNotations.

Local Open Scope string_scope.
Local Open Scope Z_scope.

(** ** Numbers: IEEE 754 binary64, as ECMAScript has them *)

Module Number.

Definition prec : Z := 53.
Definition emax : Z := 1024.

Definition number : Type := spec_float.

Definition valid (x : number) : bool := valid_binary prec emax x.

(** The Number value for an integer (round to nearest, ties to even). *)
Definition of_Z (n : Z) : number := binary_normalize prec emax n 0 false.

Definition mul : number -> number -> number := SFmul prec emax.
Definition div : number -> number -> number := SFdiv prec emax.
Definition leb : number -> number -> bool := SFleb.
Definition ltb : number -> number -> bool := SFltb.
Definition eqb : number -> number -> bool := SFeqb.

(** The Number value of a decimal literal [digits * 10^(-scale)], as
    JSON.parse and the lexer read it: both operands are exact, the
    quotient is rounded once. *)
Definition of_decimal (digits : Z) (scale : nat) : number :=
  div (of_Z digits) (of_Z (10 ^ Z.of_nat scale)).

(** The real number a finite value stands for (0 for the others). *)
Definition value (x : number) : Q :=
  match x with
  | S754_finite s m e =>
      let a := if s then Zneg m else Zpos m in
      match e with
      | Zneg k => a # (2 ^ k)%positive
      | _ => inject_Z (a * 2 ^ e)
      end
  | _ => 0%Q
  end.

Definition is_finite (x : number) : bool :=
  match x with
  | S754_zero _ | S754_finite _ _ _ => true
  | _ => false
  end.

(** [Math.round]: the integral Number closest to [x], the one closer to
    +Infinity on a tie; [x] itself when it is integral or not finite;
    the sign of a zero result is the sign of [x]. *)
Definition Math_round (x : number) : number :=
  match x with
  | S754_finite s m (Zneg k) =>
      let d := Zpos (2 ^ k) in
      let q := Zpos m / d in
      let r := Zpos m mod d in
      if s then
        let n := if d <? 2 * r then q + 1 else q in
        match n with
        | 0 => S754_zero true
        | _ => of_Z (- n)
        end
      else
        let n := if d <=? 2 * r then q + 1 else q in
        match n with
        | 0 => S754_zero false
        | _ => of_Z n
        end
  | _ => x
  end.

(** *** Number::toString (radix 10) *)

Definition digits_of_Z (n : Z) : string :=
  NilZero.string_of_int (Z.to_int n).

Fixpoint zeros (n : nat) : string :=
  match n with
  | O => ""
  | S n' => String "0" (zeros n')
  end.

(** [x = num / den] compared with [10^t]. *)
Definition ge_pow10 (num den t : Z) : bool :=
  if 0 <=? t then 10 ^ t * den <=? num else den <=? num * 10 ^ (- t).

(** The [n] with [10^(n-1) <= num/den < 10^n]. *)
Definition decimal_exponent (num den : Z) : Z :=
  let est := (Z.log2 num - Z.log2 den) * 30103 / 100000 in
  if ge_pow10 num den (est + 2) then est + 3
  else if ge_pow10 num den (est + 1) then est + 2
  else if ge_pow10 num den est then est + 1
  else if ge_pow10 num den (est - 1) then est
  else est - 1.

(** The Number value for [s * 10^j], [s > 0]. *)
Definition of_scaled (s j : Z) : number :=
  if 0 <=? j then binary_normalize prec emax (s * 10 ^ j) 0 false
  else
    let '(q, e, l) := SFdiv_core_binary prec emax s 0 (10 ^ (- j)) 0 in
    binary_round_aux prec emax false q e l.

Definition same (x y : number) : bool :=
  match x, y with
  | S754_finite s m e, S754_finite s' m' e' =>
      Bool.eqb s s' && Pos.eqb m m' && Z.eqb e e'
  | _, _ => false
  end.

(** With [k] digits: the decimals [s * 10^j] next to [num/den] on either
    side, [j = n - k]; the closer one that reads back as [x], if any. *)
Definition candidate (x : number) (num den n k : Z) : option (Z * Z) :=
  let j := n - k in
  let lo := if 0 <=? j then num / (den * 10 ^ j) else num * 10 ^ (- j) / den in
  let hi := lo + 1 in
  let ok_lo := same (of_scaled lo j) x in
  let ok_hi := same (of_scaled hi j) x in
  (* 2 * x/10^j compared with lo + hi *)
  let twice := if 0 <=? j then (2 * num ?= (lo + hi) * (den * 10 ^ j))
               else (2 * (num * 10 ^ (- j)) ?= (lo + hi) * den) in
  match ok_lo, ok_hi with
  | true, false => Some (lo, j)
  | false, true => Some (hi, j)
  | true, true =>
      match twice with
      | Lt => Some (lo, j)
      | Gt => Some (hi, j)
      | Eq => if Z.even lo then Some (lo, j) else Some (hi, j)
      end
  | false, false => None
  end.

Fixpoint shortest (x : number) (num den n : Z) (k : Z) (fuel : nat) : Z * Z :=
  match fuel with
  | O => (0, 0)
  | S fuel' =>
      match candidate x num den n k with
      | Some sj => sj
      | None => shortest x num den n (k + 1) fuel'
      end
  end.

Fixpoint strip_zeros (s j : Z) (fuel : nat) : Z * Z :=
  match fuel with
  | O => (s, j)
  | S fuel' =>
      if (s mod 10 =? 0) && negb (s =? 0) then strip_zeros (s / 10) (j + 1) fuel'
      else (s, j)
  end.

Definition substring_from (i : nat) (s : string) : string :=
  String.substring i (String.length s - i) s.

(** The digits [ds] of [s] and the exponent [n] laid out as 6.1.6.1.20
    prescribes. *)
Definition layout (ds : string) (n : Z) : string :=
  let k := Z.of_nat (String.length ds) in
  if (k <=? n) && (n <=? 21) then ds ++ zeros (Z.to_nat (n - k))
  else if (0 <? n) && (n <=? 21) then
    String.substring 0 (Z.to_nat n) ds ++ "." ++ substring_from (Z.to_nat n) ds
  else if (-6 <? n) && (n <=? 0) then "0." ++ zeros (Z.to_nat (- n)) ++ ds
  else
    let ex := (if 0 <=? n - 1 then "+" else "-") ++ digits_of_Z (Z.abs (n - 1)) in
    if k =? 1 then ds ++ "e" ++ ex
    else String.substring 0 1 ds ++ "." ++ substring_from 1 ds ++ "e" ++ ex.

Definition toString_pos (m : positive) (e : Z) : string :=
  let num := match e with Zneg _ => Zpos m | _ => Zpos m * 2 ^ e end in
  let den := match e with Zneg k => Zpos (2 ^ k) | _ => 1 end in
  let n := decimal_exponent num den in
  let '(s, j) := shortest (S754_finite false m e) num den n 1 17 in
  let '(s, j) := strip_zeros s j 17 in
  let ds := digits_of_Z s in
  layout ds (Z.of_nat (String.length ds) + j).

(** The integer closest to a rational, the larger on a tie: what the
    specification calls [round]. *)
Definition round_half_up (q : Q) : Z := Qfloor (q + (1 # 2)).

Definition toString (x : number) : string :=
  match x with
  | S754_nan => "NaN"
  | S754_zero _ => "0"
  | S754_infinity s => if s then "-Infinity" else "Infinity"
  | S754_finite s m e => (if s then "-" else "") ++ toString_pos m e
  end.

End Number.

Import Number.

(** ** Values and the operations the components perform on them *)

(** What a failing evaluation throws. *)
Inductive exception : Type :=
| TypeError          (* a property of undefined/null, a call of a non-function,
                        an object without a primitive value *)
| InvalidChild.      (* React: "Objects are not valid as a React child" *)

Inductive result (A : Type) : Type :=
| Ok (a : A)
| Throw (e : exception).

Arguments Ok {A} a.
Arguments Throw {A} e.

Definition bind {A B : Type} (r : result A) (k : A -> result B) : result B :=
  match r with
  | Ok a => k a
  | Throw e => Throw e
  end.

Notation "x <- r ;; k" := (bind r (fun x => k))
  (at level 61, r at next level, right associativity).

Section MapM.
Context {A B : Type} (f : A -> result B).

Fixpoint mapM (l : list A) : result (list B) :=
  match l with
  | [] => Ok []
  | a :: l' => b <- f a ;; bs <- mapM l' ;; Ok (b :: bs)
  end.
End MapM.

Set Warnings "-register-all".

(** The values a JSON response holds, and [undefined] for what it does not
    hold. Strings are UTF-8 text (a lone surrogate, which only indexing a
    string yields, in the three-byte form that generalises UTF-8); an
    object lists its own properties, each key once. *)
Inductive jsval : Type :=
| JUndefined
| JNull
| JBool (b : bool)
| JNum (x : number)
| JStr (s : string)
| JArr (elems : list jsval)
| JObj (props : list (string * jsval)).

Fixpoint lookup {A : Type} (k : string) (props : list (string * A)) : option A :=
  match props with
  | [] => None
  | (k', v) :: rest => if String.eqb k k' then Some v else lookup k rest
  end.

(** What the platform supplies and this development leaves open. *)
Class Host : Type := {
  (** [import.meta.env.PROD] *)
  PROD : bool;
  (** [String.prototype.toLowerCase], the Unicode case mapping *)
  toLowerCase : string -> string;
  (** StringToNumber (ECMA-262 7.1.4.1.1) *)
  StringToNumber : string -> number;
  (** [new Date(v).toLocaleDateString()] for a primitive [v] *)
  toLocaleDateString : jsval -> string
}.

Module JS.

(** ToBoolean *)
Definition truthy (v : jsval) : bool :=
  match v with
  | JUndefined | JNull => false
  | JBool b => b
  | JNum (S754_zero _) | JNum S754_nan => false
  | JNum _ => true
  | JStr s => negb (String.eqb s "")
  | JArr _ | JObj _ => true
  end.

(** [v === 'lit'] *)
Definition strict_eq_string (v : jsval) (lit : string) : bool :=
  match v with
  | JStr s => String.eqb s lit
  | _ => false
  end.

(** [v === 0] *)
Definition strict_eq_zero (v : jsval) : bool :=
  match v with
  | JNum (S754_zero _) => true
  | _ => false
  end.

(** ToString. An array goes through [Array.prototype.join]; an object
    has the primitive value "[object Object]" of [Object.prototype.toString]
    unless an own [toString] property, which is no function, shadows it:
    then neither of [toString] and [valueOf] yields a primitive. *)
Fixpoint ToString (v : jsval) : result string :=
  match v with
  | JUndefined => Ok "undefined"
  | JNull => Ok "null"
  | JBool b => Ok (if b then "true" else "false")
  | JNum x => Ok (Number.toString x)
  | JStr s => Ok s
  | JArr elems =>
      (fix join (first : bool) (l : list jsval) : result string :=
         match l with
         | [] => Ok ""
         | e :: l' =>
             s <- match e with
                  | JUndefined | JNull => Ok ""
                  | _ => ToString e
                  end ;;
             rest <- join false l' ;;
             Ok ((if first then "" else ",") ++ s ++ rest)
         end) true elems
  | JObj props =>
      match lookup "toString" props with
      | Some _ => Throw TypeError
      | None => Ok "[object Object]"
      end
  end.

(** ToPrimitive *)
Definition ToPrimitive (v : jsval) : result jsval :=
  match v with
  | JArr _ | JObj _ => s <- ToString v ;; Ok (JStr s)
  | _ => Ok v
  end.

(** ToNumber *)
Definition ToNumber `{Host} (v : jsval) : result number :=
  match v with
  | JUndefined => Ok S754_nan
  | JNull => Ok (S754_zero false)
  | JBool b => Ok (if b then of_Z 1 else S754_zero false)
  | JNum x => Ok x
  | JStr s => Ok (StringToNumber s)
  | JArr _ | JObj _ => s <- ToString v ;; Ok (StringToNumber s)
  end.

(** The number of UTF-16 code units of UTF-8 text. *)
Fixpoint utf16_length (s : string) : Z :=
  match s with
  | EmptyString => 0
  | String c s' =>
      let b := Z.of_nat (nat_of_ascii c) in
      (if b <? 128 then 1           (* ASCII *)
       else if b <? 192 then 0      (* continuation byte *)
       else if b <? 240 then 1      (* lead byte of 2 or 3 *)
       else 2)                      (* lead byte of 4: a surrogate pair *)
      + utf16_length s'
  end.

(** [v.k] for a key [k] that no built-in prototype defines and that is
    no index of [v]: every field name the components read ([length] has
    [get_length], the index 0 has [get_index0]). *)
Definition get (v : jsval) (k : string) : result jsval :=
  match v with
  | JUndefined | JNull => Throw TypeError
  | JObj props =>
      match lookup k props with
      | Some x => Ok x
      | None => Ok JUndefined
      end
  | _ => Ok JUndefined
  end.

(** [v.length] *)
Definition get_length (v : jsval) : result jsval :=
  match v with
  | JArr elems => Ok (JNum (of_Z (Z.of_nat (List.length elems))))
  | JStr s => Ok (JNum (of_Z (utf16_length s)))
  | _ => get v "length"
  end.

(** [v.toLowerCase()]: only a string has the method. *)
Definition call_toLowerCase `{Host} (v : jsval) : result string :=
  match v with
  | JStr s => Ok (toLowerCase s)
  | _ => Throw TypeError
  end.

(** [String.prototype.replace] with a string pattern and a replacement
    without [$]: the first occurrence only. *)
Fixpoint String_replace (search repl s : string) : string :=
  if String.prefix search s
  then repl ++ String.substring (String.length search)
                  (String.length s - String.length search) s
  else match s with
       | EmptyString => EmptyString
       | String c s' => String c (String_replace search repl s')
       end.

(** [v.replace(search, repl)] *)
Definition call_replace (v : jsval) (search repl : string) : result string :=
  match v with
  | JStr s => Ok (String_replace search repl s)
  | _ => Throw TypeError
  end.

(** [Number.prototype.toFixed] with 2 fraction digits. *)
Definition toFixed2 (x : number) : string :=
  match x with
  | S754_finite s m e =>
      let num := match e with Zneg _ => Zpos m | _ => Zpos m * 2 ^ e end in
      let den := match e with Zneg k => Zpos (2 ^ k) | _ => 1 end in
      if ge_pow10 num den 21 then Number.toString x
      else
        (* the integer closest to 100 * num/den, the larger on a tie *)
        let n := (200 * num + den) / (2 * den) in
        let ds := digits_of_Z n in
        let ds := zeros (3 - String.length ds) ++ ds in
        let k := String.length ds in
        (if s then "-" else "") ++
        String.substring 0 (k - 2) ds ++ "." ++ String.substring (k - 2) 2 ds
  | S754_zero _ => "0.00"
  | _ => Number.toString x
  end.

(** [v.toFixed(2)]: only a number has the method. *)
Definition call_toFixed2 (v : jsval) : result string :=
  match v with
  | JNum x => Ok (toFixed2 x)
  | _ => Throw TypeError
  end.

(** [v.map((x, index) => f x index)]: only an array has the method. *)
Definition call_map {B : Type} (v : jsval) (f : jsval -> nat -> result B)
  : result (list B) :=
  match v with
  | JArr elems =>
      mapM (fun p => f (snd p) (fst p))
           (combine (seq 0 (List.length elems)) elems)
  | _ => Throw TypeError
  end.

(** [Array.isArray(v)] *)
Definition is_array (v : jsval) : bool :=
  match v with
  | JArr _ => true
  | _ => false
  end.

(** [Object.is] on Number values. *)
Definition SameValue_number (x y : number) : bool :=
  match x, y with
  | S754_nan, S754_nan => true
  | S754_zero s, S754_zero s' => Bool.eqb s s'
  | S754_infinity s, S754_infinity s' => Bool.eqb s s'
  | _, _ => same x y
  end.

(** [Object.is(v, w)] for a value [w] fresh from [JSON.parse] or from the
    DOM: an array or an object of the response is no value held before. *)
Definition Object_is (v w : jsval) : bool :=
  match v, w with
  | JUndefined, JUndefined | JNull, JNull => true
  | JBool b, JBool b' => Bool.eqb b b'
  | JNum x, JNum y => SameValue_number x y
  | JStr s, JStr s' => String.eqb s s'
  | _, _ => false
  end.

(** [v > 0]: [v] as a number, compared with 0; NaN is not greater. *)
Definition gt_zero `{Host} (v : jsval) : result bool :=
  n <- ToNumber v ;;
  Ok (ltb (of_Z 0) n).

(** The first UTF-16 code unit of UTF-8 text, as text: the first
    character, or the high surrogate of a character beyond U+FFFF. *)
Definition first_code_unit (s : string) : string :=
  match s with
  | EmptyString => EmptyString
  | String c rest =>
      let byte (a : ascii) := Z.of_nat (nat_of_ascii a) in
      let char (n : Z) := ascii_of_nat (Z.to_nat n) in
      if byte c <? 192 then String c ""
      else if byte c <? 224 then String c (String.substring 0 1 rest)
      else if byte c <? 240 then String c (String.substring 0 2 rest)
      else
        match rest with
        | String c1 (String c2 (String c3 _)) =>
            let cp := (byte c - 240) * 262144 + (byte c1 - 128) * 4096
                      + (byte c2 - 128) * 64 + (byte c3 - 128) in
            let high := 55296 + (cp - 65536) / 1024 in
            String (char (224 + high / 4096))
              (String (char (128 + (high / 64) mod 64))
                 (String (char (128 + high mod 64)) ""))
        | _ => s
        end
  end.

(** [v[0]] *)
Definition get_index0 (v : jsval) : result jsval :=
  match v with
  | JArr elems => Ok (nth 0 elems JUndefined)
  | JStr EmptyString => Ok JUndefined
  | JStr s => Ok (JStr (first_code_unit s))
  | _ => get v "0"
  end.

(** The names [Object.prototype] defines: an object literal inherits them. *)
Definition Object_prototype_names : list string :=
  [ "constructor"; "hasOwnProperty"; "isPrototypeOf"; "propertyIsEnumerable";
    "toLocaleString"; "toString"; "valueOf"; "__proto__";
    "__defineGetter__"; "__defineSetter__"; "__lookupGetter__";
    "__lookupSetter__" ].

End JS.

Import JS.

(** ** The rendered tree *)

(** What React renders: the host elements with their attributes (event
    handlers and keys are left out: a key steers reconciliation only)
    and, for the [{expression}] children, what becomes of the value. *)
Inductive jsx : Type :=
| Text (s : string)
| Numeral (x : number)
| Nothing
| Fragment (children : list jsx)
| Element (tag : string) (attrs : list (string * string)) (children : list jsx).

Module React.

(** A value as a child: booleans, null and undefined render nothing, a
    string and a number render as text, an array renders its elements,
    and an object is refused. *)
Fixpoint child_of (v : jsval) : result jsx :=
  match v with
  | JUndefined | JNull | JBool _ => Ok Nothing
  | JNum x => Ok (Numeral x)
  | JStr s => Ok (Text s)
  | JArr elems => cs <- mapM child_of elems ;; Ok (Fragment cs)
  | JObj _ => Throw InvalidChild
  end.

(** The key of an element, [undefined] for none: React keeps it as a
    string. *)
Definition key_of (v : jsval) : result (option string) :=
  match v with
  | JUndefined => Ok None
  | _ => s <- ToString v ;; Ok (Some s)
  end.

(** The prop [name={v}] of a host element: left out for null and
    undefined, the value as a string otherwise. *)
Definition prop_of (name : string) (v : jsval) : result (list (string * string)) :=
  match v with
  | JUndefined | JNull => Ok []
  | _ => s <- ToString v ;; Ok [(name, s)]
  end.

(** The text of the DOM subtree (Node.textContent). *)
Fixpoint text_content (t : jsx) : string :=
  match t with
  | Text s => s
  | Numeral x => Number.toString x
  | Nothing => ""
  | Fragment cs | Element _ _ cs =>
      (fix all (l : list jsx) : string :=
         match l with
         | [] => ""
         | c :: l' => text_content c ++ all l'
         end) cs
  end.

Definition children (t : jsx) : list jsx :=
  match t with
  | Fragment cs | Element _ _ cs => cs
  | _ => []
  end.

(** The [i]-th child, counted from 0. *)
Definition child (i : nat) (t : jsx) : jsx := nth i (children t) Nothing.

Definition attr (k : string) (t : jsx) : option string :=
  match t with
  | Element _ attrs _ => lookup k attrs
  | _ => None
  end.

Definition tag_of (t : jsx) : option string :=
  match t with
  | Element tag _ _ => Some tag
  | _ => None
  end.

End React.

Import React.

(** ** components/ActionBanner.jsx *)

Record banner : Type := { className : string; text : string }.

Definition actionConfig : list (string * banner) :=
  [ ("flag",
     {| className := "action-flag";
        text := "🚨 ACTION REQUIRED: Flag this listing for review" |});
    ("monitor",
     {| className := "action-monitor";
        text := "👁️ Keep monitoring this listing" |});
    ("ignore",
     {| className := "action-ignore";
        text := "✓ No action needed" |}) ].

(** [actionConfig.ignore] *)
Definition actionConfig_ignore : banner :=
  {| className := "action-ignore"; text := "✓ No action needed" |}.

(** What [actionConfig[key]] can be besides undefined: one of the three
    records, or what the literal inherits from [Object.prototype] under
    that name (a built-in function, or the prototype itself for
    [__proto__]). *)
Inductive config : Type :=
| OwnConfig (c : banner)
| Inherited (name : string).

(** [actionConfig[key]]; [None] is undefined. *)
Definition actionConfig_get (key : string) : option config :=
  match lookup key actionConfig with
  | Some c => Some (OwnConfig c)
  | None =>
      if existsb (String.eqb key) Object_prototype_names
      then Some (Inherited key)
      else None
  end.

(** [config.className]: no built-in has a property of that name. *)
Definition config_className (c : config) : jsval :=
  match c with
  | OwnConfig b => JStr (className b)
  | Inherited _ => JUndefined
  end.

(** [config.text] *)
Definition config_text (c : config) : jsval :=
  match c with
  | OwnConfig b => JStr (text b)
  | Inherited _ => JUndefined
  end.

Definition ActionBanner (action : jsval) : result jsx :=
  key <- ToString action ;;
  (* every value found is an object or a function: truthy *)
  let config := match actionConfig_get key with
                | Some c => c
                | None => OwnConfig actionConfig_ignore
                end in
  cls <- ToString (config_className config) ;;
  shown <- child_of (config_text config) ;;
  Ok (Element "div" [("className", "action-banner " ++ cls)] [shown]).

(** ** components/RiskDrivers.jsx *)

Definition RiskDrivers (drivers : jsval) : result jsx :=
  len <- get_length drivers ;;
  body <-
    (if strict_eq_zero len then
       Ok (Element "p" [("className", "no-drivers")]
             [Text "✓ No significant risk factors detected"])
     else
       items <- call_map drivers (fun driver index =>
                  shown <- child_of driver ;;
                  Ok (Element "li" [] [shown])) ;;
       Ok (Element "ul" [] items)) ;;
  Ok (Element "div" [("className", "risk-drivers")]
        [Element "h2" [] [Text "⚠️ Risk Drivers"]; body]).

(** ** components/AspectsGrid.jsx *)

Definition AspectCard (aspect : jsval) : result jsx :=
  trend <- get aspect "trend" ;;
  trendName <- ToString trend ;;
  let trendClass := "trend-" ++ trendName in
  name <- get aspect "name" ;;
  title <- call_replace name "_" " " ;;
  sentiment_label <- get aspect "sentiment_label" ;;
  sentiment <- get aspect "sentiment" ;;
  fixed <- call_toFixed2 sentiment ;;
  let up := if strict_eq_string trend "improving" then JStr "↑ " else JBool false in
  let down := if strict_eq_string trend "declining" then JStr "↓ " else JBool false in
  variance_label <- get aspect "variance_label" ;;
  mention_count <- get aspect "mention_count" ;;
  (* the children, as React takes them in *)
  label_c <- child_of sentiment_label ;;
  up_c <- child_of up ;;
  down_c <- child_of down ;;
  trend_c <- child_of trend ;;
  variance_c <- child_of variance_label ;;
  mention_c <- child_of mention_count ;;
  Ok (Element "div" [("className", "aspect-card")]
        [ Element "h3" [] [Text title];
          Element "div" [("className", "aspect-row")]
            [ Element "span" [] [Text "Sentiment"];
              Element "span" [] [label_c; Text " ("; Text fixed; Text ")"] ];
          Element "div" [("className", "aspect-row")]
            [ Element "span" [] [Text "Trend"];
              Element "span" [("className", trendClass)] [up_c; down_c; trend_c] ];
          Element "div" [("className", "aspect-row")]
            [ Element "span" [] [Text "Consistency"];
              Element "span" [] [variance_c] ];
          Element "div" [("className", "aspect-row")]
            [ Element "span" [] [Text "Mentions"];
              Element "span" [] [mention_c] ] ]).

(** [<AspectCard key={aspect.name} aspect={aspect} />]: the element, made
    with its key; the card is rendered later. *)
Definition keyed_aspect (aspect : jsval) : result jsval :=
  name <- get aspect "name" ;;
  key <- key_of name ;;
  Ok aspect.

(** [AspectsGrid] makes one element per aspect; React renders the cards
    once all are made. *)
Definition AspectsGrid (aspects : jsval) : result jsx :=
  keyed <- call_map aspects (fun aspect _ => keyed_aspect aspect) ;;
  cards <- mapM AspectCard keyed ;;
  Ok (Element "div" [("className", "aspects-grid")] cards).

(** ** components/StatusCard.jsx *)

Definition StatusCard `{Host} (risk riskScore confidence ratingTrust : jsval)
  : result jsx :=
  lowered <- call_toLowerCase risk ;;
  let riskClass := "risk-" ++ lowered in
  riskValueClass <- call_toLowerCase risk ;;
  c <- ToNumber confidence ;;
  let percent := Math_round (mul c (of_Z 100)) in
  let trustClass := if strict_eq_string ratingTrust "Reliable" then "low" else "high" in
  risk_c <- child_of risk ;;
  score_c <- child_of riskScore ;;
  trust_c <- child_of ratingTrust ;;
  Ok (Element "div" [("className", "status-card " ++ riskClass)]
        [ Element "h2" [] [Text "Overall Status"];
          Element "div" [("className", "status-metrics")]
            [ Element "div" [("className", "metric")]
                [ Element "div" [("className", "metric-label")] [Text "Risk Level"];
                  Element "div" [("className", "metric-value " ++ riskValueClass)]
                    [risk_c] ];
              Element "div" [("className", "metric")]
                [ Element "div" [("className", "metric-label")] [Text "Risk Score"];
                  Element "div" [("className", "metric-value")]
                    [score_c; Text "/100"] ];
              Element "div" [("className", "metric")]
                [ Element "div" [("className", "metric-label")] [Text "Confidence"];
                  Element "div" [("className", "metric-value")]
                    [Numeral percent; Text "%"] ];
              Element "div" [("className", "metric")]
                [ Element "div" [("className", "metric-label")] [Text "Rating Trust"];
                  Element "div" [("className", "metric-value " ++ trustClass)]
                    [trust_c] ] ] ]).

(** ** components/ListingInput.jsx *)

(** [<option key={id} value={id}>{id}</option>]: the element, made with
    its key, and what React renders of it later. *)
Definition keyed_option (id : jsval) : result jsval :=
  key <- key_of id ;;
  Ok id.

Definition option_element (id : jsval) : result jsx :=
  shown <- child_of id ;;
  value <- prop_of "value" id ;;
  Ok (Element "option" value [shown]).

(** [listings.map(...)], and the options rendered. *)
Definition option_elements (listings : jsval) : result (list jsx) :=
  keyed <- call_map listings (fun id _ => keyed_option id) ;;
  mapM option_element keyed.

Definition ListingInput (listings selected : jsval) : result jsx :=
  options <- option_elements listings ;;
  value <- prop_of "value" selected ;;
  Ok (Element "div" [("className", "listing-input")]
        [ Element "label" [("htmlFor", "listing-select")] [Text "Select Listing"];
          Element "select" (("id", "listing-select") :: value) options ]).

(** ** App.jsx *)

(** The page is rendered by React 18 from [createRoot]: the state a
    handler sets is rendered once the handler is through, an effect runs
    after the render that changed its dependency, and a render that throws
    takes the page down, as no component catches what another throws. *)

Definition API_BASE `{Host} : string :=
  if PROD then "/api" else "http://localhost:8000".

(** The five [useState] cells. Nothing checks what a response holds, so
    [listings] and [selectedListing] are values of any kind. *)
Record State : Type := {
  listings : jsval;
  selectedListing : jsval;
  assessment : jsval;
  loading : bool;
  error : jsval
}.

Definition initial : State :=
  {| listings := JArr []; selectedListing := JStr ""; assessment := JNull;
     loading := false; error := JNull |}.

(** How a fetch settles: [fetch] rejects with an error of that message,
    or it resolves with a response whose [ok] flag is given and whose
    [json()] resolves with a value ([inl]) or rejects with an error of
    that message ([inr]). *)
Inductive outcome : Type :=
| Rejected (message : string)
| Response (ok : bool) (body : jsval + string).

(** [fetch] or [json()] rejects. *)
Definition rejected (o : outcome) : bool :=
  match o with
  | Rejected _ | Response _ (inr _) => true
  | Response _ (inl _) => false
  end.

(** The listings fetch gives no array: it is rejected, or [json()] gives
    something else. *)
Definition no_listings (o : outcome) : bool :=
  match o with
  | Response _ (inl data) => negb (is_array data)
  | _ => true
  end.

(** The effect on [selectedListing]: the state it leaves and the URLs it
    fetches. *)
Definition assessment_effect `{Host} (st : State) : result (State * list string) :=
  if negb (truthy (selectedListing st)) then Ok (st, [])
  else
    id <- ToString (selectedListing st) ;;
    Ok ({| listings := listings st; selectedListing := selectedListing st;
           assessment := assessment st; loading := true; error := JNull |},
        [API_BASE ++ "/listing/" ++ id]).

(** The state setter [setSelectedListing(v)]: the state, and whether the
    value held changed. *)
Definition set_selectedListing (v : jsval) (st : State) : State * bool :=
  ({| listings := listings st; selectedListing := v;
      assessment := assessment st; loading := loading st;
      error := error st |},
   negb (Object_is (selectedListing st) v)).

(** The effect on [selectedListing] runs again when the value changed. *)
Definition effects `{Host} (handled : State * bool) : result (State * list string) :=
  if snd handled then assessment_effect (fst handled)
  else Ok (fst handled, []).

(** [onChange] of the selector: [setSelectedListing(e.target.value)], and
    the effect that follows. *)
Definition setSelectedListing `{Host} (id : string) (st : State)
  : result (State * list string) :=
  effects (set_selectedListing (JStr id) st).

(** The first render: both effects run, each once, the first fetches the
    listings, the second finds no selection. *)
Definition mount `{Host} : result (State * list string) :=
  handled <- assessment_effect initial ;;
  Ok (fst handled, (API_BASE ++ "/listings") :: snd handled).

(** [data.length > 0] and, if so, [data[0]]. *)
Definition first_of `{Host} (data : jsval) : result (option jsval) :=
  len <- get_length data ;;
  some <- gt_zero len ;;
  if some then first <- get_index0 data ;; Ok (Some first)
  else Ok None.

Definition listings_failed (st : State) : State :=
  {| listings := listings st; selectedListing := selectedListing st;
     assessment := assessment st; loading := loading st;
     error := JStr "Failed to load listings" |}.

(** The handlers of the listings fetch. The response's [ok] flag is not
    looked at; what [json()] gives is stored before its [length] is read,
    and the [.catch] handler runs on a rejection of [fetch] or of [json()]
    and on what the [.then] handler throws. *)
Definition listings_handler `{Host} (o : outcome) (st : State) : State * bool :=
  match o with
  | Rejected _ | Response _ (inr _) => (listings_failed st, false)
  | Response _ (inl data) =>
      let st' := {| listings := data; selectedListing := selectedListing st;
                    assessment := assessment st; loading := loading st;
                    error := error st |} in
      match first_of data with
      | Ok (Some first) => set_selectedListing first st'
      | Ok None => (st', false)
      | Throw _ => (listings_failed st', false)
      end
  end.


(** The [.catch] handler of the assessment fetch. *)
Definition assessment_failed (message : string) (st : State) : State :=
  {| listings := listings st; selectedListing := selectedListing st;
     assessment := assessment st; loading := false; error := JStr message |}.

Definition assessment_settled (o : outcome) (st : State) : State :=
  match o with
  | Rejected message => assessment_failed message st
  | Response false _ => assessment_failed "Listing not found" st
  | Response true (inr message) => assessment_failed message st
  | Response true (inl data) =>
      {| listings := listings st; selectedListing := selectedListing st;
         assessment := data; loading := false; error := error st |}
  end.

(** Whether the fetch failed, and with which message. *)
Definition failure_message (o : outcome) : option string :=
  match o with
  | Rejected message => Some message
  | Response false _ => Some "Listing not found"
  | Response true (inr message) => Some message
  | Response true (inl _) => None
  end.

(** The fragment under [assessment && !loading], as [App] builds it: the
    props are read and the date is formatted in [App]; what comes back is
    the rendering of the elements, which React does after [App] has
    returned. *)
Definition section_elements `{Host} (a : jsval) : result (result jsx) :=
  risk <- get a "overall_risk" ;;
  riskScore <- get a "risk_score" ;;
  confidence <- get a "confidence" ;;
  ratingTrust <- get a "rating_trust" ;;
  aspects <- get a "aspects" ;;
  drivers <- get a "risk_drivers" ;;
  action <- get a "recommended_action" ;;
  review_count <- get a "review_count" ;;
  assessment_date <- get a "assessment_date" ;;
  date <- ToPrimitive assessment_date ;;
  let shown_date := toLocaleDateString date in
  Ok ((* the components, in document order *)
      status <- StatusCard risk riskScore confidence ratingTrust ;;
      grid <- AspectsGrid aspects ;;
      reasons <- RiskDrivers drivers ;;
      banner <- ActionBanner action ;;
      count_c <- child_of review_count ;;
      Ok (Fragment
            [ status; grid; reasons; banner;
              Element "div" [("className", "metadata")]
                [count_c; Text " reviews analyzed • Assessment: ";
                 Text shown_date] ])).

(** The fragment, built and rendered. *)
Definition assessment_section `{Host} (a : jsval) : result jsx :=
  rendering <- section_elements a ;;
  rendering.

(** [App] builds its elements, the section's among them; React then
    renders them in document order: the selector, the loading and error
    regions, the section. *)
Definition App `{Host} (st : State) : result jsx :=
  section_e <-
    (if truthy (assessment st) && negb (loading st)
     then rendering <- section_elements (assessment st) ;; Ok (Some rendering)
     else Ok None) ;;
  selector <- ListingInput (listings st) (selectedListing st) ;;
  let loading_c :=
    if loading st
    then Element "div" [("className", "loading")] [Text "Loading assessment..."]
    else Nothing in
  error_c <-
    (if truthy (error st)
     then shown <- child_of (error st) ;;
          Ok (Element "div" [("className", "error")] [Text "Error: "; shown])
     else child_of (error st)) ;;
  section_c <-
    match section_e with
    | Some rendering => rendering
    | None => if truthy (assessment st) then Ok Nothing
              else child_of (assessment st)
    end ;;
  Ok (Element "div" [("className", "app")]
        [ Element "h1" [] [Text "🏠 Listing Intelligence Dashboard"];
          selector; loading_c; error_c; section_c ]).

(** ** The page in time *)

(** The state with the fetches in flight, by URL, oldest first, and
    whether the page is still mounted. *)
Record Page : Type := {
  state : State;
  pending : list string;
  live : bool
}.

(** What happens to a mounted page: a fetch settles, or the user picks an
    option of the selector. *)
Inductive event : Type :=
| ListingsSettle (o : outcome)
| AssessmentSettle (url : string) (o : outcome)
| Select (id : string).

Fixpoint remove_first (url : string) (l : list string) : list string :=
  match l with
  | [] => []
  | u :: l' => if String.eqb url u then l' else u :: remove_first url l'
  end.

Definition is_pending (url : string) (p : Page) : bool :=
  existsb (String.eqb url) (pending p).

Definition renders `{Host} (st : State) : bool :=
  match App st with
  | Ok _ => true
  | Throw _ => false
  end.

(** The page React took down: its state is set no more. *)
Definition unmounted (st : State) (fetches : list string) : Page :=
  {| state := st; pending := fetches; live := false |}.

(** React renders the state the handlers left; if that went well the
    effect runs where the selection changed, and the state it sets is
    rendered in turn. *)
Definition commit `{Host} (handled : State * bool) (fetches : list string) : Page :=
  if renders (fst handled) then
    match effects handled with
    | Ok (st, fetched) =>
        {| state := st; pending := fetches ++ fetched; live := renders st |}
    | Throw _ => unmounted (fst handled) fetches
    end
  else unmounted (fst handled) fetches.

Definition mounted `{Host} : Page :=
  if renders initial then
    match mount with
    | Ok (st, fetched) => {| state := st; pending := fetched; live := renders st |}
    | Throw _ => unmounted initial []
    end
  else unmounted initial [].

(** The value of an [option] element: its [value] attribute, its text
    without one. *)
Definition option_value (o : jsx) : string :=
  match attr "value" o with
  | Some v => v
  | None => text_content o
  end.

(** The values the selector offers for the listings. *)
Definition offered (listings : jsval) : list string :=
  match option_elements listings with
  | Ok options => map option_value options
  | Throw _ => []
  end.

(** The page after an event; [None] when the event cannot happen: only a
    fetch in flight settles, only an option of the selector on the page is
    picked. On a page taken down a fetch still settles, and changes
    nothing. *)
Definition react `{Host} (e : event) (p : Page) : option Page :=
  match e with
  | ListingsSettle o =>
      if is_pending (API_BASE ++ "/listings") p then
        let fetches := remove_first (API_BASE ++ "/listings") (pending p) in
        Some (if live p then commit (listings_handler o (state p)) fetches
              else unmounted (state p) fetches)
      else None
  | AssessmentSettle url o =>
      if is_pending url p && negb (String.eqb url (API_BASE ++ "/listings")) then
        let fetches := remove_first url (pending p) in
        Some (if live p then commit (assessment_settled o (state p), false) fetches
              else unmounted (state p) fetches)
      else None
  | Select id =>
      if live p && existsb (String.eqb id) (offered (listings (state p))) then
        Some (commit (set_selectedListing (JStr id) (state p)) (pending p))
      else None
  end.

(** The events of a run, the latest first, and the page they lead to. *)
Inductive run `{Host} : list event -> Page -> Prop :=
| run_mount : run [] mounted
| run_event (es : list event) (p : Page) (e : event) (p' : Page) :
    run es p -> react e p = Some p' -> run (e :: es) p'.

Definition is_listings_settle (e : event) : bool :=
  match e with
  | ListingsSettle _ => true
  | _ => false
  end.

(** The listings settle without giving an array. *)
Definition gives_no_listings (e : event) : bool :=
  match e with
  | ListingsSettle o => no_listings o
  | _ => false
  end.

(** The page after the events [es], the latest first, if they can happen
    in that order. *)
Fixpoint after `{Host} (es : list event) : option Page :=
  match es with
  | [] => Some mounted
  | e :: es' =>
      match after es' with
      | Some p => react e p
      | None => None
      end
  end.

(** The selection is the empty string it started as, the first element
    of the listings, or a value the selector offers. *)
Definition selection_known `{Host} (st : State) : Prop :=
  selectedListing st = JStr ""
  \/ first_of (listings st) = Ok (Some (selectedListing st))
  \/ exists id, In id (offered (listings st)) /\ selectedListing st = JStr id.

(** The error is null or a message. *)
Definition error_known (st : State) : Prop :=
  error st = JNull \/ exists message, error st = JStr message.

(** What holds of a page once the listings have settled: the selection is
    known; a set loading flag has a fetch in flight, on a page that is
    mounted; only assessments are in flight; a mounted page renders; and
    with listings that are no array the page was taken down before any
    assessment was fetched. *)
Definition page_invariant `{Host} (p : Page) : Prop :=
  selection_known (state p)
  /\ (loading (state p) = true ->
      live p = true /\ exists id, In (API_BASE ++ "/listing/" ++ id) (pending p))
  /\ (forall u, In u (pending p) -> exists id, u = API_BASE ++ "/listing/" ++ id)
  /\ (live p = true -> renders (state p) = true)
  /\ error_known (state p)
  /\ (is_array (listings (state p)) = false ->
      live p = false /\ assessment (state p) = JNull
      /\ loading (state p) = false /\ pending p = []).

(** What holds of a page over a run: until the listings settle the page
    is as mounted; they settle once, and from then on the page keeps its
    invariant. *)
Definition run_invariant `{Host} (es : list event) (p : Page) : Prop :=
  (p = {| state := initial; pending := [API_BASE ++ "/listings"]; live := true |}
   /\ filter is_listings_settle es = [])
  \/ (List.length (filter is_listings_settle es) = 1%nat /\ page_invariant p).

(** ** The assessment of the data model, with fields missing *)

Definition is_string (v : jsval) : bool :=
  match v with
  | JStr _ => true
  | _ => false
  end.

Definition is_number (v : jsval) : bool :=
  match v with
  | JNum _ => true
  | _ => false
  end.

(** Neither an array nor an object. *)
Definition primitive (v : jsval) : bool :=
  match v with
  | JArr _ | JObj _ => false
  | _ => true
  end.

Definition array_of (p : jsval -> bool) (v : jsval) : bool :=
  match v with
  | JArr elems => forallb p elems
  | _ => false
  end.

(** What reading the property [k] gives. *)
Definition field (k : string) (props : list (string * jsval)) : jsval :=
  match lookup k props with
  | Some v => v
  | None => JUndefined
  end.

Definition present (k : string) (props : list (string * jsval)) : bool :=
  match lookup k props with
  | Some _ => true
  | None => false
  end.

(** The property [k] is missing or holds a value of the kind [p]. *)
Definition optional (p : jsval -> bool) (k : string)
           (props : list (string * jsval)) : bool :=
  match lookup k props with
  | Some v => p v
  | None => true
  end.

(** An Aspect in which any field may be missing. *)
Definition partial_aspect (v : jsval) : bool :=
  match v with
  | JObj props =>
      optional is_string "name" props
      && optional is_number "sentiment" props
      && optional is_string "sentiment_label" props
      && optional is_string "trend" props
      && optional is_string "variance_label" props
      && optional is_number "mention_count" props
  | _ => false
  end.

(** An Assessment in which any field may be missing. *)
Definition partial_assessment (v : jsval) : bool :=
  match v with
  | JObj props =>
      optional is_string "overall_risk" props
      && optional is_number "risk_score" props
      && optional is_number "confidence" props
      && optional is_string "rating_trust" props
      && optional (array_of partial_aspect) "aspects" props
      && optional (array_of is_string) "risk_drivers" props
      && optional is_string "recommended_action" props
      && optional is_number "review_count" props
      && optional is_string "assessment_date" props
  | _ => false
  end.

(** The fields the components call a method on or read [length] of. *)
Definition aspect_has_required (v : jsval) : bool :=
  match v with
  | JObj props => present "name" props && present "sentiment" props
  | _ => false
  end.

Definition has_required (v : jsval) : bool :=
  match v with
  | JObj props =>
      present "overall_risk" props
      && array_of aspect_has_required (field "aspects" props)
      && present "risk_drivers" props
  | _ => false
  end.

(** What the card of an aspect shows where a field is missing: nothing,
    and the class "trend-undefined" for the trend. *)
Definition card_with_blanks (aspect : jsval) (card : jsx) : Prop :=
  AspectCard aspect = Ok card /\
  exists props,
    aspect = JObj props /\
    (present "sentiment_label" props = false ->
     child 0 (child 1 (child 1 card)) = Nothing) /\
    (present "trend" props = false ->
     child 1 (child 2 card) =
       Element "span" [("className", "trend-undefined")]
         [Nothing; Nothing; Nothing]) /\
    (present "variance_label" props = false ->
     child 1 (child 3 card) = Element "span" [] [Nothing]) /\
    (present "mention_count" props = false ->
     child 1 (child 4 card) = Element "span" [] [Nothing]).

(** ** A host for the examples *)

Module ExampleHost.

Definition lower_ascii (c : ascii) : ascii :=
  let n := nat_of_ascii c in
  if (65 <=? n)%nat && (n <=? 90)%nat then ascii_of_nat (n + 32) else c.

Fixpoint lower (s : string) : string :=
  match s with
  | EmptyString => EmptyString
  | String c s' => String (lower_ascii c) (lower s')
  end.

Fixpoint drop_zeros (s : string) : string :=
  match s with
  | String "0" ((String _ _) as rest) => drop_zeros rest
  | _ => s
  end.

Definition digit (c : ascii) : option nat :=
  let n := nat_of_ascii c in
  if (48 <=? n)%nat && (n <=? 57)%nat then Some (n - 48)%nat else None.

(** The number a string of digits writes. *)
Fixpoint numeral (s : string) (acc : nat) : option nat :=
  match s with
  | EmptyString => Some acc
  | String c s' =>
      match digit c with
      | Some d => numeral s' (10 * acc + d)
      | None => None
      end
  end.

Definition leap (year : nat) : bool :=
  ((year mod 4 =? 0) && negb (year mod 100 =? 0) || (year mod 400 =? 0))%nat.

Definition days_in (year month : nat) : nat :=
  (match month with
   | 2 => if leap year then 29 else 28
   | 4 | 6 | 9 | 11 => 30
   | _ => 31
   end)%nat.

(** The dates of the examples: this platform reads a calendar date
    [yyyy-mm-dd] from the year 1000 on, and no day past the end of its
    month, and shows it the en-US way at UTC; anything else it does not
    read as a date. *)
Definition en_US_date (v : jsval) : string :=
  match v with
  | JStr s =>
      match numeral (String.substring 0 4 s) 0,
            numeral (String.substring 5 2 s) 0,
            numeral (String.substring 8 2 s) 0 with
      | Some year, Some month, Some day =>
          if (String.length s =? 10)%nat
             && String.eqb (String.substring 4 1 s) "-"
             && String.eqb (String.substring 7 1 s) "-"
             && (1000 <=? year)%nat
             && (1 <=? month)%nat && (month <=? 12)%nat
             && (1 <=? day)%nat && (day <=? days_in year month)%nat
          then drop_zeros (String.substring 5 2 s) ++ "/" ++
               drop_zeros (String.substring 8 2 s) ++ "/" ++
               String.substring 0 4 s
          else "Invalid Date"
      | _, _, _ => "Invalid Date"
      end
  | _ => "Invalid Date"
  end.

(** ASCII case mapping, a development build, no string read as a number
    (the examples convert none). *)
#[export] Instance host : Host := {|
  PROD := false;
  toLowerCase := lower;
  StringToNumber := fun _ => S754_nan;
  toLocaleDateString := en_US_date
|}.

(** The assessment of the scenario in section 8 of the specification. *)
Definition wifi_speed : jsval :=
  JObj [ ("name", JStr "wifi_speed");
         ("sentiment", JNum (of_decimal (-42) 2));
         ("sentiment_label", JStr "Negative");
         ("trend", JStr "declining");
         ("variance_label", JStr "High variance");
         ("mention_count", JNum (of_Z 14)) ].

Definition scenario : jsval :=
  JObj [ ("overall_risk", JStr "High");
         ("risk_score", JNum (of_Z 72));
         ("confidence", JNum (of_decimal 5 1));
         ("rating_trust", JStr "Unreliable");
         ("aspects", JArr [wifi_speed]);
         ("risk_drivers", JArr [JStr "Noise complaints"]);
         ("recommended_action", JStr "flag");
         ("review_count", JNum (of_Z 120));
         ("assessment_date", JStr "2024-01-15") ].

(** The state once the listings "A" and "B" have arrived. *)
Definition listed : State :=
  {| listings := JArr [JStr "A"; JStr "B"]; selectedListing := JStr "A";
     assessment := JNull; loading := true; error := JNull |}.

(** "B" is picked while the assessment of "A" loads; the latest event
    first. *)
Definition events : list event :=
  [Select "B"; ListingsSettle (Response true (inl (JArr [JStr "A"; JStr "B"])))].

(** The page once the listings have arrived: the assessment of "A" is
    in flight. *)
Definition listed_page : Page :=
  {| state := listed; pending := ["http://localhost:8000/listing/A"];
     live := true |}.

(** The page after [events]: both assessments are in flight. *)
Definition page : Page :=
  {| state := {| listings := JArr [JStr "A"; JStr "B"];
                 selectedListing := JStr "B";
                 assessment := JNull; loading := true; error := JNull |};
     pending := [ "http://localhost:8000/listing/A";
                  "http://localhost:8000/listing/B" ];
     live := true |}.

(** [v] with the field [k] missing. *)
Definition without (k : string) (v : jsval) : jsval :=
  match v with
  | JObj props =>
      JObj (filter (fun p => negb (String.eqb (fst p) k)) props)
  | _ => v
  end.

(** [v] with the field [k] holding [x]. *)
Definition having (k : string) (x : jsval) (v : jsval) : jsval :=
  match without k v with
  | JObj props => JObj ((k, x) :: props)
  | w => w
  end.

End ExampleHost.

(** * Properties *)

(** ** Rounding to binary64 *)

Section Binary64.

Lemma fexp_binary64 (e : Z) : fexp prec emax e = Z.max (e - 53) (-1074).
Proof. reflexivity. Qed.

Lemma digits2_pos_size (m : positive) : digits2_pos m = Pos.size m.
Proof. induction m; simpl; congruence. Qed.

Lemma digits2_pos_bounds (m : positive) :
  2 ^ (Zpos (digits2_pos m) - 1) <= Zpos m < 2 ^ Zpos (digits2_pos m).
Proof.
  rewrite digits2_pos_size.
  pose proof (Pos.size_gt m) as Hgt.
  pose proof (Pos.size_le m) as Hle.
  apply Pos2Z.pos_lt_pos in Hgt. apply Pos2Z.pos_le_pos in Hle.
  rewrite Pos2Z.inj_pow in Hgt, Hle.
  replace (Zpos (Pos.size m)) with (Z.succ (Zpos (Pos.size m) - 1)) in Hle by lia.
  rewrite Z.pow_succ_r in Hle by lia.
  change (Zpos m~0) with (2 * Zpos m) in Hle. lia.
Qed.

Lemma shr_1_m (r : shr_record) :
  0 <= shr_m r -> shr_m (shr_1 r) = shr_m r / 2.
Proof.
  destruct r as [m r s]; simpl; intros Hm.
  rewrite <- Z.div2_div.
  destruct m as [|[p|p|]|p]; try reflexivity; lia.
Qed.

Lemma iter_shr_1_m (p : positive) :
  forall r, 0 <= shr_m r ->
            shr_m (iter_pos shr_1 p r) = shr_m r / 2 ^ Zpos p.
Proof.
  induction p as [p IH|p IH|]; intros r Hr; simpl iter_pos.
  - assert (H1 : 0 <= shr_m (shr_1 r)) by (rewrite shr_1_m by lia; apply Z.div_pos; lia).
    assert (H2 : 0 <= shr_m (iter_pos shr_1 p (shr_1 r)))
      by (rewrite IH by lia; apply Z.div_pos; lia).
    rewrite IH, IH, shr_1_m by lia.
    rewrite !Z.div_div by lia.
    f_equal. replace (Zpos p~1) with (1 + Zpos p + Zpos p) by lia.
    rewrite !Z.pow_add_r by lia. lia.
  - assert (H2 : 0 <= shr_m (iter_pos shr_1 p r))
      by (rewrite IH by lia; apply Z.div_pos; lia).
    rewrite IH, IH by lia.
    rewrite !Z.div_div by lia.
    f_equal. replace (Zpos p~0) with (Zpos p + Zpos p) by lia.
    rewrite !Z.pow_add_r by lia. lia.
  - rewrite shr_1_m by lia. reflexivity.
Qed.

(** The first shift of [binary_round_aux]: to the exponent [fexp] asks
    for, if that is larger; the mantissa is divided. *)
Lemma shr_fexp_m (m : positive) (e : Z) (l : location) :
  let e1 := Z.max e (fexp prec emax (Zpos (digits2_pos m) + e)) in
  exists r, shr_fexp prec emax (Zpos m) e l = (r, e1)
            /\ shr_m r = Zpos m / 2 ^ (e1 - e).
Proof.
  intros e1. unfold shr_fexp, shr. simpl Zdigits2.
  assert (Hm : forall l, shr_m (shr_record_of_loc (Zpos m) l) = Zpos m)
    by (intros [|[]]; reflexivity).
  destruct (fexp prec emax (Zpos (digits2_pos m) + e) - e) as [|k|k] eqn:Hk.
  - eexists; split; [f_equal; lia|].
    rewrite Hm. replace (e1 - e) with 0 by lia. rewrite Z.div_1_r. reflexivity.
  - eexists; split; [f_equal; lia|].
    rewrite iter_shr_1_m by (rewrite Hm; lia).
    rewrite Hm. f_equal. f_equal. lia.
  - eexists; split; [f_equal; lia|].
    rewrite Hm. replace (e1 - e) with 0 by lia. rewrite Z.div_1_r. reflexivity.
Qed.

Lemma round_nearest_even_bounds (m : Z) (l : location) :
  m <= round_nearest_even m l <= m + 1.
Proof. destruct l as [|[]]; simpl; try lia. destruct (Z.even m); lia. Qed.

(** Rounding an exact [M * 2^E]: the mantissa is divided down to the
    exponent [fexp] asks for and goes up by one at most; a mantissa that
    reaches [2^53] moves to the next exponent. *)
Lemma binary_round_aux_exact (s : bool) (M : positive) (E : Z) :
  let E1 := Z.max E (fexp prec emax (Zpos (digits2_pos M) + E)) in
  let q := Zpos M / 2 ^ (E1 - E) in
  let r := binary_round_aux prec emax s (Zpos M) E loc_Exact in
  (q = 0 /\ r = S754_zero s)
  \/ (exists p, q <= Zpos p <= q + 1 /\ Zpos p < 2 ^ 53
                /\ r = if E1 <=? 971 then S754_finite s p E1
                       else S754_infinity s)
  \/ (q + 1 = 2 ^ 53
      /\ r = if E1 + 1 <=? 971 then S754_finite s (2 ^ 52)%positive (E1 + 1)
             else S754_infinity s).
Proof.
  intros E1 q r. subst r. unfold binary_round_aux.
  destruct (shr_fexp_m M E loc_Exact) as (r1 & H1 & Hq).
  fold E1 in H1, Hq. fold q in Hq. rewrite H1.
  assert (HE1def : E1 = Z.max E (fexp prec emax (Zpos (digits2_pos M) + E)))
    by reflexivity.
  assert (Hqdef : q = Zpos M / 2 ^ (E1 - E)) by reflexivity.
  clearbody q. clearbody E1.
  pose proof (round_nearest_even_bounds (shr_m r1) (loc_of_shr_record r1)) as Hb.
  set (m1 := round_nearest_even (shr_m r1) (loc_of_shr_record r1)) in *.
  rewrite Hq in Hb. clearbody m1.
  pose proof (digits2_pos_bounds M) as [_ HM].
  pose proof (fexp_binary64 (Zpos (digits2_pos M) + E)) as Hf.
  assert (Hk : 0 <= E1 - E) by lia.
  assert (Hpow : 0 < 2 ^ (E1 - E)) by (apply Z.pow_pos_nonneg; lia).
  assert (Hq0 : 0 <= q) by (rewrite Hqdef; apply Z.div_pos; lia).
  assert (Hq53 : q < 2 ^ 53).
  { rewrite Hqdef. apply Z.div_lt_upper_bound; [lia|].
    rewrite <- Z.pow_add_r by lia.
    eapply Z.lt_le_trans; [exact HM|].
    apply Z.pow_le_mono_r; lia. }
  assert (HE1 : -1074 <= E1) by lia.
  destruct m1 as [|p1|p1]; [| |lia].
  - left. split; [lia|].
    unfold shr_fexp, shr. simpl Zdigits2.
    destruct (fexp prec emax (0 + E1) - E1) as [|k|k] eqn:Hk2; try reflexivity.
    rewrite fexp_binary64 in Hk2. lia.
  - destruct (shr_fexp_m p1 E1 loc_Exact) as (r2 & H2 & Hq2).
    rewrite H2.
    pose proof (digits2_pos_bounds p1) as [Hp1 _].
    pose proof (fexp_binary64 (Zpos (digits2_pos p1) + E1)) as Hf1.
    destruct (Z.ltb_spec (Zpos p1) (2 ^ 53)) as [Hlt|Hge].
    + right; left. exists p1. repeat split; try lia.
      assert (Hd : Zpos (digits2_pos p1) <= 53).
      { destruct (Z.le_gt_cases (Zpos (digits2_pos p1)) 53) as [|Hgt]; [assumption|].
        assert (2 ^ 53 <= 2 ^ (Zpos (digits2_pos p1) - 1))
          by (apply Z.pow_le_mono_r; lia).
        lia. }
      replace (Z.max E1 (fexp prec emax (Zpos (digits2_pos p1) + E1))) with E1 in * by lia.
      rewrite Hq2. replace (E1 - E1) with 0 by lia.
      rewrite Z.div_1_r. reflexivity.
    + right; right. assert (Hp : Zpos p1 = 2 ^ 53) by lia.
      split; [lia|].
      assert (p1 = (2 ^ 53)%positive) by (apply Pos2Z.inj; rewrite Hp; reflexivity).
      subst p1.
      replace (Z.max E1 (fexp prec emax (Zpos (digits2_pos (2 ^ 53)) + E1)))
        with (E1 + 1) in *
        by (rewrite fexp_binary64; change (Zpos (digits2_pos (2 ^ 53))) with 54; lia).
      rewrite Hq2. replace (E1 + 1 - E1) with 1 by lia. reflexivity.
Qed.

Lemma binary_round_aux_not_zero (s s' : bool) (M : positive) (E : Z) :
  -1074 <= E ->
  binary_round_aux prec emax s (Zpos M) E loc_Exact <> S754_zero s'.
Proof.
  intros HE.
  pose proof (digits2_pos_bounds M) as [HM _].
  pose proof (fexp_binary64 (Zpos (digits2_pos M) + E)) as Hf.
  destruct (binary_round_aux_exact s M E) as [[Hq _]|[(p & _ & _ & ->)|[_ ->]]].
  - exfalso.
    set (E1 := Z.max E (fexp prec emax (Zpos (digits2_pos M) + E))) in *.
    assert (Hle : 2 ^ (E1 - E) <= Zpos M).
    { eapply Z.le_trans; [|exact HM]. apply Z.pow_le_mono_r; lia. }
    assert (Hpow : 0 < 2 ^ (E1 - E)) by (apply Z.pow_pos_nonneg; lia).
    pose proof (Z.div_le_mono _ _ (2 ^ (E1 - E)) Hpow Hle) as Hd.
    rewrite Z.div_same in Hd by lia. lia.
  - destruct (_ <=? _); discriminate.
  - destruct (_ <=? _); discriminate.
Qed.

Lemma shl_align_exponent (m : positive) (e e' : Z) :
  snd (shl_align m e e') = Z.min e e'.
Proof.
  unfold shl_align. destruct (e' - e) eqn:H; simpl; lia.
Qed.

(** A positive integer is no zero as a Number. *)
Lemma of_Z_pos_not_zero (p : positive) (s : bool) :
  of_Z (Zpos p) <> S754_zero s.
Proof.
  unfold of_Z, binary_normalize, binary_round.
  pose proof (shl_align_exponent p 0 (fexp prec emax (Zpos (digits2_pos p) + 0))) as He.
  destruct (shl_align p 0 _) as [mz ez]. simpl in He.
  apply binary_round_aux_not_zero.
  rewrite fexp_binary64 in He. lia.
Qed.

(** A positive integer is greater than 0 as a Number. *)
Lemma of_Z_pos_gt_zero (p : positive) :
  ltb (of_Z 0) (of_Z (Zpos p)) = true.
Proof.
  pose proof (of_Z_pos_not_zero p false) as Hz.
  assert (Hc : of_Z (Zpos p) = S754_zero false
               \/ (exists m e, of_Z (Zpos p) = S754_finite false m e)
               \/ of_Z (Zpos p) = S754_infinity false).
  { unfold of_Z, binary_normalize, binary_round.
    destruct (shl_align p 0 _) as [mz ez].
    destruct (binary_round_aux_exact false mz ez)
      as [[_ ->]|[(q & _ & _ & ->)|[_ ->]]]; [now left| |];
      right; destruct (_ <=? _); eauto. }
  destruct Hc as [Hc|[(m & e & ->)| ->]]; [contradiction|reflexivity|reflexivity].
Qed.

(** The integers a percentage can be print as their numerals. *)
Lemma toString_small_integer (n : Z) :
  0 < n <= 128 -> Number.toString (of_Z n) = digits_of_Z n.
Proof.
  intros Hn.
  assert (Hall : forallb (fun i => String.eqb (Number.toString (of_Z i)) (digits_of_Z i))
                   (map Z.of_nat (seq 1 128)) = true) by (vm_compute; reflexivity).
  rewrite forallb_forall in Hall.
  apply String.eqb_eq, Hall.
  apply in_map_iff. exists (Z.to_nat n). split; [lia|].
  apply in_seq. lia.
Qed.

Lemma round_half_up_dyadic (m d : positive) :
  round_half_up (Zpos m # d) =
  let q := Zpos m / Zpos d in
  let r := Zpos m mod Zpos d in
  if Zpos d <=? 2 * r then q + 1 else q.
Proof.
  unfold round_half_up, Qplus, Qfloor. simpl Qnum. simpl Qden.
  pose proof (Z.div_mod (Zpos m) (Zpos d) ltac:(lia)) as Hdm.
  pose proof (Z.mod_pos_bound (Zpos m) (Zpos d) ltac:(lia)) as Hr.
  cbv zeta.
  set (q := Zpos m / Zpos d) in *. set (r := Zpos m mod Zpos d) in *.
  rewrite Pos2Z.inj_mul.
  destruct (Z.leb_spec (Zpos d) (2 * r)).
  - symmetry. apply Z.div_unique with (r := 2 * r - Zpos d); lia.
  - symmetry. apply Z.div_unique with (r := 2 * r + Zpos d); lia.
Qed.

(** [Math.round] of a value of at most 128, as the page shows it. *)
Lemma Math_round_text (p k : positive) :
  Zpos p <= 128 * 2 ^ Zpos k ->
  Number.toString (Math_round (S754_finite false p (Zneg k))) =
  digits_of_Z (round_half_up (value (S754_finite false p (Zneg k)))).
Proof.
  intros Hp. unfold value. rewrite round_half_up_dyadic.
  unfold Math_round. cbv zeta.
  rewrite Pos2Z.inj_pow.
  assert (Hd : 0 < 2 ^ Zpos k) by (apply Z.pow_pos_nonneg; lia).
  pose proof (Z.div_mod (Zpos p) (2 ^ Zpos k) ltac:(lia)) as Hdm.
  pose proof (Z.mod_pos_bound (Zpos p) (2 ^ Zpos k) ltac:(lia)) as Hr.
  set (d := 2 ^ Zpos k) in *.
  set (q := Zpos p / d) in *. set (r := Zpos p mod d) in *.
  assert (Hq0 : 0 <= q) by (apply Z.div_pos; lia).
  assert (Hn : 0 <= (if d <=? 2 * r then q + 1 else q) <= 128).
  { destruct (Z.leb_spec d (2 * r)); nia. }
  destruct (if d <=? 2 * r then q + 1 else q) as [|n|n] eqn:En.
  - reflexivity.
  - apply toString_small_integer. lia.
  - lia.
Qed.

Lemma of_Z_100 : of_Z 100 = S754_finite false 7036874417766400 (-46).
Proof. reflexivity. Qed.

Lemma of_Z_1 : of_Z 1 = S754_finite false 4503599627370496 (-52).
Proof. reflexivity. Qed.

(** A fraction between 0 and 1: a zero, or a positive mantissa below its
    scale. *)
Lemma fraction_cases (c : number) :
  valid c = true -> leb (of_Z 0) c = true -> leb c (of_Z 1) = true ->
  (exists s, c = S754_zero s)
  \/ (exists m e, c = S754_finite false m e /\ e <= -52
                  /\ Zpos m <= 2 ^ (- e)).
Proof.
  intros Hv H0 H1. rewrite of_Z_1 in H1.
  change (of_Z 0) with (S754_zero false) in H0.
  destruct c as [s|s| |s m e].
  - left. eexists; reflexivity.
  - destruct s; discriminate.
  - discriminate.
  - right. destruct s; [discriminate|]. exists m, e. split; [reflexivity|].
    unfold valid, valid_binary, bounded, canonical_mantissa in Hv.
    apply andb_prop in Hv as [Hc _]. apply Z.eqb_eq in Hc.
    rewrite fexp_binary64 in Hc.
    pose proof (digits2_pos_bounds m) as [_ Hm].
    assert (Hm53 : Zpos m < 2 ^ 53).
    { eapply Z.lt_le_trans; [exact Hm|]. apply Z.pow_le_mono_r; lia. }
    unfold leb, SFleb, SFcompare in H1.
    destruct (Z.compare_spec e (-52)) as [He|He|He]; [| |discriminate].
    + subst e. split; [lia|]. change (2 ^ (- -52)) with 4503599627370496.
      rewrite Pos.compare_cont_spec in H1.
      rewrite (Pos2Z.inj_compare m 4503599627370496) in H1.
      destruct (Z.compare_spec (Zpos m) 4503599627370496); [lia|lia|discriminate].
    + split; [lia|].
      assert (2 ^ 53 <= 2 ^ (- e)) by (apply Z.pow_le_mono_r; lia). lia.
Qed.

(** A hundred times a fraction: a zero, or a positive value of at most
    128 with a negative exponent. *)
Lemma mul_hundred (c : number) :
  valid c = true -> leb (of_Z 0) c = true -> leb c (of_Z 1) = true ->
  (exists s, mul c (of_Z 100) = S754_zero s)
  \/ (exists p k, mul c (of_Z 100) = S754_finite false p (Zneg k)
                  /\ Zpos p <= 128 * 2 ^ Zpos k).
Proof.
  intros Hv H0 H1.
  destruct (fraction_cases c Hv H0 H1) as [[s ->]|(m & e & -> & He & Hm)].
  - left. exists s. rewrite of_Z_100. destruct s; reflexivity.
  - rewrite of_Z_100. unfold mul, SFmul. simpl xorb.
    set (M := (m * 7036874417766400)%positive).
    set (E := e + -46).
    assert (HM : Zpos M < 2 ^ (7 - E)).
    { unfold M, E. rewrite Pos2Z.inj_mul.
      replace (7 - (e + -46)) with (- e + 53) by lia.
      rewrite Z.pow_add_r by lia.
      change (2 ^ 53) with 9007199254740992.
      assert (0 < 2 ^ (- e)) by (apply Z.pow_pos_nonneg; lia). nia. }
    pose proof (digits2_pos_bounds M) as [HdM _].
    assert (Hd : Zpos (digits2_pos M) <= 7 - E).
    { destruct (Z.le_gt_cases (Zpos (digits2_pos M)) (7 - E)) as [|Hgt]; [assumption|].
      assert (2 ^ (7 - E) <= 2 ^ (Zpos (digits2_pos M) - 1))
        by (apply Z.pow_le_mono_r; lia).
      lia. }
    pose proof (fexp_binary64 (Zpos (digits2_pos M) + E)) as Hf.
    pose proof (binary_round_aux_exact false M E) as Hr. cbv zeta in Hr.
    set (E1 := Z.max E (fexp prec emax (Zpos (digits2_pos M) + E))) in *.
    assert (HE1 : -1074 <= E1 <= -46) by (unfold E in *; lia).
    assert (HE1E : 0 <= E1 - E) by lia.
    set (q := Zpos M / 2 ^ (E1 - E)) in *.
    assert (Hq : q + 1 <= 2 ^ (7 - E1)).
    { assert (q < 2 ^ (7 - E1)); [|lia].
      apply Z.div_lt_upper_bound; [apply Z.pow_pos_nonneg; lia|].
      rewrite <- Z.pow_add_r by lia.
      replace (E1 - E + (7 - E1)) with (7 - E) by lia. exact HM. }
    destruct Hr as [[_ Hr]|[(p & Hp & _ & Hr)|[Hq53 Hr]]].
    + left. eexists; exact Hr.
    + right. destruct (Z.leb_spec E1 971); [|lia].
      destruct E1 as [|k|k]; try lia.
      exists p, k. split; [exact Hr|].
      replace (7 - Zneg k) with (7 + Zpos k) in Hq by lia.
      rewrite Z.pow_add_r in Hq by lia.
      change (2 ^ 7) with 128 in Hq. lia.
    + right. destruct (Z.leb_spec (E1 + 1) 971); [|lia].
      assert (H53 : 53 <= 7 - E1).
      { apply (Z.pow_le_mono_r_iff 2); lia. }
      destruct (E1 + 1) as [|k|k] eqn:Ek; try lia.
      exists (2 ^ 52)%positive, k. split; [exact Hr|].
      change (Zpos (2 ^ 52)) with (2 ^ 52).
      assert (Hk : 2 ^ 52 <= 2 ^ (7 + Zpos k)) by (apply Z.pow_le_mono_r; lia).
      rewrite Z.pow_add_r in Hk by lia. change (2 ^ 7) with 128 in Hk. exact Hk.
Qed.

End Binary64.

(** ** Percentages stay within 0 and 100 *)

Section Percent.

Context {host : Host}.

(** Shifting out zero bits only leaves no remainder behind. *)
Lemma iter_shr_1_exact (p : positive) :
  forall c, 0 <= c ->
    iter_pos shr_1 p (Build_shr_record (c * 2 ^ Zpos p) false false) =
    Build_shr_record c false false.
Proof.
  assert (H1 : forall c, 0 <= c ->
             shr_1 (Build_shr_record (c * 2) false false) =
             Build_shr_record c false false).
  { intros [|q|q] Hc; try lia; [reflexivity|].
    rewrite Z.mul_comm. reflexivity. }
  induction p as [p IH|p IH|]; intros c Hc.
  - replace (c * 2 ^ Zpos p~1) with (c * 2 ^ Zpos p * 2 ^ Zpos p * 2).
    + cbn [iter_pos]. assert (0 < 2 ^ Zpos p) by (apply Z.pow_pos_nonneg; lia).
      rewrite H1 by nia. rewrite IH by nia. apply IH. exact Hc.
    + replace (Zpos p~1) with (Zpos p + Zpos p + 1) by lia.
      rewrite !Z.pow_add_r by lia. change (2 ^ 1) with 2. ring.
  - replace (c * 2 ^ Zpos p~0) with (c * 2 ^ Zpos p * 2 ^ Zpos p).
    + cbn [iter_pos]. assert (0 < 2 ^ Zpos p) by (apply Z.pow_pos_nonneg; lia).
      rewrite IH by nia. apply IH. exact Hc.
    + replace (Zpos p~0) with (Zpos p + Zpos p) by lia.
      rewrite !Z.pow_add_r by lia. ring.
  - change (2 ^ 1) with 2. cbn [iter_pos]. apply H1. exact Hc.
Qed.

(** Rounding an exact [M * 2^E] whose mantissa is a multiple of what the
    shift divides by: the quotient itself is the mantissa. *)
Lemma binary_round_aux_divisible (s : bool) (M c : positive) (E : Z) :
  let E1 := Z.max E (fexp prec emax (Zpos (digits2_pos M) + E)) in
  Zpos M = Zpos c * 2 ^ (E1 - E) ->
  binary_round_aux prec emax s (Zpos M) E loc_Exact =
  if E1 <=? 971 then S754_finite s c E1 else S754_infinity s.
Proof.
  intros E1 HM.
  assert (HE1def : E1 = Z.max E (fexp prec emax (Zpos (digits2_pos M) + E)))
    by reflexivity.
  clearbody E1.
  pose proof (fexp_binary64 (Zpos (digits2_pos M) + E)) as Hf.
  pose proof (digits2_pos_bounds M) as [_ HMd].
  assert (Hk : 0 <= E1 - E) by lia.
  assert (Hpow : 0 < 2 ^ (E1 - E)) by (apply Z.pow_pos_nonneg; lia).
  assert (Hc53 : Zpos c < 2 ^ 53).
  { assert (Zpos c * 2 ^ (E1 - E) < 2 ^ 53 * 2 ^ (E1 - E)); [|nia].
    rewrite <- HM, <- Z.pow_add_r by lia.
    eapply Z.lt_le_trans; [exact HMd|]. apply Z.pow_le_mono_r; lia. }
  assert (Hfirst : shr_fexp prec emax (Zpos M) E loc_Exact =
                   (Build_shr_record (Zpos c) false false, E1)).
  { unfold shr_fexp, shr. simpl Zdigits2. simpl shr_record_of_loc.
    destruct (fexp prec emax (Zpos (digits2_pos M) + E) - E) as [|k|k] eqn:Hd.
    - replace (E1 - E) with 0 in HM by lia. rewrite Z.mul_1_r in HM.
      rewrite HM. f_equal. lia.
    - replace (E1 - E) with (Zpos k) in HM by lia.
      rewrite HM, iter_shr_1_exact by lia. f_equal. lia.
    - replace (E1 - E) with 0 in HM by lia. rewrite Z.mul_1_r in HM.
      rewrite HM. f_equal. lia. }
  unfold binary_round_aux. rewrite Hfirst.
  cbn [shr_m loc_of_shr_record round_nearest_even].
  destruct (shr_fexp_m c E1 loc_Exact) as (r2 & H2 & Hq2).
  pose proof (digits2_pos_bounds c) as [Hcd _].
  pose proof (fexp_binary64 (Zpos (digits2_pos c) + E1)) as Hf1.
  assert (Hd : Zpos (digits2_pos c) <= 53).
  { destruct (Z.le_gt_cases (Zpos (digits2_pos c)) 53) as [|Hgt]; [assumption|].
    assert (2 ^ 53 <= 2 ^ (Zpos (digits2_pos c) - 1))
      by (apply Z.pow_le_mono_r; lia).
    lia. }
  replace (Z.max E1 (fexp prec emax (Zpos (digits2_pos c) + E1))) with E1 in * by lia.
  rewrite H2, Hq2. replace (E1 - E1) with 0 by lia.
  rewrite Z.div_1_r. reflexivity.
Qed.

(** A hundred times a fraction is at most a hundred. *)
Lemma mul_hundred_le (c : number) :
  valid c = true -> leb (of_Z 0) c = true -> leb c (of_Z 1) = true ->
  (exists s, mul c (of_Z 100) = S754_zero s)
  \/ (exists p k, mul c (of_Z 100) = S754_finite false p (Zneg k)
                  /\ Zpos p <= 100 * 2 ^ Zpos k).
Proof.
  intros Hv H0 H1.
  destruct (fraction_cases c Hv H0 H1) as [[s ->]|(m & e & -> & He & Hm)].
  - left. exists s. rewrite of_Z_100. destruct s; reflexivity.
  - rewrite of_Z_100. unfold mul, SFmul. simpl xorb.
    set (M := (m * 7036874417766400)%positive).
    set (E := e + -46).
    assert (HM : Zpos M <= 100 * 2 ^ (- E)).
    { unfold M, E. rewrite Pos2Z.inj_mul.
      replace (- (e + -46)) with (- e + 46) by lia.
      rewrite Z.pow_add_r by lia.
      change (2 ^ 46) with 70368744177664.
      assert (0 < 2 ^ (- e)) by (apply Z.pow_pos_nonneg; lia). nia. }
    assert (HM7 : Zpos M < 2 ^ (7 - E)).
    { replace (7 - E) with (7 + - E) by lia. rewrite Z.pow_add_r by (unfold E; lia).
      change (2 ^ 7) with 128.
      assert (0 < 2 ^ (- E)) by (apply Z.pow_pos_nonneg; unfold E; lia). lia. }
    pose proof (digits2_pos_bounds M) as [HdM _].
    assert (Hd : Zpos (digits2_pos M) <= 7 - E).
    { destruct (Z.le_gt_cases (Zpos (digits2_pos M)) (7 - E)) as [|Hgt]; [assumption|].
      assert (2 ^ (7 - E) <= 2 ^ (Zpos (digits2_pos M) - 1))
        by (apply Z.pow_le_mono_r; lia).
      lia. }
    pose proof (fexp_binary64 (Zpos (digits2_pos M) + E)) as Hf.
    pose proof (binary_round_aux_exact false M E) as Hr. cbv zeta in Hr.
    pose proof (fun c => binary_round_aux_divisible false M c E) as Hexact.
    cbv zeta in Hexact.
    set (E1 := Z.max E (fexp prec emax (Zpos (digits2_pos M) + E))) in *.
    assert (HE1 : -1074 <= E1 <= -46) by (unfold E in *; lia).
    assert (HE1E : 0 <= E1 - E) by lia.
    assert (Hpow : 0 < 2 ^ (E1 - E)) by (apply Z.pow_pos_nonneg; lia).
    (* the mantissa of 100 at the exponent E1 *)
    remember (100 * 2 ^ (- E1)) as T eqn:HTdef.
    assert (HT : 100 * 2 ^ (- E) = T * 2 ^ (E1 - E)).
    { rewrite HTdef, <- Z.mul_assoc, <- Z.pow_add_r by lia.
      f_equal. f_equal. lia. }
    assert (HT0 : 0 < T).
    { rewrite HTdef. assert (0 < 2 ^ (- E1)) by (apply Z.pow_pos_nonneg; lia). lia. }
    set (q := Zpos M / 2 ^ (E1 - E)) in *.
    assert (Hq : q <= T).
    { unfold q. apply Z.div_le_upper_bound; [lia|]. rewrite Z.mul_comm, <- HT. exact HM. }
    assert (Hfin : forall (p : positive) (k : positive),
               E1 = Zneg k -> Zpos p <= T -> Zpos p <= 100 * 2 ^ Zpos k).
    { intros p k Hk Hp. rewrite HTdef, Hk in Hp. exact Hp. }
    destruct (Z.eq_dec q T) as [HqT|HqT].
    + (* the product is exactly 100 *)
      assert (HMT : Zpos M = T * 2 ^ (E1 - E)).
      { pose proof (Z.mul_div_le (Zpos M) (2 ^ (E1 - E)) Hpow) as Hle.
        fold q in Hle. rewrite HqT in Hle. lia. }
      destruct T as [|t|t]; try lia.
      rewrite (Hexact t HMT).
      right. destruct (Z.leb_spec E1 971); [|lia].
      destruct E1 as [|k|k] eqn:Hk; try lia.
      exists t, k. split; [reflexivity|].
      apply Hfin; [reflexivity|lia].
    + destruct Hr as [[_ Hr]|[(p & Hp & _ & Hr)|[Hq53 Hr]]].
      * left. eexists; exact Hr.
      * right. destruct (Z.leb_spec E1 971); [|lia].
        destruct E1 as [|k|k] eqn:Hk; try lia.
        exists p, k. split; [exact Hr|].
        apply Hfin; [reflexivity|lia].
      * right. destruct (Z.leb_spec (E1 + 1) 971); [|lia].
        destruct (E1 + 1) as [|k|k] eqn:Ek; try lia.
        exists (2 ^ 52)%positive, k. split; [exact Hr|].
        change (Zpos (2 ^ 52)) with (2 ^ 52).
        assert (H2 : 2 ^ 53 <= 100 * 2 ^ (- E1)) by lia.
        replace (- E1) with (Zpos k + 1) in H2 by lia.
        rewrite Z.pow_add_r in H2 by lia.
        change (2 ^ 53) with (2 ^ 52 * 2) in H2. change (2 ^ 1) with 2 in H2. lia.
Qed.

End Percent.

(** ** The components *)

Lemma bind_Ok {A B : Type} (r : result A) (k : A -> result B) (b : B) :
  bind r k = Ok b -> exists a, r = Ok a /\ k a = Ok b.
Proof. destruct r as [a|e]; simpl; [eauto|discriminate]. Qed.

(** One step of a computation that is known to return. *)
Ltac step H :=
  match type of H with
  | bind ?r _ = Ok _ =>
      let E := fresh "E" in
      destruct r eqn:E; [cbn [bind] in H | discriminate H]
  end.

Ltac returned H := repeat step H; injection H as <-.

(** ** When the components return *)

Section Returns.

Context {host : Host}.

Lemma get_JObj (props : list (string * jsval)) (k : string) :
  get (JObj props) k = Ok (field k props).
Proof. unfold get, field. destruct (lookup k props); reflexivity. Qed.

Lemma optional_cases (p : jsval -> bool) (k : string) props :
  optional p k props = true ->
  (present k props = false /\ field k props = JUndefined)
  \/ (present k props = true /\ p (field k props) = true).
Proof.
  unfold optional, present, field. destruct (lookup k props); auto.
Qed.

Lemma missing_field (k : string) (props : list (string * jsval)) :
  present k props = false -> field k props = JUndefined.
Proof. unfold present, field. destruct (lookup k props); [discriminate|reflexivity]. Qed.

Lemma optional_primitive (p : jsval -> bool) (k : string) props :
  (forall v, p v = true -> primitive v = true) ->
  optional p k props = true -> primitive (field k props) = true.
Proof.
  intros Hp H. destruct (optional_cases _ _ _ H) as [[_ ->]|[_ Hv]]; auto.
Qed.

Lemma is_string_primitive (v : jsval) : is_string v = true -> primitive v = true.
Proof. destruct v; simpl; congruence. Qed.

Lemma is_number_primitive (v : jsval) : is_number v = true -> primitive v = true.
Proof. destruct v; simpl; congruence. Qed.

Lemma ToString_primitive (v : jsval) :
  primitive v = true -> exists s, ToString v = Ok s.
Proof. destruct v; simpl; intros H; try discriminate; eauto. Qed.

Lemma child_of_primitive (v : jsval) :
  primitive v = true -> exists t, child_of v = Ok t.
Proof. destruct v; simpl; intros H; try discriminate; eauto. Qed.

Lemma ToNumber_primitive (v : jsval) :
  primitive v = true -> exists x, ToNumber v = Ok x.
Proof. destruct v; simpl; intros H; try discriminate; eauto. Qed.

Lemma ToPrimitive_primitive (v : jsval) :
  primitive v = true -> ToPrimitive v = Ok v.
Proof. destruct v; simpl; intros H; try discriminate; eauto. Qed.

Lemma key_of_primitive (v : jsval) :
  primitive v = true -> exists k, key_of v = Ok k.
Proof. destruct v; simpl; intros H; try discriminate; eauto. Qed.

Lemma child_of_glyph (b : bool) (glyph : string) :
  child_of (if b then JStr glyph else JBool false) =
  Ok (if b then Text glyph else Nothing).
Proof. destruct b; reflexivity. Qed.

Lemma mapM_returns {A B : Type} (f : A -> result B) (l : list A) :
  (forall a, In a l -> exists b, f a = Ok b) -> exists bs, mapM f l = Ok bs.
Proof.
  induction l as [|a l IH]; intros H; simpl; [eauto|].
  destruct (H a (or_introl eq_refl)) as [b ->].
  destruct IH as [bs ->]; [intros; apply H; now right|].
  simpl. eauto.
Qed.

(** All before the first failure return, and that one throws [e]. *)
Lemma mapM_throws {A B : Type} (f : A -> result B) (e : exception)
      (l : list A) :
  (forall a, In a l -> (exists b, f a = Ok b) \/ f a = Throw e) ->
  (exists a, In a l /\ f a = Throw e) ->
  mapM f l = Throw e.
Proof.
  induction l as [|a l IH]; intros Hall [x [Hin Hx]]; [destruct Hin|].
  simpl. destruct (Hall a (or_introl eq_refl)) as [[b Hb]| ->]; [|reflexivity].
  rewrite Hb. cbn [bind].
  rewrite IH; [reflexivity| |].
  - intros; apply Hall; now right.
  - destruct Hin as [->|Hin]; [congruence|eauto].
Qed.

Lemma in_combine_seq {A : Type} (l : list A) (start : nat) (p : nat * A) :
  In p (combine (seq start (List.length l)) l) -> In (snd p) l.
Proof. destruct p as [i a]. intros H. exact (in_combine_r _ _ _ _ H). Qed.

Lemma mapM_combine_seq {A B : Type} (f : A -> result B) (l : list A) :
  forall start,
    mapM (fun p : nat * A => f (snd p)) (combine (seq start (List.length l)) l)
    = mapM f l.
Proof.
  induction l as [|a l IH]; intros start; simpl; [reflexivity|].
  rewrite IH. reflexivity.
Qed.

Lemma mapM_Forall2 {A B : Type} (f : A -> result B) (l : list A) (bs : list B) :
  mapM f l = Ok bs <-> Forall2 (fun a b => f a = Ok b) l bs.
Proof.
  revert bs. induction l as [|a l IH]; intros bs; simpl.
  - split.
    + intros H. injection H as <-. constructor.
    + intros H. inversion H. reflexivity.
  - split.
    + intros H. destruct (f a) as [b|] eqn:Hb; [|discriminate].
      cbn [bind] in H. destruct (mapM f l) as [bs'|] eqn:Hm; [|discriminate].
      injection H as <-. constructor; [exact Hb|]. apply IH. reflexivity.
    + intros H. inversion H as [|a' b l' bs' Hb Hrest]; subst.
      rewrite Hb. cbn [bind]. apply IH in Hrest. rewrite Hrest. reflexivity.
Qed.

(** A pass over a list that hands every element on, or throws. *)
Lemma mapM_pass {A : Type} (f : A -> result A) (l keyed : list A) :
  (forall a r, f a = Ok r -> r = a) -> mapM f l = Ok keyed -> keyed = l.
Proof.
  intros Hf. revert keyed. induction l as [|a l IH]; intros keyed H; simpl in H.
  - now injection H as <-.
  - destruct (f a) as [r|] eqn:Hr; [|discriminate]. cbn [bind] in H.
    destruct (mapM f l) as [rs|]; [|discriminate]. injection H as <-.
    rewrite (Hf _ _ Hr), (IH rs eq_refl). reflexivity.
Qed.

Lemma mapM_pass_all {A : Type} (f : A -> result A) (l : list A) :
  (forall a, In a l -> f a = Ok a) -> mapM f l = Ok l.
Proof.
  induction l as [|a l IH]; intros H; simpl; [reflexivity|].
  rewrite (H a (or_introl eq_refl)). cbn [bind].
  rewrite IH; [reflexivity|]. intros; apply H; now right.
Qed.

Lemma call_map_mapM {B : Type} (f : jsval -> result B) (l : list jsval) :
  call_map (JArr l) (fun v _ => f v) = mapM f l.
Proof. exact (mapM_combine_seq f l 0). Qed.

Lemma keyed_aspect_pass (aspect r : jsval) :
  keyed_aspect aspect = Ok r -> r = aspect.
Proof.
  unfold keyed_aspect. intros H.
  destruct (get aspect "name") as [name|]; [|discriminate]. cbn [bind] in H.
  destruct (key_of name); [|discriminate]. now injection H as <-.
Qed.

Lemma AspectsGrid_unfold (aspects : list jsval) :
  AspectsGrid (JArr aspects) =
  (keyed <- mapM keyed_aspect aspects ;;
   cards <- mapM AspectCard keyed ;;
   Ok (Element "div" [("className", "aspects-grid")] cards)).
Proof. unfold AspectsGrid. rewrite call_map_mapM. reflexivity. Qed.

(** An aspect that has a card has a key: its name is a string. *)
Lemma AspectCard_keyed (aspect : jsval) (card : jsx) :
  AspectCard aspect = Ok card -> keyed_aspect aspect = Ok aspect.
Proof.
  intros H. unfold AspectCard in H. unfold keyed_aspect.
  destruct (get aspect "trend"); [cbn [bind] in H|discriminate].
  destruct (ToString _); [cbn [bind] in H|discriminate].
  destruct (get aspect "name") as [name|]; [cbn [bind] in H|discriminate].
  destruct name; try discriminate H. reflexivity.
Qed.

Lemma StatusCard_returns (risk riskScore confidence ratingTrust : jsval) :
  is_string risk = true -> primitive riskScore = true ->
  primitive confidence = true -> primitive ratingTrust = true ->
  exists t, StatusCard risk riskScore confidence ratingTrust = Ok t.
Proof.
  intros Hr Hs Hc Ht. destruct risk; try discriminate.
  unfold StatusCard. cbn [call_toLowerCase bind child_of].
  destruct (ToNumber_primitive _ Hc) as [x ->].
  destruct (child_of_primitive _ Hs) as [t1 ->].
  destruct (child_of_primitive _ Ht) as [t2 ->].
  cbn [bind]. eauto.
Qed.

Lemma StatusCard_throws (risk riskScore confidence ratingTrust : jsval) :
  is_string risk = false ->
  StatusCard risk riskScore confidence ratingTrust = Throw TypeError.
Proof. destruct risk; simpl; intros H; try discriminate; reflexivity. Qed.

(** The card of an aspect with fields missing: there is one when the name
    and the sentiment are there, and it shows nothing for a field that is
    missing; without one of the two, a TypeError. *)
Lemma AspectCard_partial (aspect : jsval) :
  partial_aspect aspect = true ->
  if aspect_has_required aspect then exists card, card_with_blanks aspect card
  else AspectCard aspect = Throw TypeError.
Proof.
  destruct aspect as [| | | | | |props]; try discriminate.
  unfold partial_aspect, aspect_has_required, card_with_blanks.
  rewrite !andb_true_iff. intros [[[[[Hn Hs] Hl] Ht] Hv] Hm].
  unfold AspectCard. rewrite !get_JObj. cbn [bind].
  destruct (ToString_primitive _ (optional_primitive _ _ _ is_string_primitive Ht)) as [ts Hts].
  destruct (child_of_primitive _ (optional_primitive _ _ _ is_string_primitive Ht)) as [tc Htc].
  destruct (child_of_primitive _ (optional_primitive _ _ _ is_string_primitive Hl)) as [lc Hlc].
  destruct (child_of_primitive _ (optional_primitive _ _ _ is_string_primitive Hv)) as [vc Hvc].
  destruct (child_of_primitive _ (optional_primitive _ _ _ is_number_primitive Hm)) as [mc Hmc].
  rewrite Hts. cbn [bind].
  destruct (optional_cases _ _ _ Hn) as [[-> ->]|[-> Hname]]; [reflexivity|].
  destruct (field "name" props); try discriminate.
  cbn [call_replace bind andb].
  destruct (optional_cases _ _ _ Hs) as [[-> ->]|[-> Hsent]]; [reflexivity|].
  destruct (field "sentiment" props); try discriminate.
  cbn [call_toFixed2 bind].
  rewrite Hlc, !child_of_glyph, Htc, Hvc, Hmc. cbn [bind].
  eexists. split; [reflexivity|]. exists props. split; [reflexivity|].
  cbn [child children nth].
  split; [|split; [|split]]; intros Hmiss; apply missing_field in Hmiss;
    rewrite Hmiss in *; cbn in *; congruence.
Qed.

Lemma AspectCard_returns (aspect : jsval) :
  partial_aspect aspect = true -> aspect_has_required aspect = true ->
  exists card, AspectCard aspect = Ok card.
Proof.
  intros Hp Hr. pose proof (AspectCard_partial aspect Hp) as H.
  rewrite Hr in H. destruct H as (card & Hc & _). eauto.
Qed.

Lemma keyed_aspect_partial (aspect : jsval) :
  partial_aspect aspect = true -> keyed_aspect aspect = Ok aspect.
Proof.
  destruct aspect as [| | | | | |props]; try discriminate.
  unfold partial_aspect. rewrite !andb_true_iff.
  intros [[[[[Hn _] _] _] _] _].
  unfold keyed_aspect. rewrite get_JObj. cbn [bind].
  destruct (key_of_primitive _ (optional_primitive _ _ _ is_string_primitive Hn)) as [k ->].
  reflexivity.
Qed.

Lemma AspectsGrid_partial (aspects : list jsval) :
  forallb partial_aspect aspects = true ->
  if forallb aspect_has_required aspects
  then exists cards,
         Forall2 card_with_blanks aspects cards /\
         AspectsGrid (JArr aspects) =
         Ok (Element "div" [("className", "aspects-grid")] cards)
  else AspectsGrid (JArr aspects) = Throw TypeError.
Proof.
  intros Hall. rewrite forallb_forall in Hall.
  rewrite AspectsGrid_unfold.
  rewrite (mapM_pass_all keyed_aspect aspects)
    by (intros a Ha; apply keyed_aspect_partial, Hall, Ha).
  cbn [bind].
  destruct (forallb aspect_has_required aspects) eqn:Hreq.
  - rewrite forallb_forall in Hreq.
    assert (Hcards : exists cards, Forall2 card_with_blanks aspects cards).
    { clear - Hall Hreq. induction aspects as [|a l IH].
      - exists []. constructor.
      - destruct IH as [cards Hc].
        + intros x Hx. apply Hall. now right.
        + intros x Hx. apply Hreq. now right.
        + pose proof (AspectCard_partial a (Hall a (or_introl eq_refl))) as H.
          rewrite (Hreq a (or_introl eq_refl)) in H. destruct H as [card Hcard].
          exists (card :: cards). constructor; assumption. }
    destruct Hcards as [cards Hcards]. exists cards. split; [exact Hcards|].
    assert (Hm : mapM AspectCard aspects = Ok cards).
    { apply mapM_Forall2. clear - Hcards.
      induction Hcards as [|a c l cs [Hc _] _ IH]; constructor; assumption. }
    rewrite Hm. reflexivity.
  - rewrite (mapM_throws AspectCard TypeError); [reflexivity| |].
    + intros a Ha.
      pose proof (AspectCard_partial _ (Hall _ Ha)) as H.
      destruct (aspect_has_required a); [|now right].
      destruct H as (card & Hc & _). left. eauto.
    + assert (Hex : exists a, In a aspects /\ aspect_has_required a = false).
      { clear Hall. induction aspects as [|a l IH]; [discriminate|].
        simpl in Hreq. destruct (aspect_has_required a) eqn:Ha.
        - destruct (IH Hreq) as [x [Hx Hf]]. exists x. split; [now right|exact Hf].
        - exists a. split; [now left|exact Ha]. }
      destruct Hex as [a [Hin Ha]]. exists a. split; [exact Hin|].
      pose proof (AspectCard_partial _ (Hall _ Hin)) as H.
      rewrite Ha in H. exact H.
Qed.

Lemma RiskDrivers_returns (drivers : list jsval) :
  forallb primitive drivers = true ->
  exists t, RiskDrivers (JArr drivers) = Ok t.
Proof.
  intros Hall. rewrite forallb_forall in Hall.
  unfold RiskDrivers, get_length. cbn [bind].
  destruct (strict_eq_zero _); cbn [bind]; [eauto|].
  unfold call_map.
  destruct (mapM_returns
              (fun p : nat * jsval =>
                 shown <- child_of (snd p) ;; Ok (Element "li" [] [shown]))
              (combine (seq 0 (List.length drivers)) drivers)) as [items Hitems].
  - intros p Hp. apply in_combine_seq in Hp.
    destruct (child_of_primitive _ (Hall _ Hp)) as [t ->]. cbn [bind]. eauto.
  - cbv beta. rewrite Hitems. cbn [bind]. eauto.
Qed.

Lemma ActionBanner_returns (action : jsval) :
  primitive action = true -> exists t, ActionBanner action = Ok t.
Proof.
  intros H. unfold ActionBanner.
  destruct (ToString_primitive _ H) as [key ->]. cbn [bind].
  destruct (actionConfig_get key) as [[b|name]|]; cbn; eauto.
Qed.

End Returns.

Section Components.

Context {host : Host}.

(** C1. [ActionBanner] at an action that names a property the literal
    inherits: the lookup finds the built-in, nothing falls back to
    [ignore], and the banner has the class "action-banner undefined" and no
    text. *)
Theorem ActionBanner_inherited_name :
  ActionBanner (JStr "constructor") =
  Ok (Element "div" [("className", "action-banner undefined")] [Nothing]).
Proof. reflexivity. Qed.

(** C2. An aspect record has a card (its name and sentiment are there,
    any other field may be missing), and the trend row of the card of any
    aspect is this: the span holds the upward glyph exactly for the trend
    "improving", the downward glyph exactly for "declining", no glyph for
    any other trend, and then the trend itself. *)
Theorem AspectCard_trend_glyph (aspect : jsval) :
  (partial_aspect aspect = true -> aspect_has_required aspect = true ->
   exists card, AspectCard aspect = Ok card)
  /\
  (forall card,
     AspectCard aspect = Ok card ->
     exists trend shown,
       get aspect "trend" = Ok trend /\ child_of trend = Ok shown /\
       child 0 (child 2 card) = Element "span" [] [Text "Trend"] /\
       (trend = JStr "improving" ->
        children (child 1 (child 2 card)) = [Text "↑ "; Nothing; shown]) /\
       (trend = JStr "declining" ->
        children (child 1 (child 2 card)) = [Nothing; Text "↓ "; shown]) /\
       (trend <> JStr "improving" -> trend <> JStr "declining" ->
        children (child 1 (child 2 card)) = [Nothing; Nothing; shown])).
Proof.
  split; [exact (AspectCard_returns aspect)|].
  intros card H. unfold AspectCard in H.
  step H. rename a into trend. repeat step H. injection H as <-.
  match goal with
  | Hs : child_of trend = Ok ?x |- _ => exists trend, x
  end.
  split; [reflexivity|]. split; [assumption|]. split; [reflexivity|].
  assert (Hu : trend <> JStr "improving" ->
               strict_eq_string trend "improving" = false).
  { intros Hn. destruct trend; try reflexivity. simpl.
    destruct (String.eqb_spec s "improving"); congruence. }
  assert (Hw : trend <> JStr "declining" ->
               strict_eq_string trend "declining" = false).
  { intros Hn. destruct trend; try reflexivity. simpl.
    destruct (String.eqb_spec s "declining"); congruence. }
  repeat split.
  - intros ->. simpl in *. congruence.
  - intros ->. simpl in *. congruence.
  - intros Hi Hd. rewrite (Hu Hi), (Hw Hd) in *. simpl in *. congruence.
Qed.

(** C3. The status card of a risk that is a string, with a score, a
    confidence and a rating trust that are no objects, is returned, and
    the rating-trust value of any status card has the low-concern class
    exactly when [ratingTrust] is the string "Reliable", and the
    high-concern class for every other value. *)
Theorem StatusCard_rating_trust_style
        (risk riskScore confidence ratingTrust : jsval) :
  (is_string risk = true -> primitive riskScore = true ->
   primitive confidence = true -> primitive ratingTrust = true ->
   exists card, StatusCard risk riskScore confidence ratingTrust = Ok card)
  /\
  (forall card,
     StatusCard risk riskScore confidence ratingTrust = Ok card ->
     child 0 (child 3 (child 1 card)) =
       Element "div" [("className", "metric-label")] [Text "Rating Trust"] /\
     (ratingTrust = JStr "Reliable" ->
      attr "className" (child 1 (child 3 (child 1 card))) = Some "metric-value low") /\
     (ratingTrust <> JStr "Reliable" ->
      attr "className" (child 1 (child 3 (child 1 card))) = Some "metric-value high")).
Proof.
  split; [exact (StatusCard_returns risk riskScore confidence ratingTrust)|].
  intros card H. unfold StatusCard in H. returned H.
  split; [reflexivity|]. split.
  - intros ->. reflexivity.
  - intros Hn. simpl.
    replace (strict_eq_string ratingTrust "Reliable") with false; [reflexivity|].
    destruct ratingTrust; try reflexivity. simpl.
    destruct (String.eqb_spec s "Reliable"); congruence.
Qed.

Lemma strict_eq_zero_length (n : nat) :
  strict_eq_zero (JNum (of_Z (Z.of_nat n))) =
  match n with O => true | S _ => false end.
Proof.
  destruct n as [|n]; [reflexivity|].
  unfold strict_eq_zero.
  change (Z.of_nat (S n)) with (Zpos (Pos.of_succ_nat n)).
  pose proof (of_Z_pos_not_zero (Pos.of_succ_nat n)) as Hz.
  destruct (of_Z (Zpos (Pos.of_succ_nat n))); try reflexivity.
  exfalso. exact (Hz s eq_refl).
Qed.

Lemma map_driver_items (ds : list string) (start : nat) :
  mapM (fun p : nat * jsval =>
          shown <- child_of (snd p) ;; Ok (Element "li" [] [shown]))
       (combine (seq start (List.length (map JStr ds))) (map JStr ds)) =
  Ok (map (fun d => Element "li" [] [Text d]) ds).
Proof.
  revert start. induction ds as [|d ds IH]; intros start; [reflexivity|].
  simpl. rewrite IH. reflexivity.
Qed.

Lemma call_map_driver_items (ds : list string) :
  call_map (JArr (map JStr ds))
    (fun driver (index : nat) =>
       shown <- child_of driver ;; Ok (Element "li" [] [shown])) =
  Ok (map (fun d => Element "li" [] [Text d]) ds).
Proof. exact (map_driver_items ds 0). Qed.

(** C4. [RiskDrivers] on a sequence of driver strings: the affirmation
    and no list when the sequence is empty, otherwise a list with one item
    per driver, in the order given, each holding the driver as text. *)
Theorem RiskDrivers_list (ds : list string) :
  RiskDrivers (JArr (map JStr ds)) =
  Ok (Element "div" [("className", "risk-drivers")]
        [ Element "h2" [] [Text "⚠️ Risk Drivers"];
          match ds with
          | [] => Element "p" [("className", "no-drivers")]
                    [Text "✓ No significant risk factors detected"]
          | _ :: _ => Element "ul" []
                        (map (fun d => Element "li" [] [Text d]) ds)
          end ]).
Proof.
  unfold RiskDrivers, get_length. cbn [bind].
  rewrite strict_eq_zero_length.
  rewrite call_map_driver_items, List.length_map.
  destruct ds as [|d ds]; reflexivity.
Qed.

Lemma substring_all (s : string) : String.substring 0 (String.length s) s = s.
Proof. induction s as [|c s IH]; simpl; [reflexivity|]. now rewrite IH. Qed.

Lemma String_replace_underscore_cons (c : ascii) (s : string) :
  String_replace "_" " " (String c s) =
  if Ascii.eqb c "_" then String " " s
  else String c (String_replace "_" " " s).
Proof.
  cbn [String_replace String.prefix].
  destruct (ascii_dec "_" c) as [<-|Hn].
  - replace (String.prefix "" s) with true by (destruct s; reflexivity).
    cbn [String.length Nat.sub String.substring Ascii.eqb Bool.eqb].
    rewrite Nat.sub_0_r, substring_all. reflexivity.
  - destruct (Ascii.eqb_spec c "_"); [congruence|reflexivity].
Qed.

(** Replacing "_" by " ": nothing changes in a string without
    underscore; otherwise the string splits at its first underscore, and
    that one alone becomes a space. *)
Lemma String_replace_first_underscore (s : string) :
  ((forall pre post, s <> pre ++ "_" ++ post)
   /\ String_replace "_" " " s = s)
  \/ (exists pre post,
        s = pre ++ "_" ++ post
        /\ (forall a b, pre <> a ++ "_" ++ b)
        /\ String_replace "_" " " s = pre ++ " " ++ post).
Proof.
  induction s as [|c s IH].
  - left. split; [|reflexivity].
    intros [|a pre] post; discriminate.
  - rewrite String_replace_underscore_cons.
    destruct (Ascii.eqb_spec c "_") as [->|Hc].
    + right. exists "", s. repeat split.
      intros [|a pre] post; discriminate.
    + destruct IH as [[Hno Heq]|(pre & post & -> & Hpre & Heq)].
      * left. split; [|now rewrite Heq].
        intros [|a pre] post Hs; simpl in Hs; injection Hs as Ha Hs.
        -- congruence.
        -- exact (Hno _ _ Hs).
      * right. exists (String c pre), post. repeat split.
        -- intros [|a a'] b Hs; simpl in Hs; injection Hs as Ha Hs.
           ++ congruence.
           ++ exact (Hpre _ _ Hs).
        -- rewrite Heq. reflexivity.
Qed.

(** C5. An aspect record has a card, and the header of the card of any
    aspect is the name with its first underscore, and only that one,
    replaced by a space: the name itself when it has no underscore;
    otherwise the name splits at its first underscore into [pre] and
    [post], and the header is [pre], a space and [post], whatever
    underscores [post] holds. *)
Theorem AspectCard_header (aspect : jsval) (name : string) :
  get aspect "name" = Ok (JStr name) ->
  (partial_aspect aspect = true -> aspect_has_required aspect = true ->
   exists card, AspectCard aspect = Ok card)
  /\
  (forall card,
     AspectCard aspect = Ok card ->
     exists header,
       child 0 card = Element "h3" [] [Text header] /\
       header = String_replace "_" " " name /\
       (((forall pre post, name <> pre ++ "_" ++ post) /\ header = name)
        \/ (exists pre post,
              name = pre ++ "_" ++ post
              /\ (forall a b, pre <> a ++ "_" ++ b)
              /\ header = pre ++ " " ++ post))).
Proof.
  intros Hname. split; [exact (AspectCard_returns aspect)|].
  intros card H. unfold AspectCard in H.
  step H. step H. rewrite Hname in H. cbn [bind call_replace] in H.
  returned H.
  exists (String_replace "_" " " name). split; [reflexivity|].
  split; [reflexivity|].
  apply String_replace_first_underscore.
Qed.

(** C6. For a confidence between 0 and 1 the status card is returned
    (the risk being a string, the score and the rating trust no objects),
    and any status card shows [confidence * 100], the product as binary64
    computes it, rounded to the closest integer (the larger on a tie) and
    followed by a percent sign; for the confidence 0.8675 it shows "87%". *)
Theorem StatusCard_confidence_percent
        (risk riskScore ratingTrust : jsval) (c : number) :
  valid c = true -> leb (of_Z 0) c = true -> leb c (of_Z 1) = true ->
  (is_string risk = true -> primitive riskScore = true ->
   primitive ratingTrust = true ->
   exists card, StatusCard risk riskScore (JNum c) ratingTrust = Ok card)
  /\
  (forall card,
     StatusCard risk riskScore (JNum c) ratingTrust = Ok card ->
     child 0 (child 2 (child 1 card)) =
       Element "div" [("className", "metric-label")] [Text "Confidence"] /\
     text_content (child 1 (child 2 (child 1 card))) =
       digits_of_Z (round_half_up (value (mul c (of_Z 100)))) ++ "%" /\
     (c = of_decimal 8675 4 ->
      text_content (child 1 (child 2 (child 1 card))) = "87%")).
Proof.
  intros Hv H0 H1. split.
  { intros Hr Hs Ht. exact (StatusCard_returns risk riskScore (JNum c) ratingTrust
                             Hr Hs eq_refl Ht). }
  intros card H. unfold StatusCard in H. cbn [ToNumber] in H. returned H.
  split; [reflexivity|].
  assert (Htext : Number.toString (Math_round (mul c (of_Z 100))) =
                  digits_of_Z (round_half_up (value (mul c (of_Z 100))))).
  { destruct (mul_hundred c Hv H0 H1) as [[s ->]|(p & k & -> & Hp)].
    - reflexivity.
    - apply Math_round_text. exact Hp. }
  cbn [child children nth text_content].
  change (binary_round prec emax false 100 0) with (of_Z 100).
  rewrite Htext. split.
  - reflexivity.
  - intros ->. vm_compute. reflexivity.
Qed.

End Components.

(** The card of the scenario's aspect with each of the three trends. *)
Lemma AspectCard_trend_glyph_witness :
  (exists card,
     AspectCard (ExampleHost.having "trend" (JStr "improving") ExampleHost.wifi_speed)
       = Ok card /\
     children (child 1 (child 2 card)) = [Text "↑ "; Nothing; Text "improving"])
  /\ (exists card,
        AspectCard ExampleHost.wifi_speed = Ok card /\
        children (child 1 (child 2 card)) = [Nothing; Text "↓ "; Text "declining"])
  /\ (exists card,
        AspectCard (ExampleHost.having "trend" (JStr "stable") ExampleHost.wifi_speed)
          = Ok card /\
        children (child 1 (child 2 card)) = [Nothing; Nothing; Text "stable"]).
Proof.
  split; [|split].
  - destruct (proj1 (AspectCard_trend_glyph
                       (ExampleHost.having "trend" (JStr "improving")
                          ExampleHost.wifi_speed)) eq_refl eq_refl) as [card Hc].
    exists card. split; [exact Hc|].
    destruct (proj2 (AspectCard_trend_glyph _) card Hc)
      as (trend & shown & Hg & Hs & _ & Hu & _).
    injection Hg as <-. injection Hs as <-. exact (Hu eq_refl).
  - destruct (proj1 (AspectCard_trend_glyph ExampleHost.wifi_speed)
                eq_refl eq_refl) as [card Hc].
    exists card. split; [exact Hc|].
    destruct (proj2 (AspectCard_trend_glyph _) card Hc)
      as (trend & shown & Hg & Hs & _ & _ & Hd & _).
    injection Hg as <-. injection Hs as <-. exact (Hd eq_refl).
  - destruct (proj1 (AspectCard_trend_glyph
                       (ExampleHost.having "trend" (JStr "stable")
                          ExampleHost.wifi_speed)) eq_refl eq_refl) as [card Hc].
    exists card. split; [exact Hc|].
    destruct (proj2 (AspectCard_trend_glyph _) card Hc)
      as (trend & shown & Hg & Hs & _ & _ & _ & Hn).
    injection Hg as <-. injection Hs as <-.
    exact (Hn ltac:(discriminate) ltac:(discriminate)).
Defined.

(** The status card of the scenario, and the same with a reliable
    rating. *)
Lemma StatusCard_rating_trust_style_witness :
  (exists card,
     StatusCard (H := ExampleHost.host) (JStr "High") (JNum (of_Z 72))
       (JNum (of_decimal 5 1)) (JStr "Reliable") = Ok card /\
     attr "className" (child 1 (child 3 (child 1 card))) = Some "metric-value low")
  /\ (exists card,
        StatusCard (H := ExampleHost.host) (JStr "High") (JNum (of_Z 72))
          (JNum (of_decimal 5 1)) (JStr "Unreliable") = Ok card /\
        attr "className" (child 1 (child 3 (child 1 card))) = Some "metric-value high").
Proof.
  split.
  - destruct (proj1 (StatusCard_rating_trust_style (host := ExampleHost.host)
                       (JStr "High") (JNum (of_Z 72)) (JNum (of_decimal 5 1))
                       (JStr "Reliable")) eq_refl eq_refl eq_refl eq_refl)
      as [card Hc].
    exists card. split; [exact Hc|].
    exact (proj1 (proj2 (proj2 (StatusCard_rating_trust_style _ _ _ _) card Hc))
                 eq_refl).
  - destruct (proj1 (StatusCard_rating_trust_style (host := ExampleHost.host)
                       (JStr "High") (JNum (of_Z 72)) (JNum (of_decimal 5 1))
                       (JStr "Unreliable")) eq_refl eq_refl eq_refl eq_refl)
      as [card Hc].
    exists card. split; [exact Hc|].
    exact (proj2 (proj2 (proj2 (StatusCard_rating_trust_style _ _ _ _) card Hc))
                 ltac:(discriminate)).
Defined.

(** A name with one underscore, one with two, and one with none. *)
Lemma AspectCard_header_witness :
  (exists card,
     AspectCard ExampleHost.wifi_speed = Ok card /\
     child 0 card = Element "h3" [] [Text "wifi speed"])
  /\ (exists card,
        AspectCard (ExampleHost.having "name" (JStr "check_in_time")
                      ExampleHost.wifi_speed) = Ok card /\
        child 0 card = Element "h3" [] [Text "check in_time"])
  /\ (exists card,
        AspectCard (ExampleHost.having "name" (JStr "cleanliness")
                      ExampleHost.wifi_speed) = Ok card /\
        child 0 card = Element "h3" [] [Text "cleanliness"]).
Proof.
  split; [|split].
  - destruct (AspectCard_header ExampleHost.wifi_speed "wifi_speed" eq_refl)
      as [Hret Hcard].
    destruct (Hret eq_refl eq_refl) as [card Hc].
    exists card. split; [exact Hc|].
    destruct (Hcard card Hc) as (header & Hh & -> & _). exact Hh.
  - destruct (AspectCard_header
                (ExampleHost.having "name" (JStr "check_in_time")
                   ExampleHost.wifi_speed) "check_in_time" eq_refl)
      as [Hret Hcard].
    destruct (Hret eq_refl eq_refl) as [card Hc].
    exists card. split; [exact Hc|].
    destruct (Hcard card Hc) as (header & Hh & -> & _). exact Hh.
  - destruct (AspectCard_header
                (ExampleHost.having "name" (JStr "cleanliness")
                   ExampleHost.wifi_speed) "cleanliness" eq_refl)
      as [Hret Hcard].
    destruct (Hret eq_refl eq_refl) as [card Hc].
    exists card. split; [exact Hc|].
    destruct (Hcard card Hc) as (header & Hh & -> & _). exact Hh.
Defined.

(** The confidences 0.8675, 0.5, 0.004 and 1. *)
Lemma StatusCard_confidence_percent_witness :
  (exists card,
     StatusCard (H := ExampleHost.host) (JStr "High") (JNum (of_Z 72))
       (JNum (of_decimal 8675 4)) (JStr "Unreliable") = Ok card /\
     text_content (child 1 (child 2 (child 1 card))) = "87%")
  /\ (exists card,
        StatusCard (H := ExampleHost.host) (JStr "High") (JNum (of_Z 72))
          (JNum (of_decimal 5 1)) (JStr "Unreliable") = Ok card /\
        text_content (child 1 (child 2 (child 1 card))) = "50%")
  /\ (exists card,
        StatusCard (H := ExampleHost.host) (JStr "High") (JNum (of_Z 72))
          (JNum (of_decimal 4 3)) (JStr "Unreliable") = Ok card /\
        text_content (child 1 (child 2 (child 1 card))) = "0%")
  /\ (exists card,
        StatusCard (H := ExampleHost.host) (JStr "High") (JNum (of_Z 72))
          (JNum (of_Z 1)) (JStr "Unreliable") = Ok card /\
        text_content (child 1 (child 2 (child 1 card))) = "100%").
Proof.
  split; [|split; [|split]].
  - destruct (StatusCard_confidence_percent (host := ExampleHost.host)
                (JStr "High") (JNum (of_Z 72)) (JStr "Unreliable")
                (of_decimal 8675 4) eq_refl eq_refl eq_refl) as [Hret Hcard].
    destruct (Hret eq_refl eq_refl eq_refl) as [card Hc].
    exists card. split; [exact Hc|].
    exact (proj2 (proj2 (Hcard card Hc)) eq_refl).
  - destruct (StatusCard_confidence_percent (host := ExampleHost.host)
                (JStr "High") (JNum (of_Z 72)) (JStr "Unreliable")
                (of_decimal 5 1) eq_refl eq_refl eq_refl) as [Hret Hcard].
    destruct (Hret eq_refl eq_refl eq_refl) as [card Hc].
    exists card. split; [exact Hc|].
    exact (proj1 (proj2 (Hcard card Hc))).
  - destruct (StatusCard_confidence_percent (host := ExampleHost.host)
                (JStr "High") (JNum (of_Z 72)) (JStr "Unreliable")
                (of_decimal 4 3) eq_refl eq_refl eq_refl) as [Hret Hcard].
    destruct (Hret eq_refl eq_refl eq_refl) as [card Hc].
    exists card. split; [exact Hc|].
    exact (proj1 (proj2 (Hcard card Hc))).
  - destruct (StatusCard_confidence_percent (host := ExampleHost.host)
                (JStr "High") (JNum (of_Z 72)) (JStr "Unreliable")
                (of_Z 1) eq_refl eq_refl eq_refl) as [Hret Hcard].
    destruct (Hret eq_refl eq_refl eq_refl) as [card Hc].
    exists card. split; [exact Hc|].
    exact (proj1 (proj2 (Hcard card Hc))).
Defined.

(** ** Rendering an assessment with missing fields *)

Section MissingFields.

Context {host : Host}.

Lemma assessment_section_JObj (props : list (string * jsval)) :
  primitive (field "assessment_date" props) = true ->
  assessment_section (JObj props) =
  (status <- StatusCard (field "overall_risk" props) (field "risk_score" props)
               (field "confidence" props) (field "rating_trust" props) ;;
   grid <- AspectsGrid (field "aspects" props) ;;
   reasons <- RiskDrivers (field "risk_drivers" props) ;;
   banner <- ActionBanner (field "recommended_action" props) ;;
   count_c <- child_of (field "review_count" props) ;;
   Ok (Fragment
         [ status; grid; reasons; banner;
           Element "div" [("className", "metadata")]
             [count_c; Text " reviews analyzed • Assessment: ";
              Text (toLocaleDateString (field "assessment_date" props))] ])).
Proof.
  intros Hd. unfold assessment_section, section_elements.
  rewrite !get_JObj. cbn [bind].
  rewrite (ToPrimitive_primitive _ Hd). reflexivity.
Qed.

(** C7, as the code has it. An assessment with fields missing renders
    exactly when [overall_risk], [aspects], [risk_drivers] and every
    aspect's [name] and [sentiment] are there. The section then holds the
    status card, the grid, the drivers, the banner and the footer, and a
    field that is missing shows like this: the risk score as "/100" alone,
    the confidence as "NaN%", the rating trust as an empty value of the
    high-concern class, the action as the banner of [ignore], the review
    count as nothing, the date as what the platform makes of [undefined],
    and a field of an aspect as nothing (the trend with the class
    "trend-undefined"). When one of the fields needed is missing, a
    TypeError is thrown, and nothing catches it. *)
Theorem assessment_section_partial (a : jsval) :
  partial_assessment a = true ->
  if has_required a then
    exists props aspects status cards reasons banner count_c,
      a = JObj props /\
      field "aspects" props = JArr aspects /\
      StatusCard (field "overall_risk" props) (field "risk_score" props)
        (field "confidence" props) (field "rating_trust" props) = Ok status /\
      Forall2 card_with_blanks aspects cards /\
      RiskDrivers (field "risk_drivers" props) = Ok reasons /\
      ActionBanner (field "recommended_action" props) = Ok banner /\
      child_of (field "review_count" props) = Ok count_c /\
      assessment_section a =
        Ok (Fragment
              [ status;
                Element "div" [("className", "aspects-grid")] cards;
                reasons; banner;
                Element "div" [("className", "metadata")]
                  [count_c; Text " reviews analyzed • Assessment: ";
                   Text (toLocaleDateString (field "assessment_date" props))] ]) /\
      (present "risk_score" props = false ->
       child 1 (child 1 (child 1 status)) =
         Element "div" [("className", "metric-value")] [Nothing; Text "/100"]) /\
      (present "confidence" props = false ->
       text_content (child 1 (child 2 (child 1 status))) = "NaN%") /\
      (present "rating_trust" props = false ->
       child 1 (child 3 (child 1 status)) =
         Element "div" [("className", "metric-value high")] [Nothing]) /\
      (present "recommended_action" props = false ->
       banner = Element "div" [("className", "action-banner action-ignore")]
                  [Text "✓ No action needed"]) /\
      (present "review_count" props = false -> count_c = Nothing) /\
      (present "assessment_date" props = false ->
       toLocaleDateString (field "assessment_date" props) =
       toLocaleDateString JUndefined)
  else assessment_section a = Throw TypeError.
Proof.
  destruct a as [| | | | | |props]; try discriminate.
  unfold partial_assessment, has_required.
  rewrite !andb_true_iff.
  intros [[[[[[[[Hrisk Hscore] Hconf] Htrust] Hasp] Hdrv] Hact] Hcount] Hdate].
  rewrite (assessment_section_JObj props
             (optional_primitive _ _ _ is_string_primitive Hdate)).
  destruct (optional_cases _ _ _ Hrisk) as [[-> ->]|[-> Hr]].
  { rewrite StatusCard_throws by reflexivity. reflexivity. }
  destruct (StatusCard_returns _ _ _ _ Hr
              (optional_primitive _ _ _ is_number_primitive Hscore)
              (optional_primitive _ _ _ is_number_primitive Hconf)
              (optional_primitive _ _ _ is_string_primitive Htrust)) as [status Hstatus].
  rewrite Hstatus. cbn [bind andb].
  destruct (optional_cases _ _ _ Hasp) as [[_ Hmiss]|[_ Ha]].
  { rewrite Hmiss. reflexivity. }
  destruct (field "aspects" props) as [| | | | |aspects|] eqn:Haspects;
    try discriminate.
  cbn [array_of] in *.
  pose proof (AspectsGrid_partial aspects Ha) as Hgrid.
  destruct (forallb aspect_has_required aspects).
  2: { rewrite Hgrid. reflexivity. }
  destruct Hgrid as (cards & Hcards & ->). cbn [bind andb].
  destruct (optional_cases _ _ _ Hdrv) as [[-> ->]|[-> Hd]]; [reflexivity|].
  destruct (field "risk_drivers" props) as [| | | | |drivers|] eqn:Hdrivers;
    try discriminate.
  cbn [array_of] in Hd.
  destruct (RiskDrivers_returns drivers) as [reasons Hreasons].
  { rewrite forallb_forall in *. intros v Hv.
    apply is_string_primitive, Hd, Hv. }
  rewrite Hreasons.
  destruct (ActionBanner_returns _ (optional_primitive _ _ _ is_string_primitive Hact))
    as [banner Hbanner].
  rewrite Hbanner.
  destruct (child_of_primitive _ (optional_primitive _ _ _ is_number_primitive Hcount))
    as [count Hc].
  rewrite Hc. cbn [bind].
  exists props, aspects, status, cards, reasons, banner, count.
  repeat (split; [first [reflexivity | assumption
                         | rewrite Hdrivers; assumption]|]).
  destruct (field "overall_risk" props) as [| | | |risk| |]; try discriminate Hr.
  unfold StatusCard in Hstatus. cbn [call_toLowerCase bind] in Hstatus.
  split; [|split; [|split; [|split; [|split]]]]; intros Hmiss;
    apply missing_field in Hmiss.
  - rewrite Hmiss in Hstatus. cbn [child_of bind] in Hstatus.
    returned Hstatus. reflexivity.
  - rewrite Hmiss in Hstatus. cbn [ToNumber bind] in Hstatus.
    returned Hstatus. reflexivity.
  - rewrite Hmiss in Hstatus. returned Hstatus.
    match goal with
    | Hu : child_of JUndefined = Ok _ |- _ => injection Hu as <-
    end.
    reflexivity.
  - rewrite Hmiss in Hbanner. cbn in Hbanner. congruence.
  - rewrite Hmiss in Hc. cbn in Hc. congruence.
  - rewrite Hmiss. reflexivity.
Qed.

End MissingFields.

(** The section of the scenario's assessment without its [confidence],
    without its [risk_score] and without its [assessment_date]; without
    its [overall_risk] the rendering throws. *)
Lemma assessment_section_partial_witness :
  (exists status rest,
     assessment_section (H := ExampleHost.host)
       (ExampleHost.without "confidence" ExampleHost.scenario)
     = Ok (Fragment (status :: rest)) /\
     text_content (child 1 (child 2 (child 1 status))) = "NaN%")
  /\ (exists status rest,
        assessment_section (H := ExampleHost.host)
          (ExampleHost.without "risk_score" ExampleHost.scenario)
        = Ok (Fragment (status :: rest)) /\
        text_content (child 1 (child 1 (child 1 status))) = "/100")
  /\ (exists status grid reasons banner,
        assessment_section (H := ExampleHost.host)
          (ExampleHost.without "assessment_date" ExampleHost.scenario)
        = Ok (Fragment
                [ status; grid; reasons; banner;
                  Element "div" [("className", "metadata")]
                    [ Numeral (of_Z 120);
                      Text " reviews analyzed • Assessment: ";
                      Text "Invalid Date" ] ]))
  /\ assessment_section (H := ExampleHost.host)
       (ExampleHost.without "overall_risk" ExampleHost.scenario)
     = Throw TypeError.
Proof.
  split; [|split; [|split]].
  - destruct (assessment_section_partial (host := ExampleHost.host)
                (ExampleHost.without "confidence" ExampleHost.scenario) eq_refl)
      as (props & aspects & status & cards & reasons & banner & count_c
          & Ha & _ & _ & _ & _ & _ & _ & Hsec & _ & Hconf & _).
    injection Ha as <-.
    exists status. eexists. split; [exact Hsec|exact (Hconf eq_refl)].
  - destruct (assessment_section_partial (host := ExampleHost.host)
                (ExampleHost.without "risk_score" ExampleHost.scenario) eq_refl)
      as (props & aspects & status & cards & reasons & banner & count_c
          & Ha & _ & _ & _ & _ & _ & _ & Hsec & Hscore & _).
    injection Ha as <-.
    exists status. eexists. split; [exact Hsec|].
    rewrite (Hscore eq_refl). reflexivity.
  - destruct (assessment_section_partial (host := ExampleHost.host)
                (ExampleHost.without "assessment_date" ExampleHost.scenario) eq_refl)
      as (props & aspects & status & cards & reasons & banner & count_c
          & Ha & _ & _ & _ & _ & _ & Hcount & Hsec & _).
    injection Ha as <-. injection Hcount as <-.
    exists status. do 3 eexists. exact Hsec.
  - exact (assessment_section_partial (host := ExampleHost.host)
             (ExampleHost.without "overall_risk" ExampleHost.scenario) eq_refl).
Defined.

(** C7, as the specification has it, fails: the scenario's assessment
    without [overall_risk] is an assessment with a field missing, and
    rendering it throws. *)
Lemma missing_overall_risk_throws :
  ~ (forall a, partial_assessment a = true ->
               exists t, assessment_section (H := ExampleHost.host) a = Ok t).
Proof.
  intros H.
  destruct (H (ExampleHost.without "overall_risk" ExampleHost.scenario) eq_refl)
    as [t Ht].
  vm_compute in Ht. discriminate Ht.
Qed.

(** ** More on the components *)

Section MoreComponents.

Context {host : Host}.

(** For a confidence between 0 and 1 the status card is returned (the
    risk being a string, the score and the rating trust no objects), and
    any status card shows the numeral of an integer between 0 and 100,
    followed by a percent sign. *)
Theorem StatusCard_percent_range
        (risk riskScore ratingTrust : jsval) (c : number) :
  valid c = true -> leb (of_Z 0) c = true -> leb c (of_Z 1) = true ->
  (is_string risk = true -> primitive riskScore = true ->
   primitive ratingTrust = true ->
   exists card, StatusCard risk riskScore (JNum c) ratingTrust = Ok card)
  /\
  (forall card,
     StatusCard risk riskScore (JNum c) ratingTrust = Ok card ->
     exists n, 0 <= n <= 100 /\
               text_content (child 1 (child 2 (child 1 card))) = digits_of_Z n ++ "%").
Proof.
  intros Hv H0 H1. split.
  { intros Hr Hs Ht. exact (StatusCard_returns risk riskScore (JNum c) ratingTrust
                             Hr Hs eq_refl Ht). }
  intros card H. unfold StatusCard in H. cbn [ToNumber] in H. returned H.
  cbn [child children nth text_content].
  change (binary_round prec emax false 100 0) with (of_Z 100).
  destruct (mul_hundred_le c Hv H0 H1) as [[s ->]|(p & k & -> & Hp)].
  - exists 0. split; [lia|reflexivity].
  - exists (round_half_up (value (S754_finite false p (Zneg k)))). split.
    + unfold value. rewrite round_half_up_dyadic. cbv zeta.
      rewrite Pos2Z.inj_pow.
      assert (Hd : 0 < 2 ^ Zpos k) by (apply Z.pow_pos_nonneg; lia).
      pose proof (Z.div_mod (Zpos p) (2 ^ Zpos k) ltac:(lia)) as Hdm.
      pose proof (Z.mod_pos_bound (Zpos p) (2 ^ Zpos k) ltac:(lia)) as Hr.
      set (d := 2 ^ Zpos k) in *.
      set (q := Zpos p / d) in *. set (r := Zpos p mod d) in *.
      assert (Hq0 : 0 <= q) by (apply Z.div_pos; lia).
      destruct (Z.leb_spec d (2 * r)); nia.
    + rewrite Math_round_text; [reflexivity|].
      assert (0 < 2 ^ Zpos k) by (apply Z.pow_pos_nonneg; lia). lia.
Qed.

(** [ActionBanner] at a string that names no property of
    [Object.prototype]: the presentation of the key when it is one of
    flag, monitor and ignore, the one of ignore otherwise; a missing
    action shows as ignore too. *)
Theorem ActionBanner_known_or_default (key : string) :
  existsb (String.eqb key) Object_prototype_names = false ->
  let shown := match lookup key actionConfig with
               | Some b => b
               | None => actionConfig_ignore
               end in
  ActionBanner (JStr key) =
    Ok (Element "div" [("className", "action-banner " ++ className shown)]
          [Text (text shown)])
  /\ ActionBanner JUndefined =
     Ok (Element "div" [("className", "action-banner action-ignore")]
           [Text "✓ No action needed"]).
Proof.
  intros Hkey. split; [|reflexivity].
  unfold ActionBanner. cbn [ToString bind]. unfold actionConfig_get.
  rewrite Hkey. destruct (lookup key actionConfig); reflexivity.
Qed.

(** The class of the trend span is "trend-" and the trend as a string;
    an aspect without trend gets the class "trend-undefined" and an empty
    trend text. *)
Theorem AspectCard_trend_class (aspect : jsval) (card : jsx) :
  AspectCard aspect = Ok card ->
  exists trend name,
    get aspect "trend" = Ok trend /\ ToString trend = Ok name /\
    attr "className" (child 1 (child 2 card)) = Some ("trend-" ++ name) /\
    (trend = JUndefined ->
     attr "className" (child 1 (child 2 card)) = Some "trend-undefined" /\
     text_content (child 1 (child 2 card)) = "").
Proof.
  intros H. unfold AspectCard in H.
  step H. rename a into trend. step H. rename a into name.
  repeat step H. injection H as <-.
  exists trend, name. split; [reflexivity|]. split; [assumption|].
  split; [reflexivity|].
  intros ->. cbn in *.
  repeat match goal with
         | Hc : Ok _ = Ok _ |- _ => injection Hc as <-
         end.
  split; reflexivity.
Qed.

(** The grid holds one card per aspect, in the order of the aspects, and
    there is a grid only when every aspect has a card. *)
Theorem AspectsGrid_cards (aspects : list jsval) (grid : jsx) :
  AspectsGrid (JArr aspects) = Ok grid <->
  exists cards,
    Forall2 (fun aspect card => AspectCard aspect = Ok card) aspects cards /\
    grid = Element "div" [("className", "aspects-grid")] cards.
Proof.
  rewrite AspectsGrid_unfold. split.
  - intros H.
    destruct (mapM keyed_aspect aspects) as [keyed|] eqn:Hk; [|discriminate].
    apply (mapM_pass keyed_aspect _ _ keyed_aspect_pass) in Hk. subst keyed.
    cbn [bind] in H.
    destruct (mapM AspectCard aspects) as [cards|] eqn:Hm; [|discriminate].
    injection H as <-. exists cards. split; [|reflexivity].
    apply mapM_Forall2. exact Hm.
  - intros (cards & Hall & ->).
    rewrite (mapM_pass_all keyed_aspect aspects).
    + apply mapM_Forall2 in Hall. cbn [bind]. rewrite Hall. reflexivity.
    + intros a Ha. clear - Hall Ha.
      induction Hall as [|x c l cs Hx _ IH]; [destruct Ha|].
      destruct Ha as [<-|Ha]; [exact (AspectCard_keyed x c Hx)|exact (IH Ha)].
Qed.

(** The status card needs a risk that is a string: its class is the
    lower-cased risk, the headline shows the risk as it came; any other
    risk, a missing one too, throws a TypeError; and with a risk that is a
    string there is a card when the other three props are no objects. *)
Theorem StatusCard_risk (risk riskScore confidence ratingTrust : jsval) :
  (forall r card,
      risk = JStr r ->
      StatusCard risk riskScore confidence ratingTrust = Ok card ->
      attr "className" card = Some ("status-card risk-" ++ toLowerCase r) /\
      child 1 (child 0 (child 1 card)) =
        Element "div" [("className", "metric-value " ++ toLowerCase r)] [Text r])
  /\ (is_string risk = false ->
      StatusCard risk riskScore confidence ratingTrust = Throw TypeError)
  /\ (is_string risk = true -> primitive riskScore = true ->
      primitive confidence = true -> primitive ratingTrust = true ->
      exists card, StatusCard risk riskScore confidence ratingTrust = Ok card).
Proof.
  split; [|split; [|exact (StatusCard_returns risk riskScore confidence ratingTrust)]].
  - intros r card -> H. unfold StatusCard in H. cbn [call_toLowerCase bind] in H.
    returned H. cbn in *.
    repeat match goal with
           | Hc : Ok _ = Ok _ |- _ => injection Hc as <-
           end.
    split; reflexivity.
  - apply StatusCard_throws.
Qed.

Lemma append_empty_r (s : string) : s ++ "" = s.
Proof. induction s as [|c s IH]; [reflexivity|]. cbn. now rewrite IH. Qed.

Lemma option_elements_strings (ids : list string) :
  option_elements (JArr (map JStr ids)) =
  Ok (map (fun id => Element "option" [("value", id)] [Text id]) ids).
Proof.
  unfold option_elements. rewrite call_map_mapM.
  rewrite (mapM_pass_all keyed_option) by (intros a Ha; apply in_map_iff in Ha;
                                            destruct Ha as (id & <- & _); reflexivity).
  cbn [bind]. induction ids as [|id ids IH]; [reflexivity|].
  cbn [map mapM]. rewrite IH. reflexivity.
Qed.

(** The selector of identifiers that are strings. *)
Lemma ListingInput_strings (ids : list string) (selected : string) :
  ListingInput (JArr (map JStr ids)) (JStr selected) =
  Ok (Element "div" [("className", "listing-input")]
        [ Element "label" [("htmlFor", "listing-select")] [Text "Select Listing"];
          Element "select" [("id", "listing-select"); ("value", selected)]
            (map (fun id => Element "option" [("value", id)] [Text id]) ids) ]).
Proof. unfold ListingInput. rewrite option_elements_strings. reflexivity. Qed.

(** The selector of identifiers that are strings is returned; it offers
    the identifiers it is given, each as the value and as the label of one
    option, in their order, and carries the selection as its value. *)
Theorem ListingInput_options (ids : list string) (selected : string) :
  exists selector,
    ListingInput (JArr (map JStr ids)) (JStr selected) = Ok selector /\
    let select := child 1 selector in
    attr "value" select = Some selected /\
    map (attr "value") (children select) = map Some ids /\
    map text_content (children select) = ids.
Proof.
  rewrite ListingInput_strings. eexists. split; [reflexivity|].
  cbn [child children nth]. repeat split.
  - induction ids as [|id ids IH]; [reflexivity|].
    cbn [map]. rewrite IH. reflexivity.
  - induction ids as [|id ids IH]; [reflexivity|].
    cbn [map text_content]. rewrite IH, append_empty_r. reflexivity.
Qed.

End MoreComponents.

(** ** The theorems at the examples *)

Lemma StatusCard_percent_range_witness :
  exists card n,
    StatusCard (H := ExampleHost.host) (JStr "High") (JNum (of_Z 72))
      (JNum (of_decimal 8675 4)) (JStr "Unreliable") = Ok card /\
    0 <= n <= 100 /\
    text_content (child 1 (child 2 (child 1 card))) = digits_of_Z n ++ "%".
Proof.
  destruct (StatusCard_percent_range (host := ExampleHost.host)
              (JStr "High") (JNum (of_Z 72)) (JStr "Unreliable")
              (of_decimal 8675 4) eq_refl eq_refl eq_refl) as [Hret Hcard].
  destruct (Hret eq_refl eq_refl eq_refl) as [card Hc].
  destruct (Hcard card Hc) as (n & Hn & Ht).
  exists card, n. split; [exact Hc|]. split; [exact Hn|exact Ht].
Defined.

Lemma ActionBanner_known_or_default_witness :
  ActionBanner (JStr "monitor") =
    Ok (Element "div" [("className", "action-banner action-monitor")]
          [Text "👁️ Keep monitoring this listing"])
  /\ ActionBanner (JStr "escalate") =
     Ok (Element "div" [("className", "action-banner action-ignore")]
           [Text "✓ No action needed"]).
Proof.
  split.
  - exact (proj1 (ActionBanner_known_or_default "monitor" eq_refl)).
  - exact (proj1 (ActionBanner_known_or_default "escalate" eq_refl)).
Defined.

Lemma AspectCard_trend_class_witness :
  exists card,
    AspectCard (ExampleHost.without "trend" ExampleHost.wifi_speed) = Ok card /\
    attr "className" (child 1 (child 2 card)) = Some "trend-undefined" /\
    text_content (child 1 (child 2 card)) = "".
Proof.
  eexists. split; [reflexivity|].
  destruct (AspectCard_trend_class
              (ExampleHost.without "trend" ExampleHost.wifi_speed) _ eq_refl)
    as (trend & name & Hg & _ & _ & Hu).
  injection Hg as <-. exact (Hu eq_refl).
Defined.

Lemma AspectsGrid_cards_witness :
  exists card,
    AspectCard ExampleHost.wifi_speed = Ok card /\
    AspectsGrid (JArr [ExampleHost.wifi_speed]) =
    Ok (Element "div" [("className", "aspects-grid")] [card]).
Proof.
  eexists. split; [reflexivity|].
  apply AspectsGrid_cards. eexists. split; [|reflexivity].
  constructor; [reflexivity|constructor].
Defined.

Lemma StatusCard_risk_witness :
  (exists card,
      StatusCard (H := ExampleHost.host) (JStr "High") (JNum (of_Z 72))
        (JNum (of_decimal 5 1)) (JStr "Unreliable") = Ok card /\
      attr "className" card = Some "status-card risk-high")
  /\ StatusCard (H := ExampleHost.host) JUndefined (JNum (of_Z 72))
       (JNum (of_decimal 5 1)) (JStr "Unreliable") = Throw TypeError.
Proof.
  split.
  - destruct (proj2 (proj2 (StatusCard_risk (host := ExampleHost.host)
                               (JStr "High") (JNum (of_Z 72))
                               (JNum (of_decimal 5 1)) (JStr "Unreliable")))
                eq_refl eq_refl eq_refl eq_refl) as [card Hc].
    exists card. split; [exact Hc|].
    exact (proj1 (proj1 (StatusCard_risk (host := ExampleHost.host)
                           (JStr "High") (JNum (of_Z 72)) (JNum (of_decimal 5 1))
                           (JStr "Unreliable"))
                        "High" card eq_refl Hc)).
  - exact (proj1 (proj2 (StatusCard_risk (host := ExampleHost.host)
                             JUndefined (JNum (of_Z 72)) (JNum (of_decimal 5 1))
                             (JStr "Unreliable"))) eq_refl).
Defined.

(** ** Drivers of any kind *)

Lemma mapM_then {A B C : Type} (f : A -> result B) (g : B -> C) (l : list A) :
  mapM (fun a => b <- f a ;; Ok (g b)) l =
  bs <- mapM f l ;; Ok (map g bs).
Proof.
  induction l as [|a l IH]; [reflexivity|].
  cbn [mapM]. rewrite IH.
  destruct (f a) as [b|e]; [|reflexivity]. cbn [bind].
  destruct (mapM f l) as [bs|e]; reflexivity.
Qed.

(** [RiskDrivers] on an array of any values: the affirmation for the
    empty array; otherwise a list with one item per driver, in order, each
    holding what its driver renders as, and no list at all when one of
    the drivers cannot be rendered. *)
Theorem RiskDrivers_items (drivers : list jsval) (t : jsx) :
  RiskDrivers (JArr drivers) = Ok t <->
  match drivers with
  | [] =>
      t = Element "div" [("className", "risk-drivers")]
            [ Element "h2" [] [Text "⚠️ Risk Drivers"];
              Element "p" [("className", "no-drivers")]
                [Text "✓ No significant risk factors detected"] ]
  | _ :: _ =>
      exists shown,
        Forall2 (fun driver c => child_of driver = Ok c) drivers shown /\
        t = Element "div" [("className", "risk-drivers")]
              [ Element "h2" [] [Text "⚠️ Risk Drivers"];
                Element "ul" [] (map (fun c => Element "li" [] [c]) shown) ]
  end.
Proof.
  unfold RiskDrivers, get_length. cbn [bind].
  rewrite strict_eq_zero_length.
  destruct drivers as [|d l].
  - cbn. split; [intros H; injection H as <-; reflexivity|intros ->; reflexivity].
  - cbn [List.length]. unfold call_map.
    rewrite (mapM_combine_seq
               (fun driver => shown <- child_of driver ;; Ok (Element "li" [] [shown]))
               (d :: l) 0).
    rewrite (mapM_then child_of (fun c => Element "li" [] [c])).
    split.
    + intros H. destruct (mapM child_of (d :: l)) as [shown|] eqn:Hm; [|discriminate].
      injection H as <-. exists shown. split; [|reflexivity].
      apply mapM_Forall2. exact Hm.
    + intros (shown & Hall & ->). apply mapM_Forall2 in Hall.
      rewrite Hall. reflexivity.
Qed.

Lemma RiskDrivers_items_witness :
  RiskDrivers (JArr [JStr "Noise complaints"; JNum (of_Z 3)]) =
  Ok (Element "div" [("className", "risk-drivers")]
        [ Element "h2" [] [Text "⚠️ Risk Drivers"];
          Element "ul" []
            [ Element "li" [] [Text "Noise complaints"];
              Element "li" [] [Numeral (of_Z 3)] ] ]).
Proof.
  apply (RiskDrivers_items [JStr "Noise complaints"; JNum (of_Z 3)]).
  exists [Text "Noise complaints"; Numeral (of_Z 3)].
  split; [repeat constructor|reflexivity].
Defined.

(** ** The orchestrator *)

Section Orchestrator.

Context {host : Host}.

Lemma gt_zero_length (n : nat) :
  gt_zero (JNum (of_Z (Z.of_nat n))) =
  Ok (match n with O => false | S _ => true end).
Proof.
  unfold gt_zero. cbn [ToNumber bind].
  destruct n as [|n]; [reflexivity|].
  change (Z.of_nat (S n)) with (Zpos (Pos.of_succ_nat n)).
  rewrite of_Z_pos_gt_zero. reflexivity.
Qed.

(** The first element of an array, if it has one. *)
Lemma first_of_array (elems : list jsval) :
  first_of (JArr elems) =
  Ok (match elems with
      | [] => None
      | first :: _ => Some first
      end).
Proof.
  unfold first_of. cbn [get_length bind]. rewrite gt_zero_length.
  destruct elems; reflexivity.
Qed.


(** The selector of listings that are identifiers is returned. *)
Lemma ListingInput_identifiers (l : jsval) (ids : list string) (selected : string) :
  l = JArr (map JStr ids) ->
  exists selector, ListingInput l (JStr selected) = Ok selector.
Proof. intros ->. rewrite ListingInput_strings. eauto. Qed.

Lemma App_not_found (body : jsval + string) (st : State) :
  assessment st = JNull ->
  App (assessment_settled (Response false body) st) =
  selector <- ListingInput (listings st) (selectedListing st) ;;
  Ok (Element "div" [("className", "app")]
        [ Element "h1" [] [Text "🏠 Listing Intelligence Dashboard"];
          selector;
          Nothing;
          Element "div" [("className", "error")]
            [Text "Error: "; Text "Listing not found"];
          Nothing ]).
Proof. intros Ha. unfold App. cbn. rewrite Ha. reflexivity. Qed.

(** C8. An assessment response with a non-success status stores the
    message "Listing not found" and clears the loading flag; with no
    assessment stored, the page then shows the error region with that
    message and no assessment section, under the selector: whatever the
    listings and the selection are, and, with listings that are
    identifiers and a selection that is a string, as a page that is
    returned. *)
Theorem not_found_response (body : jsval + string) (st : State) :
  let st' := assessment_settled (Response false body) st in
  error st' = JStr "Listing not found" /\ loading st' = false /\
  (assessment st = JNull ->
   App st' =
   selector <- ListingInput (listings st) (selectedListing st) ;;
   Ok (Element "div" [("className", "app")]
         [ Element "h1" [] [Text "🏠 Listing Intelligence Dashboard"];
           selector;
           Nothing;
           Element "div" [("className", "error")]
             [Text "Error: "; Text "Listing not found"];
           Nothing ])) /\
  (forall ids selected,
     listings st = JArr (map JStr ids) -> selectedListing st = JStr selected ->
     assessment st = JNull ->
     exists selector,
       ListingInput (listings st) (selectedListing st) = Ok selector /\
       App st' =
       Ok (Element "div" [("className", "app")]
             [ Element "h1" [] [Text "🏠 Listing Intelligence Dashboard"];
               selector;
               Nothing;
               Element "div" [("className", "error")]
                 [Text "Error: "; Text "Listing not found"];
               Nothing ])).
Proof.
  cbn zeta. split; [reflexivity|]. split; [reflexivity|].
  split; [exact (App_not_found body st)|].
  intros ids selected Hl Hs Ha.
  destruct (ListingInput_identifiers _ ids selected Hl) as [selector Hsel].
  exists selector. rewrite Hs. split; [exact Hsel|].
  rewrite (App_not_found body st Ha), Hs, Hsel. reflexivity.
Qed.


Lemma assessment_settled_failed (o : outcome) (message : string) (st : State) :
  failure_message o = Some message ->
  assessment_settled o st = assessment_failed message st.
Proof.
  intros Hm. destruct o as [m|[|] [data|m]]; simpl in Hm; try discriminate;
    injection Hm as <-; reflexivity.
Qed.

Lemma App_failed (message : string) (st : State) :
  truthy (assessment st) = true ->
  App (assessment_failed message st) =
  rendering <- section_elements (assessment st) ;;
  selector <- ListingInput (listings st) (selectedListing st) ;;
  section_c <- rendering ;;
  Ok (Element "div" [("className", "app")]
        [ Element "h1" [] [Text "🏠 Listing Intelligence Dashboard"];
          selector;
          Nothing;
          (if String.eqb message "" then Text ""
           else Element "div" [("className", "error")]
                  [Text "Error: "; Text message]);
          section_c ]).
Proof.
  intros Ha. unfold App.
  cbn [assessment_failed assessment loading listings selectedListing error
       negb andb truthy].
  rewrite Ha. cbn [andb].
  destruct (section_elements (assessment st)) as [rendering|e]; [|reflexivity].
  cbn [bind].
  destruct (ListingInput (listings st) (selectedListing st)) as [selector|e];
    [|reflexivity].
  cbn [bind].
  destruct (String.eqb_spec message "") as [->|Hne]; reflexivity.
Qed.

(** C10. A failed assessment fetch stores its message and clears the
    loading flag, and leaves the assessment, the listings and the
    selection as they were; the page then shows the error and, from the
    assessment stored before, the assessment section again: in the order
    in which [App] and React work, whatever the listings and the selection
    are, and, with listings that are identifiers and a selection that is a
    string, as the selector with the section of that assessment. *)
Theorem failure_keeps_assessment (o : outcome) (message : string) (st : State) :
  failure_message o = Some message ->
  let st' := assessment_settled o st in
  assessment st' = assessment st /\ listings st' = listings st /\
  selectedListing st' = selectedListing st /\
  error st' = JStr message /\ loading st' = false /\
  (truthy (assessment st) = true ->
   App st' =
   rendering <- section_elements (assessment st) ;;
   selector <- ListingInput (listings st) (selectedListing st) ;;
   section_c <- rendering ;;
   Ok (Element "div" [("className", "app")]
         [ Element "h1" [] [Text "🏠 Listing Intelligence Dashboard"];
           selector;
           Nothing;
           (if String.eqb message "" then Text ""
            else Element "div" [("className", "error")]
                   [Text "Error: "; Text message]);
           section_c ])) /\
  (forall ids selected,
     listings st = JArr (map JStr ids) -> selectedListing st = JStr selected ->
     truthy (assessment st) = true ->
     exists selector,
       ListingInput (listings st) (selectedListing st) = Ok selector /\
       App st' =
       section_c <- assessment_section (assessment st) ;;
       Ok (Element "div" [("className", "app")]
             [ Element "h1" [] [Text "🏠 Listing Intelligence Dashboard"];
               selector;
               Nothing;
               (if String.eqb message "" then Text ""
                else Element "div" [("className", "error")]
                       [Text "Error: "; Text message]);
               section_c ])).
Proof.
  intros Hm. cbn zeta. rewrite (assessment_settled_failed o message st Hm).
  do 5 (split; [reflexivity|]).
  split; [exact (App_failed message st)|].
  intros ids selected Hl Hs Ha.
  destruct (ListingInput_identifiers _ ids selected Hl) as [selector Hsel].
  exists selector. rewrite Hs. split; [exact Hsel|].
  rewrite (App_failed message st Ha), Hs, Hsel. unfold assessment_section.
  destruct (section_elements (assessment st)); reflexivity.
Qed.

End Orchestrator.


Lemma not_found_response_witness :
  App (H := ExampleHost.host)
      (assessment_settled (Response false (inr "Unexpected token"))
         ExampleHost.listed) =
  Ok (Element "div" [("className", "app")]
        [ Element "h1" [] [Text "🏠 Listing Intelligence Dashboard"];
          Element "div" [("className", "listing-input")]
            [ Element "label" [("htmlFor", "listing-select")]
                [Text "Select Listing"];
              Element "select" [("id", "listing-select"); ("value", "A")]
                [ Element "option" [("value", "A")] [Text "A"];
                  Element "option" [("value", "B")] [Text "B"] ] ];
          Nothing;
          Element "div" [("className", "error")]
            [Text "Error: "; Text "Listing not found"];
          Nothing ]).
Proof.
  exact (proj1 (proj2 (proj2 (not_found_response (host := ExampleHost.host)
                                (inr "Unexpected token") ExampleHost.listed)))
               eq_refl).
Defined.


(** The scenario's assessment arrived for "A"; the next fetch fails. *)
Lemma failure_keeps_assessment_witness :
  let st := assessment_settled (Response true (inl ExampleHost.scenario))
              ExampleHost.listed in
  let st' := assessment_settled (Rejected "Failed to fetch") st in
  assessment st' = ExampleHost.scenario /\
  exists selector section_c,
    ListingInput (JArr [JStr "A"; JStr "B"]) (JStr "A") = Ok selector /\
    assessment_section (H := ExampleHost.host) ExampleHost.scenario = Ok section_c /\
    App (H := ExampleHost.host) st' =
    Ok (Element "div" [("className", "app")]
          [ Element "h1" [] [Text "🏠 Listing Intelligence Dashboard"];
            selector;
            Nothing;
            Element "div" [("className", "error")]
              [Text "Error: "; Text "Failed to fetch"];
            section_c ]).
Proof.
  intros st st'.
  pose proof (failure_keeps_assessment (host := ExampleHost.host)
                (Rejected "Failed to fetch") "Failed to fetch" st eq_refl)
    as (Ha & _ & _ & _ & _ & Happ & _).
  split; [exact Ha|].
  do 2 eexists. split; [reflexivity|]. split; [reflexivity|].
  exact (Happ eq_refl).
Defined.

(** ** More on the orchestrator *)

Section Selection.

Context {host : Host}.

Lemma setSelectedListing_same (id : string) (st : State) :
  selectedListing st = JStr id -> setSelectedListing id st = Ok (st, []).
Proof.
  intros Hs. unfold setSelectedListing, effects, set_selectedListing.
  rewrite Hs. cbn [Object_is snd fst]. rewrite String.eqb_refl. cbn [negb].
  destruct st; cbn in Hs; subst; reflexivity.
Qed.

Lemma setSelectedListing_other (id : string) (st : State) :
  selectedListing st <> JStr id ->
  setSelectedListing id st =
  Ok (if String.eqb id "" then
        ({| listings := listings st; selectedListing := JStr "";
            assessment := assessment st;
            loading := loading st; error := error st |}, [])
      else
        ({| listings := listings st; selectedListing := JStr id;
            assessment := assessment st;
            loading := true; error := JNull |},
         [API_BASE ++ "/listing/" ++ id])).
Proof.
  intros Hne. unfold setSelectedListing, effects, set_selectedListing.
  cbn [snd fst].
  assert (Hc : Object_is (selectedListing st) (JStr id) = false).
  { destruct (selectedListing st); try reflexivity. cbn.
    destruct (String.eqb_spec s id); congruence. }
  rewrite Hc. cbn [negb]. unfold assessment_effect.
  cbn [selectedListing truthy ToString bind].
  destruct (String.eqb_spec id "") as [->|_]; reflexivity.
Qed.

(** Picking the listing that is selected already changes nothing and
    fetches nothing, also after an error. *)
Theorem reselect_fetches_nothing (id : string) (st : State) :
  selectedListing st = JStr id -> setSelectedListing id st = Ok (st, []).
Proof. exact (setSelectedListing_same id st). Qed.


(** The page while an assessment loads and no error is stored. *)
Lemma App_loading (st : State) :
  loading st = true -> error st = JNull ->
  App st =
  selector <- ListingInput (listings st) (selectedListing st) ;;
  Ok (Element "div" [("className", "app")]
        [ Element "h1" [] [Text "🏠 Listing Intelligence Dashboard"];
          selector;
          Element "div" [("className", "loading")] [Text "Loading assessment..."];
          Nothing;
          (if truthy (assessment st) then Nothing
           else match child_of (assessment st) with
                | Ok c => c
                | Throw _ => Nothing
                end) ]).
Proof.
  intros Hl He. unfold App. rewrite Hl, He. cbn [negb andb truthy child_of bind].
  rewrite andb_false_r. cbn [bind].
  destruct (ListingInput (listings st) (selectedListing st)); [|reflexivity].
  cbn [bind].
  destruct (truthy (assessment st)) eqn:Ha; [reflexivity|].
  destruct (assessment st) as [| |b|x|s| |]; try discriminate Ha; reflexivity.
Qed.

(** While the assessment of a new selection loads, the page shows the
    loading indicator, no error and no assessment section, whatever was
    stored before; with listings that are identifiers the page is
    returned. *)
Theorem loading_hides_assessment (id : string) (st : State) :
  selectedListing st <> JStr id -> id <> "" -> truthy (assessment st) = true ->
  exists st',
    setSelectedListing id st = Ok (st', [API_BASE ++ "/listing/" ++ id]) /\
    assessment st' = assessment st /\
    App st' =
    (selector <- ListingInput (listings st) (JStr id) ;;
     Ok (Element "div" [("className", "app")]
           [ Element "h1" [] [Text "🏠 Listing Intelligence Dashboard"];
             selector;
             Element "div" [("className", "loading")] [Text "Loading assessment..."];
             Nothing;
             Nothing ])) /\
    (forall ids,
       listings st = JArr (map JStr ids) ->
       exists selector,
         ListingInput (listings st) (JStr id) = Ok selector /\
         App st' =
         Ok (Element "div" [("className", "app")]
               [ Element "h1" [] [Text "🏠 Listing Intelligence Dashboard"];
                 selector;
                 Element "div" [("className", "loading")]
                   [Text "Loading assessment..."];
                 Nothing;
                 Nothing ])).
Proof.
  intros Hne Hid Ha. rewrite setSelectedListing_other by assumption.
  destruct (String.eqb_spec id ""); [contradiction|].
  eexists. split; [reflexivity|]. split; [reflexivity|].
  rewrite App_loading by reflexivity.
  cbn [listings selectedListing assessment]. rewrite Ha.
  split; [reflexivity|].
  intros ids Hl.
  destruct (ListingInput_identifiers _ ids id Hl) as [selector Hsel].
  exists selector. split; [exact Hsel|]. rewrite Hsel. reflexivity.
Qed.

(** A new selection followed by its assessment: the assessment is stored,
    nothing loads, no error is left from before, and the page shows the
    section of that assessment and no error; with listings that are
    identifiers, the selector with that section. *)
Theorem select_then_success (id : string) (data : jsval) (st : State) :
  selectedListing st <> JStr id -> id <> "" ->
  exists st1,
    setSelectedListing id st = Ok (st1, [API_BASE ++ "/listing/" ++ id]) /\
    let st' := assessment_settled (Response true (inl data)) st1 in
    assessment st' = data /\ loading st' = false /\ error st' = JNull /\
    selectedListing st' = JStr id /\
    (truthy data = true ->
     App st' =
     rendering <- section_elements data ;;
     selector <- ListingInput (listings st) (JStr id) ;;
     section_c <- rendering ;;
     Ok (Element "div" [("className", "app")]
           [ Element "h1" [] [Text "🏠 Listing Intelligence Dashboard"];
             selector;
             Nothing; Nothing; section_c ])) /\
    (forall ids,
       listings st = JArr (map JStr ids) -> truthy data = true ->
       exists selector,
         ListingInput (listings st) (JStr id) = Ok selector /\
         App st' =
         section_c <- assessment_section data ;;
         Ok (Element "div" [("className", "app")]
               [ Element "h1" [] [Text "🏠 Listing Intelligence Dashboard"];
                 selector;
                 Nothing; Nothing; section_c ])).
Proof.
  intros Hne Hid. rewrite setSelectedListing_other by assumption.
  destruct (String.eqb_spec id ""); [contradiction|].
  eexists. split; [reflexivity|].
  cbn zeta. do 4 (split; [reflexivity|]).
  assert (Happ : truthy data = true ->
                 App (assessment_settled (Response true (inl data))
                        {| listings := listings st; selectedListing := JStr id;
                           assessment := assessment st; loading := true;
                           error := JNull |}) =
                 rendering <- section_elements data ;;
                 selector <- ListingInput (listings st) (JStr id) ;;
                 section_c <- rendering ;;
                 Ok (Element "div" [("className", "app")]
                       [ Element "h1" [] [Text "🏠 Listing Intelligence Dashboard"];
                         selector;
                         Nothing; Nothing; section_c ])).
  { intros Hd. unfold App. cbn. rewrite Hd. cbn [andb].
    destruct (section_elements data); [|reflexivity]. cbn [bind].
    destruct (ListingInput (listings st) (JStr id)); reflexivity. }
  split; [exact Happ|].
  intros ids Hl Hd.
  destruct (ListingInput_identifiers _ ids id Hl) as [selector Hsel].
  exists selector. split; [exact Hsel|].
  rewrite (Happ Hd), Hsel. unfold assessment_section.
  destruct (section_elements data); reflexivity.
Qed.

End Selection.

(** ** The page over a run *)

Section Runs.

Context {host : Host}.

Lemma existsb_eqb_In (x : string) (l : list string) :
  existsb (String.eqb x) l = true <-> In x l.
Proof.
  rewrite existsb_exists. split.
  - intros [y [Hin Heq]]. apply String.eqb_eq in Heq. now subst.
  - intros Hin. exists x. split; [exact Hin|apply String.eqb_refl].
Qed.

Lemma append_inj_l (s a b : string) : s ++ a = s ++ b -> a = b.
Proof.
  induction s as [|c s IH]; cbn; intros H; [exact H|].
  injection H as H. exact (IH H).
Qed.

(** The URL of an assessment is never the URL of the listings. *)
Lemma assessment_url_not_listings (id : string) :
  API_BASE ++ "/listing/" ++ id <> API_BASE ++ "/listings".
Proof. intros H. apply append_inj_l in H. discriminate H. Qed.

Lemma remove_first_incl (url u : string) (l : list string) :
  In u (remove_first url l) -> In u l.
Proof.
  induction l as [|x l IH]; cbn; [auto|].
  destruct (String.eqb url x); cbn; intuition.
Qed.

Lemma mounted_page :
  mounted = {| state := initial; pending := [API_BASE ++ "/listings"];
               live := true |}.
Proof. reflexivity. Qed.

(** *** What rendering needs of the listings and of the selection *)

Lemma option_elements_array (v : jsval) (options : list jsx) :
  option_elements v = Ok options -> is_array v = true.
Proof. destruct v; try discriminate; reflexivity. Qed.

Lemma ListingInput_returns (l s : jsval) (selector : jsx) :
  ListingInput l s = Ok selector ->
  exists options value,
    option_elements l = Ok options /\ prop_of "value" s = Ok value.
Proof.
  unfold ListingInput. intros H.
  destruct (option_elements l) as [options|]; [|discriminate]. cbn [bind] in H.
  destruct (prop_of "value" s) as [value|]; [|discriminate]. eauto.
Qed.

Lemma ListingInput_reselect (l s : jsval) (selector : jsx) (id : string) :
  ListingInput l s = Ok selector ->
  exists selector', ListingInput l (JStr id) = Ok selector'.
Proof.
  intros H. destruct (ListingInput_returns l s selector H) as (options & _ & Ho & _).
  unfold ListingInput. rewrite Ho. cbn. eauto.
Qed.

Lemma renders_selector (st : State) :
  renders st = true ->
  exists selector, ListingInput (listings st) (selectedListing st) = Ok selector.
Proof.
  unfold renders, App. intros H.
  destruct (if truthy (assessment st) && negb (loading st) then _ else _);
    [cbn [bind] in H|discriminate].
  destruct (ListingInput (listings st) (selectedListing st)); [eauto|discriminate].
Qed.

Lemma renders_array (st : State) :
  renders st = true -> is_array (listings st) = true.
Proof.
  intros H. destruct (renders_selector st H) as [selector Hs].
  destruct (ListingInput_returns _ _ _ Hs) as (options & _ & Ho & _).
  exact (option_elements_array _ _ Ho).
Qed.

(** A page that renders renders with any option picked. *)
Lemma renders_selected (id : string) (st : State) :
  renders st = true ->
  renders (fst (set_selectedListing (JStr id) st)) = true.
Proof.
  intros H. destruct (renders_selector st H) as [selector Hs].
  destruct (ListingInput_reselect _ _ _ id Hs) as [selector' Hs'].
  revert H. unfold renders, App.
  cbn [set_selectedListing fst listings selectedListing assessment loading error].
  rewrite Hs, Hs'.
  destruct (if truthy (assessment st) && negb (loading st) then _ else _)
    as [section_e|]; [cbn [bind]|discriminate].
  destruct (if truthy (error st) then _ else _); [cbn [bind]|discriminate].
  destruct (match section_e with Some _ => _ | None => _ end);
    [reflexivity|discriminate].
Qed.

(** A page that renders renders while it loads. *)
Lemma renders_loading (st : State) :
  renders st = true ->
  renders {| listings := listings st; selectedListing := selectedListing st;
             assessment := assessment st; loading := true; error := JNull |} = true.
Proof.
  intros H. destruct (renders_selector st H) as [selector Hs].
  unfold renders. rewrite App_loading by reflexivity.
  cbn [listings selectedListing]. rewrite Hs. reflexivity.
Qed.

(** *** The effect, and what React commits *)

Lemma effects_cases (handled : State * bool) (st : State) (fetched : list string) :
  effects handled = Ok (st, fetched) ->
  (st = fst handled /\ fetched = [])
  \/ (exists id,
        fetched = [API_BASE ++ "/listing/" ++ id]
        /\ st = {| listings := listings (fst handled);
                   selectedListing := selectedListing (fst handled);
                   assessment := assessment (fst handled);
                   loading := true; error := JNull |}).
Proof.
  destruct handled as [new changed]. unfold effects. cbn [fst snd].
  destruct changed.
  - unfold assessment_effect. destruct (negb _).
    + intros H. injection H as <- <-. now left.
    + destruct (ToString (selectedListing new)) as [id|]; [|discriminate].
      cbn [bind]. intros H. injection H as <- <-. right.
      exists id. split; reflexivity.
  - intros H. injection H as <- <-. now left.
Qed.

Lemma prop_of_ToString (name : string) (v : jsval) (value : list (string * string)) :
  prop_of name v = Ok value -> exists s, ToString v = Ok s.
Proof.
  intros H. destruct v; try (eexists; reflexivity); unfold prop_of in H;
    destruct (ToString _); [eauto|discriminate| eauto|discriminate].
Qed.

(** The effect does not throw after a render that went well. *)
Lemma effects_return (handled : State * bool) :
  renders (fst handled) = true -> exists r, effects handled = Ok r.
Proof.
  intros H. destruct (renders_selector _ H) as [selector Hs].
  destruct (ListingInput_returns _ _ _ Hs) as (_ & value & _ & Hv).
  destruct (prop_of_ToString _ _ _ Hv) as [id Hid].
  destruct handled as [new changed]. unfold effects. cbn [fst snd] in *.
  destruct changed; [|eauto].
  unfold assessment_effect. rewrite Hid. cbn [bind].
  destruct (negb _); eauto.
Qed.

Lemma commit_cases (handled : State * bool) (fetches : list string) :
  (renders (fst handled) = false
   /\ commit handled fetches = unmounted (fst handled) fetches)
  \/ (renders (fst handled) = true
      /\ exists st fetched,
           effects handled = Ok (st, fetched)
           /\ commit handled fetches =
              {| state := st; pending := fetches ++ fetched;
                 live := renders st |}).
Proof.
  unfold commit. destruct (renders (fst handled)) eqn:Hr; [right|left; auto].
  split; [reflexivity|].
  destruct (effects_return handled Hr) as [[st fetched] ->]. eauto.
Qed.

Lemma commit_assessment (handled : State * bool) (fetches : list string) :
  assessment (state (commit handled fetches)) = assessment (fst handled).
Proof.
  destruct (commit_cases handled fetches)
    as [[_ ->]|(_ & st & fetched & He & ->)]; [reflexivity|].
  cbn [state].
  destruct (effects_cases _ _ _ He) as [[-> _]|(id & _ & ->)]; reflexivity.
Qed.

Lemma selection_known_same (st st' : State) :
  listings st' = listings st -> selectedListing st' = selectedListing st ->
  selection_known st -> selection_known st'.
Proof. unfold selection_known. intros -> ->. auto. Qed.

(** What the handlers leave is enough for the page committed to keep its
    invariant. *)
Lemma commit_invariant (handled : State * bool) (fetches : list string) :
  selection_known (fst handled) ->
  error_known (fst handled) ->
  (forall u, In u fetches -> exists id, u = API_BASE ++ "/listing/" ++ id) ->
  (loading (fst handled) = true ->
   renders (fst handled) = true
   /\ exists id, In (API_BASE ++ "/listing/" ++ id) fetches) ->
  (is_array (listings (fst handled)) = false ->
   assessment (fst handled) = JNull /\ loading (fst handled) = false
   /\ fetches = []) ->
  page_invariant (commit handled fetches).
Proof.
  intros Hsel Herr Hurls Hload Harr.
  destruct (commit_cases handled fetches)
    as [[Hr ->]|(Hr & st & fetched & He & ->)];
    unfold page_invariant; cbn [state pending live unmounted].
  - split; [exact Hsel|].
    split; [intros Hl; destruct (Hload Hl) as [Hr' _]; congruence|].
    split; [exact Hurls|]. split; [discriminate|]. split; [exact Herr|].
    intros Ha. destruct (Harr Ha) as (H1 & H2 & H3). repeat split; assumption.
  - pose proof (renders_array _ Hr) as Ha.
    destruct (effects_cases _ _ _ He) as [[-> ->]|(id & -> & ->)].
    + rewrite app_nil_r, Hr. split; [exact Hsel|].
      split; [intros Hl; split; [reflexivity|exact (proj2 (Hload Hl))]|].
      split; [exact Hurls|]. split; [auto|]. split; [exact Herr|]. congruence.
    + rewrite (renders_loading _ Hr).
      cbn [listings selectedListing assessment loading error].
      split; [exact (selection_known_same _ _ eq_refl eq_refl Hsel)|].
      split; [intros _; split; [reflexivity|]; exists id;
              apply in_or_app; right; now left|].
      split; [intros u Hu; apply in_app_or in Hu as [Hu|[<-|[]]]; eauto|].
      split; [reflexivity|]. split; [now left|]. congruence.
Qed.

(** *** The invariant *)

Lemma listings_handler_state (o : outcome) :
  let new := fst (listings_handler o initial) in
  selection_known new /\ error_known new /\ loading new = false
  /\ assessment new = JNull.
Proof.
  cbn zeta. destruct o as [m|ok [data|m]]; cbn [listings_handler].
  - repeat split; [now left|right; eexists; reflexivity].
  - destruct (first_of data) as [[first|]|e] eqn:Hf; cbn.
    + repeat split; [right; left; exact Hf|now left].
    + repeat split; [now left|now left].
    + repeat split; [now left|right; eexists; reflexivity].
  - repeat split; [now left|right; eexists; reflexivity].
Qed.

Lemma assessment_settled_keeps (o : outcome) (st : State) :
  listings (assessment_settled o st) = listings st
  /\ selectedListing (assessment_settled o st) = selectedListing st
  /\ loading (assessment_settled o st) = false.
Proof. destruct o as [m|[|] [d|m]]; repeat split. Qed.

Lemma assessment_settled_error (o : outcome) (st : State) :
  error_known st -> error_known (assessment_settled o st).
Proof.
  intros H. destruct o as [m|[|] [d|m]]; cbn; try exact H;
    right; eexists; reflexivity.
Qed.

(** A fetch that settles on a page taken down changes nothing but what
    is in flight. *)
Lemma unmounted_invariant (url : string) (p : Page) :
  live p = false -> page_invariant p ->
  page_invariant (unmounted (state p) (remove_first url (pending p))).
Proof.
  intros Hd (Hsel & Hload & Hurls & Hlive & Herr & Harr).
  unfold page_invariant. cbn [unmounted state pending live].
  split; [exact Hsel|].
  split; [intros Hl; destruct (Hload Hl) as [Hl' _]; congruence|].
  split; [intros u Hu; apply remove_first_incl in Hu; auto|].
  split; [discriminate|]. split; [exact Herr|].
  intros Ha. destruct (Harr Ha) as (_ & H1 & H2 & H3).
  rewrite H3. repeat split; assumption.
Qed.

Lemma pending_not_listings (p : Page) :
  page_invariant p -> ~ In (API_BASE ++ "/listings") (pending p).
Proof.
  intros (_ & _ & Hurls & _) Hin. destruct (Hurls _ Hin) as [id Hid].
  symmetry in Hid. exact (assessment_url_not_listings id Hid).
Qed.

Lemma run_invariant_holds (es : list event) (p : Page) :
  run es p -> run_invariant es p.
Proof.
  induction 1 as [|es p e p' Hrun IH Hreact].
  - left. split; [exact mounted_page|reflexivity].
  - destruct IH as [[-> Hn]|[Hn Hinv]].
    + (* the listings are in flight: only they can settle *)
      destruct e as [o|url o|id]; cbn [react] in Hreact.
      * unfold is_pending in Hreact.
        cbn [pending existsb live state remove_first] in Hreact.
        rewrite String.eqb_refl in Hreact. cbn [orb] in Hreact.
        injection Hreact as <-.
        right. cbn [filter is_listings_settle]. rewrite Hn.
        split; [reflexivity|].
        destruct (listings_handler_state o) as (Hsel & Herr & Hl & Ha).
        apply commit_invariant; try assumption.
        -- intros u [].
        -- rewrite Hl. discriminate.
        -- intros _. repeat split; assumption.
      * unfold is_pending in Hreact. cbn [pending existsb orb] in Hreact.
        destruct (String.eqb url (API_BASE ++ "/listings")); discriminate Hreact.
      * discriminate Hreact.
    + (* the listings have settled *)
      right. pose proof Hinv as (Hsel & Hload & Hurls & Hlive & Herr & Harr).
      destruct e as [o|url o|id]; cbn [react] in Hreact.
      * destruct (is_pending _ p) eqn:Hp; [|discriminate].
        apply existsb_eqb_In in Hp.
        exfalso. exact (pending_not_listings p Hinv Hp).
      * destruct (is_pending url p && _) eqn:Hp; [|discriminate].
        injection Hreact as <-. cbn [filter is_listings_settle].
        split; [exact Hn|].
        destruct (live p) eqn:Hl;
          [|exact (unmounted_invariant url p Hl Hinv)].
        destruct (assessment_settled_keeps o (state p)) as (Hk1 & Hk2 & Hk3).
        apply commit_invariant; cbn [fst].
        -- exact (selection_known_same _ _ Hk1 Hk2 Hsel).
        -- exact (assessment_settled_error o _ Herr).
        -- intros u Hu. apply remove_first_incl in Hu. auto.
        -- rewrite Hk3. discriminate.
        -- rewrite Hk1. intros Ha.
           pose proof (renders_array _ (Hlive eq_refl)). congruence.
      * destruct (live p) eqn:Hl; [|discriminate]. cbn [andb] in Hreact.
        destruct (existsb _ _) eqn:Hin; [|discriminate].
        apply existsb_eqb_In in Hin.
        injection Hreact as <-. cbn [filter is_listings_settle].
        split; [exact Hn|].
        apply commit_invariant;
          cbn [set_selectedListing fst listings selectedListing assessment
               loading error].
        -- right; right. exists id. split; [exact Hin|reflexivity].
        -- exact Herr.
        -- exact Hurls.
        -- intros Hld. split.
           ++ exact (renders_selected id _ (Hlive eq_refl)).
           ++ exact (proj2 (Hload Hld)).
        -- intros Ha. pose proof (renders_array _ (Hlive eq_refl)). congruence.
Qed.

Lemma offered_strings (ids : list string) :
  offered (JArr (map JStr ids)) = ids.
Proof.
  unfold offered. rewrite option_elements_strings.
  induction ids as [|id ids IH]; [reflexivity|].
  cbn [map]. rewrite IH. reflexivity.
Qed.

Lemma run_selection (es : list event) (p : Page) :
  run es p ->
  selection_known (state p)
  /\ forall ids,
       listings (state p) = JArr (map JStr ids) ->
       selectedListing (state p) = JStr ""
       \/ exists id, In id ids /\ selectedListing (state p) = JStr id.
Proof.
  intros H.
  assert (Hsel : selection_known (state p)).
  { destruct (run_invariant_holds es p H) as [[-> _]|[_ (Hsel & _)]];
      [now left|exact Hsel]. }
  split; [exact Hsel|].
  intros ids Hl. destruct Hsel as [Hs|[Hs|(id & Hin & Hs)]].
  - now left.
  - rewrite Hl, first_of_array in Hs.
    destruct ids as [|first rest]; [discriminate|].
    cbn [map] in Hs. injection Hs as Hs.
    right. exists first. split; [now left|now symmetry].
  - rewrite Hl, offered_strings in Hin. right. eauto.
Qed.

(** Over every run the selection is the empty string, the first element
    of the listings or a value the selector offers; with listings that are
    identifiers, it is empty or one of the identifiers stored. *)
Theorem selection_among_listings (es : list event) (p : Page) :
  run es p ->
  selection_known (state p)
  /\ forall ids,
       listings (state p) = JArr (map JStr ids) ->
       selectedListing (state p) = JStr ""
       \/ exists id, In id ids /\ selectedListing (state p) = JStr id.
Proof. exact (run_selection es p). Qed.

(** Over every run, when the loading flag is set an assessment fetch is
    in flight. *)
Theorem loading_has_fetch_in_flight (es : list event) (p : Page) :
  run es p -> loading (state p) = true ->
  exists id, In (API_BASE ++ "/listing/" ++ id) (pending p).
Proof.
  intros H. destruct (run_invariant_holds es p H) as [[-> _]|[_ (_ & Hl & _)]].
  - discriminate.
  - intros Hld. exact (proj2 (Hl Hld)).
Qed.

(** Over every run the listings are fetched once: their fetch is in
    flight and has not settled, or it has settled once and is not in
    flight again. *)
Theorem listings_fetched_once (es : list event) (p : Page) :
  run es p ->
  (is_pending (API_BASE ++ "/listings") p = true
   /\ filter is_listings_settle es = [])
  \/ (is_pending (API_BASE ++ "/listings") p = false
      /\ List.length (filter is_listings_settle es) = 1%nat).
Proof.
  intros H. destruct (run_invariant_holds es p H) as [[-> Hn]|[Hn Hinv]].
  - left. split; [|exact Hn]. apply existsb_eqb_In. now left.
  - right. split; [|exact Hn].
    destruct (is_pending _ p) eqn:Hp; [|reflexivity].
    apply existsb_eqb_In in Hp.
    exfalso. exact (pending_not_listings p Hinv Hp).
Qed.

Lemma listings_handler_assessment (o : outcome) (st : State) :
  assessment (fst (listings_handler o st)) = assessment st.
Proof.
  destruct o as [m|ok [data|m]]; cbn [listings_handler]; try reflexivity.
  destruct (first_of data) as [[first|]|e]; reflexivity.
Qed.

(** Only the arrival of an assessment changes the assessment stored:
    after any other event, a failed fetch too, it is what it was. *)
Theorem assessment_changes_on_success_only (e : event) (p p' : Page) :
  react e p = Some p' ->
  (forall url data, e <> AssessmentSettle url (Response true (inl data))) ->
  assessment (state p') = assessment (state p).
Proof.
  intros Hreact Hne. destruct e as [o|url o|id]; cbn [react] in Hreact.
  - destruct (is_pending _ p); [|discriminate].
    injection Hreact as <-. destruct (live p); [|reflexivity].
    rewrite commit_assessment. apply listings_handler_assessment.
  - destruct (is_pending url p && _); [|discriminate].
    injection Hreact as <-. destruct (live p); [|reflexivity].
    rewrite commit_assessment. cbn [fst].
    destruct o as [m|[|] [d|m]]; try reflexivity.
    exfalso. exact (Hne url d eq_refl).
  - destruct (live p && _); [|discriminate].
    injection Hreact as <-. rewrite commit_assessment. reflexivity.
Qed.

End Runs.

(** Events that can happen one after the other make a run. *)
Lemma after_run `{Host} (es : list event) (p : Page) :
  after es = Some p -> run es p.
Proof.
  revert p. induction es as [|e es IH]; intros p Hp; cbn [after] in Hp.
  - injection Hp as <-. constructor.
  - destruct (after es) as [q|] eqn:Hq; [|discriminate].
    exact (run_event es q e p (IH q eq_refl) Hp).
Qed.

(** ** Responses that arrive late, and pages that are taken down *)

Section Late.

Context {host : Host}.

(** What React commits when no selection was made. *)
Lemma commit_unchanged (new : State) (fetches : list string) :
  commit (new, false) fetches =
  {| state := new; pending := fetches; live := renders new |}.
Proof.
  unfold commit, effects, unmounted. cbn [fst snd].
  destruct (renders new); [rewrite app_nil_r|]; reflexivity.
Qed.

(** What React commits when another listing was picked. *)
Lemma commit_selected (id : string) (st : State) (fetches : list string) :
  renders st = true -> selectedListing st <> JStr id -> id <> "" ->
  commit (set_selectedListing (JStr id) st) fetches =
  {| state := {| listings := listings st; selectedListing := JStr id;
                 assessment := assessment st; loading := true; error := JNull |};
     pending := fetches ++ [API_BASE ++ "/listing/" ++ id];
     live := true |}.
Proof.
  intros Hr Hne Hid. unfold commit.
  rewrite (renders_selected id st Hr).
  change (effects (set_selectedListing (JStr id) st))
    with (setSelectedListing id st).
  rewrite (setSelectedListing_other id st Hne).
  destruct (String.eqb_spec id ""); [contradiction|].
  pose proof (renders_loading _ (renders_selected id st Hr)) as Hl.
  cbn [set_selectedListing fst listings selectedListing assessment] in Hl.
  rewrite Hl. reflexivity.
Qed.

Lemma in_remove_first (x u : string) (l : list string) :
  In x l -> x <> u -> In x (remove_first u l).
Proof.
  intros Hin Hne. induction l as [|y l IH]; [destruct Hin|].
  cbn [remove_first]. destruct (String.eqb_spec u y) as [->|Hy].
  - destruct Hin as [->|Hin]; [congruence|exact Hin].
  - destruct Hin as [->|Hin]; [now left|right; exact (IH Hin)].
Qed.

Lemma assessment_url_inj (a b : string) :
  API_BASE ++ "/listing/" ++ a = API_BASE ++ "/listing/" ++ b -> a = b.
Proof. intros H. apply append_inj_l in H. now injection H. Qed.

Lemma live_renders (es : list event) (p : Page) :
  run es p -> live p = true -> renders (state p) = true.
Proof.
  intros H Hl. destruct (run_invariant_holds es p H) as [[-> _]|[_ Hinv]].
  - reflexivity.
  - destruct Hinv as (_ & _ & _ & Hr & _). exact (Hr Hl).
Qed.

(** No fetch is cancelled and no response is checked against the
    selection. On a mounted page [a] and then [b] are picked: both
    assessments are fetched. The response for [b] arrives first: it clears
    the loading flag while the fetch for [a] is still in flight. If the
    page renders the assessment for [b], the response for [a], arriving
    last, is the one stored and shown, with [b] selected; if rendering it
    throws, the page is taken down and the late response stores nothing. *)
Theorem late_response_wins (es : list event) (p : Page) (a b : string)
        (dA dB : jsval) :
  run es p -> live p = true ->
  In a (offered (listings (state p))) -> In b (offered (listings (state p))) ->
  selectedListing (state p) <> JStr a -> a <> "" -> b <> a -> b <> "" ->
  let url_a := API_BASE ++ "/listing/" ++ a in
  let url_b := API_BASE ++ "/listing/" ++ b in
  exists p1 p2 p3 p4,
    react (Select a) p = Some p1 /\
    react (Select b) p1 = Some p2 /\
    react (AssessmentSettle url_b (Response true (inl dB))) p2 = Some p3 /\
    react (AssessmentSettle url_a (Response true (inl dA))) p3 = Some p4 /\
    pending p2 = (pending p ++ [url_a; url_b])%list /\
    loading (state p2) = true /\ live p2 = true /\
    loading (state p3) = false /\ assessment (state p3) = dB /\
    is_pending url_a p3 = true /\
    live p3 = renders (state p3) /\
    selectedListing (state p4) = JStr b /\
    (live p3 = true -> assessment (state p4) = dA) /\
    (live p3 = false -> state p4 = state p3 /\ live p4 = false).
Proof.
  intros Hrun Hlive Ha Hb Hsel Ha' Hba Hb' url_a url_b.
  pose proof (live_renders es p Hrun Hlive) as Hr.
  assert (Hab : url_a <> url_b).
  { intros H. apply assessment_url_inj in H. congruence. }
  (* [a] is picked *)
  set (st1 := {| listings := listings (state p); selectedListing := JStr a;
                 assessment := assessment (state p); loading := true;
                 error := JNull |}).
  set (p1 := {| state := st1; pending := pending p ++ [url_a]; live := true |}).
  assert (H1 : react (Select a) p = Some p1).
  { cbn [react]. rewrite Hlive. cbn [andb].
    rewrite (proj2 (existsb_eqb_In _ _) Ha).
    rewrite (commit_selected a (state p) (pending p) Hr Hsel Ha'). reflexivity. }
  assert (Hr1 : renders st1 = true).
  { exact (renders_loading _ (renders_selected a _ Hr)). }
  (* [b] is picked *)
  set (st2 := {| listings := listings (state p); selectedListing := JStr b;
                 assessment := assessment (state p); loading := true;
                 error := JNull |}).
  set (p2 := {| state := st2; pending := (pending p ++ [url_a]) ++ [url_b];
                live := true |}).
  assert (H2 : react (Select b) p1 = Some p2).
  { cbn [react p1 live state st1 listings andb].
    rewrite (proj2 (existsb_eqb_In _ _) Hb).
    rewrite (commit_selected b st1 _ Hr1); [reflexivity| |exact Hb'].
    cbn. congruence. }
  (* the response for [b] *)
  set (st3 := {| listings := listings (state p); selectedListing := JStr b;
                 assessment := dB; loading := false; error := JNull |}).
  set (p3 := {| state := st3;
                pending := remove_first url_b ((pending p ++ [url_a]) ++ [url_b]);
                live := renders st3 |}).
  assert (Hpb : is_pending url_b p2 = true).
  { apply existsb_eqb_In. cbn [p2 pending]. apply in_or_app. right. now left. }
  assert (H3 : react (AssessmentSettle url_b (Response true (inl dB))) p2 = Some p3).
  { cbn [react]. rewrite Hpb.
    destruct (String.eqb_spec url_b (API_BASE ++ "/listings")) as [Hu|_];
      [exfalso; exact (assessment_url_not_listings b Hu)|].
    cbn [negb andb p2 live state pending].
    rewrite commit_unchanged. reflexivity. }
  assert (Hpa : is_pending url_a p3 = true).
  { apply existsb_eqb_In. cbn [p3 pending].
    apply in_remove_first; [|exact Hab].
    apply in_or_app. left. apply in_or_app. right. now left. }
  (* the response for [a] *)
  set (st4 := {| listings := listings (state p); selectedListing := JStr b;
                 assessment := dA; loading := false; error := JNull |}).
  set (p4 := if renders st3
             then {| state := st4; pending := remove_first url_a (pending p3);
                     live := renders st4 |}
             else unmounted st3 (remove_first url_a (pending p3))).
  assert (H4 : react (AssessmentSettle url_a (Response true (inl dA))) p3 = Some p4).
  { cbn [react]. rewrite Hpa.
    destruct (String.eqb_spec url_a (API_BASE ++ "/listings")) as [Hu|_];
      [exfalso; exact (assessment_url_not_listings a Hu)|].
    cbn [negb andb]. unfold p4. cbn [p3 live state].
    destruct (renders st3); [rewrite commit_unchanged|]; reflexivity. }
  exists p1, p2, p3, p4.
  split; [exact H1|]. split; [exact H2|]. split; [exact H3|]. split; [exact H4|].
  split; [cbn [p2 pending]; rewrite <- app_assoc; reflexivity|].
  split; [reflexivity|]. split; [reflexivity|]. split; [reflexivity|].
  split; [reflexivity|]. split; [exact Hpa|]. split; [reflexivity|].
  unfold p4. cbn [p3 live state]. destruct (renders st3).
  - split; [reflexivity|]. split; [reflexivity|discriminate].
  - split; [reflexivity|]. split; [discriminate|]. intros _. split; reflexivity.
Qed.

(** *** When a render throws *)

Lemma error_child (st : State) :
  error_known st ->
  exists t,
    (if truthy (error st)
     then shown <- child_of (error st) ;;
          Ok (Element "div" [("className", "error")] [Text "Error: "; shown])
     else child_of (error st)) = Ok t.
Proof.
  intros [->|[m ->]]; cbn [truthy].
  - eexists. reflexivity.
  - destruct (negb _); cbn; eauto.
Qed.

Lemma child_of_falsy (v : jsval) :
  truthy v = false -> exists t, child_of v = Ok t.
Proof. destruct v; cbn; intros H; try discriminate; eauto. Qed.

Lemma run_error_known (es : list event) (p : Page) :
  run es p -> error_known (state p).
Proof.
  intros H. destruct (run_invariant_holds es p H) as [[-> _]|[_ Hinv]].
  - now left.
  - destruct Hinv as (_ & _ & _ & _ & He & _). exact He.
Qed.

Lemma not_array_throws (st : State) :
  is_array (listings st) = false -> assessment st = JNull ->
  App st = Throw TypeError.
Proof.
  intros Ha Hn. unfold App. rewrite Hn. cbn [truthy andb bind].
  unfold ListingInput, option_elements.
  destruct (listings st); try discriminate Ha; reflexivity.
Qed.

(** Over every run with listings that are identifiers, the page fails to
    render exactly when an assessment is stored, nothing loads and the
    assessment section throws: no component catches what the section
    throws, and nothing else throws. With listings that are no array the
    selector throws a TypeError. *)
Theorem App_throws_with_section (es : list event) (p : Page) (e : exception) :
  run es p ->
  (forall ids,
     listings (state p) = JArr (map JStr ids) ->
     (App (state p) = Throw e <->
      (truthy (assessment (state p)) = true /\ loading (state p) = false
       /\ assessment_section (assessment (state p)) = Throw e)))
  /\ (is_array (listings (state p)) = false ->
      App (state p) = Throw TypeError).
Proof.
  intros Hrun. split.
  - intros ids Hl.
    destruct (proj2 (run_selection es p Hrun) ids Hl)
      as [Hs|(id & _ & Hs)];
      unfold App, assessment_section; rewrite Hl, Hs, ListingInput_strings;
      destruct (error_child _ (run_error_known es p Hrun)) as [t ->];
      cbn [bind];
      (destruct (truthy (assessment (state p))) eqn:Ha;
       [destruct (loading (state p)); cbn [negb andb bind];
        [split; [discriminate|intros (_ & Hld & _); discriminate]|];
        destruct (section_elements (assessment (state p))) as [rendering|e'];
        cbn [bind];
        [destruct rendering as [sec|e']; cbn [bind];
         [split; [discriminate|intros (_ & _ & H); discriminate]
         |split; [intros H; injection H as ->; repeat split
                 |intros (_ & _ & H); exact H]]
        |split; [intros H; injection H as ->; repeat split
                |intros (_ & _ & H); exact H]]
       |cbn [andb bind]; destruct (child_of_falsy _ Ha) as [c ->]; cbn [bind];
        split; [discriminate|intros (H & _); discriminate]]).
  - intros Ha.
    destruct (run_invariant_holds es p Hrun) as [[-> _]|[_ Hinv]];
      [discriminate Ha|].
    destruct Hinv as (_ & _ & _ & _ & _ & Harr).
    destruct (Harr Ha) as (_ & Hn & _).
    exact (not_array_throws _ Ha Hn).
Qed.

(** The page after a listings fetch that gave no array. *)
Lemma no_listings_page (o : outcome) :
  no_listings o = true ->
  let p := commit (listings_handler o initial) [] in
  pending p = [] /\ (forall e, react e p = None) /\
  (rejected o = true ->
   live p = true /\ state p = listings_failed initial) /\
  (forall ok data,
     o = Response ok (inl data) ->
     live p = false /\ state p = fst (listings_handler o initial)
     /\ listings (state p) = data).
Proof.
  intros Hno. cbn zeta.
  destruct o as [m|ok [data|m]].
  - cbn [listings_handler]. rewrite commit_unchanged.
    change (renders (listings_failed initial)) with true.
    split; [reflexivity|]. split; [intros [o|url o|id]; reflexivity|].
    split; [auto|]. intros ok data H. discriminate H.
  - cbn [no_listings] in Hno. apply negb_true_iff in Hno.
    assert (Hl : listings (fst (listings_handler (Response ok (inl data)) initial))
                 = data).
    { cbn [listings_handler]. destruct (first_of data) as [[first|]|e]; reflexivity. }
    assert (Hr : renders (fst (listings_handler (Response ok (inl data)) initial))
                 = false).
    { destruct (renders _) eqn:Hr; [|reflexivity].
      apply renders_array in Hr. congruence. }
    unfold commit. rewrite Hr. cbn [unmounted pending live state].
    split; [reflexivity|]. split; [intros [o|url o|id]; reflexivity|].
    split; [discriminate|]. intros ok' data' H. injection H as _ <-.
    repeat split. exact Hl.
  - cbn [listings_handler]. rewrite commit_unchanged.
    change (renders (listings_failed initial)) with true.
    split; [reflexivity|]. split; [intros [o|url o|id]; reflexivity|].
    split; [auto|]. intros ok' data H. discriminate H.
Qed.

Lemma run_in_flight_is_mount (es : list event) (p : Page) :
  run es p -> In (API_BASE ++ "/listings") (pending p) ->
  es = [] /\ p = mounted.
Proof.
  intros Hrun Hp. destruct Hrun as [|es p e p' Hrun Hreact]; [auto|].
  exfalso.
  pose proof (run_invariant_holds _ _ (run_event es p e p' Hrun Hreact)) as Hinv'.
  pose proof (run_invariant_holds _ _ Hrun) as Hinv.
  destruct Hinv' as [[_ Hn']|[_ Hpage]].
  2: { exact (pending_not_listings _ Hpage Hp). }
  destruct e as [o|url o|id]; [discriminate Hn'| |];
    cbn [filter is_listings_settle] in Hn'.
  - destruct Hinv as [[-> _]|[Hn _]].
    + cbn [react] in Hreact. unfold is_pending in Hreact.
      cbn [pending existsb orb] in Hreact.
      destruct (String.eqb url (API_BASE ++ "/listings")); discriminate Hreact.
    + rewrite Hn' in Hn. discriminate Hn.
  - destruct Hinv as [[-> _]|[Hn _]].
    + discriminate Hreact.
    + rewrite Hn' in Hn. discriminate Hn.
Qed.

Lemma run_no_listings_cases (es : list event) (p : Page) :
  run es p ->
  existsb gives_no_listings es = false
  \/ (exists o, no_listings o = true /\ es = [ListingsSettle o]
                /\ p = commit (listings_handler o initial) []).
Proof.
  induction 1 as [|es p e p' Hrun IH Hreact]; [now left|].
  destruct IH as [Hno|(o & Ho & _ & ->)].
  2: { rewrite (proj1 (proj2 (no_listings_page o Ho))) in Hreact.
       discriminate Hreact. }
  cbn [existsb]. rewrite Hno, orb_false_r.
  destruct (gives_no_listings e) eqn:He; [|now left].
  right. destruct e as [o|url o|id]; try discriminate He.
  exists o. split; [exact He|].
  cbn [react] in Hreact.
  destruct (is_pending _ p) eqn:Hp; [|discriminate].
  apply existsb_eqb_In in Hp.
  destruct (run_in_flight_is_mount es p Hrun Hp) as [-> ->].
  split; [reflexivity|].
  rewrite mounted_page in Hreact.
  cbn [live state pending remove_first] in Hreact.
  rewrite String.eqb_refl in Hreact. injection Hreact as <-. reflexivity.
Qed.

(** When the listings fetch gives no array nothing else can happen: it is
    the only event of the run, no fetch is in flight and no option can be
    picked. After a rejection of [fetch] or of [json()] the page stays
    mounted, with the message "Failed to load listings" and an empty
    selector. A body that is no array, whatever the status of its
    response, is stored as the listings, the selector throws, and the
    page is taken down: with the message if the body is [null], without
    one if it is an object without [length]. *)
Theorem listings_failure_is_final (es : list event) (p : Page) (o : outcome) :
  run es p -> In (ListingsSettle o) es -> no_listings o = true ->
  es = [ListingsSettle o]
  /\ pending p = []
  /\ (forall e, react e p = None)
  /\ (rejected o = true ->
      live p = true
      /\ error (state p) = JStr "Failed to load listings"
      /\ listings (state p) = JArr [] /\ selectedListing (state p) = JStr "")
  /\ (forall ok data,
        o = Response ok (inl data) ->
        live p = false /\ listings (state p) = data
        /\ App (state p) = Throw TypeError
        /\ (data = JNull -> error (state p) = JStr "Failed to load listings")
        /\ (forall props,
              data = JObj props -> lookup "length" props = None ->
              error (state p) = JNull)).
Proof.
  intros Hrun Hin Hno.
  destruct (run_no_listings_cases es p Hrun) as [Hnone|(o' & Ho' & -> & ->)].
  - assert (Hex : existsb gives_no_listings es = true).
    { apply existsb_exists. exists (ListingsSettle o). split; [exact Hin|exact Hno]. }
    rewrite Hex in Hnone. discriminate Hnone.
  - destruct Hin as [Heq|[]]. injection Heq as ->.
    destruct (no_listings_page o Hno) as (Hp & Hnone & Hrej & Hbody).
    split; [reflexivity|]. split; [exact Hp|]. split; [exact Hnone|].
    split.
    + intros Hr. destruct (Hrej Hr) as [Hl ->]. repeat split. exact Hl.
    + intros ok data ->. destruct (Hbody ok data eq_refl) as (Hl & Hst & Hd).
      split; [exact Hl|]. split; [exact Hd|].
      split.
      { apply not_array_throws.
        - rewrite Hd. cbn [no_listings] in Hno. now apply negb_true_iff in Hno.
        - rewrite Hst. apply listings_handler_assessment. }
      rewrite Hst. split.
      * intros ->. reflexivity.
      * intros props -> Hlen. cbn [listings_handler].
        unfold first_of. cbn [get_length get]. rewrite Hlen. reflexivity.
Qed.

End Late.

(** ** The orchestrator at the examples *)

Lemma listed_run :
  run (H := ExampleHost.host)
    [ListingsSettle (Response true (inl (JArr [JStr "A"; JStr "B"])))]
    ExampleHost.listed_page.
Proof. apply after_run. reflexivity. Qed.

(** "A" is picked again after its assessment was not found. *)
Lemma reselect_fetches_nothing_witness :
  let st := assessment_settled (Response false (inr "Unexpected token"))
              ExampleHost.listed in
  error st = JStr "Listing not found" /\
  setSelectedListing (H := ExampleHost.host) "A" st = Ok (st, []).
Proof.
  intros st. split; [reflexivity|].
  exact (reselect_fetches_nothing (host := ExampleHost.host) "A" st eq_refl).
Defined.


Lemma loading_hides_assessment_witness :
  let st := {| listings := JArr [JStr "A"; JStr "B"]; selectedListing := JStr "A";
               assessment := ExampleHost.scenario; loading := false;
               error := JNull |} in
  exists st',
    setSelectedListing (H := ExampleHost.host) "B" st =
      Ok (st', ["http://localhost:8000/listing/B"]) /\
    assessment st' = ExampleHost.scenario /\
    App (H := ExampleHost.host) st' =
    Ok (Element "div" [("className", "app")]
          [ Element "h1" [] [Text "🏠 Listing Intelligence Dashboard"];
            Element "div" [("className", "listing-input")]
              [ Element "label" [("htmlFor", "listing-select")]
                  [Text "Select Listing"];
                Element "select" [("id", "listing-select"); ("value", "B")]
                  [ Element "option" [("value", "A")] [Text "A"];
                    Element "option" [("value", "B")] [Text "B"] ] ];
            Element "div" [("className", "loading")] [Text "Loading assessment..."];
            Nothing;
            Nothing ]).
Proof.
  intros st.
  destruct (loading_hides_assessment (host := ExampleHost.host) "B" st
              ltac:(discriminate) ltac:(discriminate) eq_refl)
    as (st' & Hs & Ha & Happ & _).
  exists st'. split; [exact Hs|]. split; [exact Ha|exact Happ].
Defined.

Lemma select_then_success_witness :
  let st := {| listings := JArr [JStr "A"; JStr "B"]; selectedListing := JStr "A";
               assessment := JNull; loading := false;
               error := JStr "Listing not found" |} in
  exists st1 selector section_c,
    setSelectedListing (H := ExampleHost.host) "B" st =
      Ok (st1, ["http://localhost:8000/listing/B"]) /\
    let st' := assessment_settled (Response true (inl ExampleHost.scenario)) st1 in
    assessment st' = ExampleHost.scenario /\ loading st' = false /\
    error st' = JNull /\
    ListingInput (JArr [JStr "A"; JStr "B"]) (JStr "B") = Ok selector /\
    assessment_section (H := ExampleHost.host) ExampleHost.scenario = Ok section_c /\
    App (H := ExampleHost.host) st' =
    Ok (Element "div" [("className", "app")]
          [ Element "h1" [] [Text "🏠 Listing Intelligence Dashboard"];
            selector; Nothing; Nothing; section_c ]).
Proof.
  intros st.
  destruct (select_then_success (host := ExampleHost.host) "B" ExampleHost.scenario st
              ltac:(discriminate) ltac:(discriminate))
    as (st1 & Hs & Ha & Hl & He & _ & Happ & _).
  exists st1. do 2 eexists. split; [exact Hs|].
  cbn zeta. split; [exact Ha|]. split; [exact Hl|]. split; [exact He|].
  split; [reflexivity|]. split; [reflexivity|].
  exact (Happ eq_refl).
Defined.

(** On the page with the listings "A" and "B", "B" and then "A" are
    picked; the assessment for "A" arrives, without its confidence, and
    then the one for "B": it is stored, with "A" selected. *)
Lemma late_response_wins_witness :
  exists p1 p2 p3 p4,
    react (H := ExampleHost.host) (Select "B") ExampleHost.listed_page = Some p1 /\
    react (H := ExampleHost.host) (Select "A") p1 = Some p2 /\
    react (H := ExampleHost.host)
      (AssessmentSettle "http://localhost:8000/listing/A"
         (Response true
            (inl (ExampleHost.without "confidence" ExampleHost.scenario)))) p2
      = Some p3 /\
    react (H := ExampleHost.host)
      (AssessmentSettle "http://localhost:8000/listing/B"
         (Response true (inl ExampleHost.scenario))) p3
      = Some p4 /\
    live p3 = true /\
    selectedListing (state p4) = JStr "A" /\
    assessment (state p4) = ExampleHost.scenario.
Proof.
  destruct (late_response_wins (host := ExampleHost.host) _ _ "B" "A"
              ExampleHost.scenario
              (ExampleHost.without "confidence" ExampleHost.scenario)
              listed_run eq_refl
              ltac:(right; left; reflexivity) ltac:(left; reflexivity)
              ltac:(discriminate) ltac:(discriminate)
              ltac:(discriminate) ltac:(discriminate))
    as (p1 & p2 & p3 & p4 & H1 & H2 & H3 & H4 & _ & _ & _ & _ & Hd & _
        & Hlive & Hs & Hlate & _).
  assert (Hl : live p3 = true).
  { rewrite Hlive. clear - H1 H2 H3.
    vm_compute in H1. injection H1 as <-.
    vm_compute in H2. injection H2 as <-.
    vm_compute in H3. injection H3 as <-. reflexivity. }
  exists p1, p2, p3, p4.
  split; [exact H1|]. split; [exact H2|]. split; [exact H3|]. split; [exact H4|].
  split; [exact Hl|]. split; [exact Hs|exact (Hlate Hl)].
Defined.

Lemma selection_among_listings_witness :
  selectedListing (state ExampleHost.page) = JStr ""
  \/ exists id, In id ["A"; "B"] /\ selectedListing (state ExampleHost.page) = JStr id.
Proof.
  exact (proj2 (selection_among_listings (host := ExampleHost.host)
                  ExampleHost.events ExampleHost.page
                  (after_run (H := ExampleHost.host) ExampleHost.events
                     ExampleHost.page eq_refl))
               ["A"; "B"] eq_refl).
Defined.

Lemma loading_has_fetch_in_flight_witness :
  exists id, In (API_BASE (H := ExampleHost.host) ++ "/listing/" ++ id)
                (pending ExampleHost.page).
Proof.
  exact (loading_has_fetch_in_flight (host := ExampleHost.host)
           ExampleHost.events ExampleHost.page
           (after_run (H := ExampleHost.host) ExampleHost.events ExampleHost.page eq_refl) eq_refl).
Defined.

Lemma listings_fetched_once_witness :
  (is_pending (API_BASE (H := ExampleHost.host) ++ "/listings") ExampleHost.page = true
   /\ filter is_listings_settle ExampleHost.events = [])
  \/ (is_pending (API_BASE (H := ExampleHost.host) ++ "/listings") ExampleHost.page = false
      /\ List.length (filter is_listings_settle ExampleHost.events) = 1%nat).
Proof.
  exact (listings_fetched_once (host := ExampleHost.host)
           ExampleHost.events ExampleHost.page
           (after_run (H := ExampleHost.host) ExampleHost.events ExampleHost.page eq_refl)).
Defined.

Lemma assessment_changes_on_success_only_witness :
  exists p',
    react (H := ExampleHost.host)
      (AssessmentSettle "http://localhost:8000/listing/A" (Rejected "Failed to fetch"))
      ExampleHost.page = Some p'
    /\ assessment (state p') = assessment (state ExampleHost.page).
Proof.
  eexists. split; [reflexivity|].
  apply (assessment_changes_on_success_only (host := ExampleHost.host)
           (AssessmentSettle "http://localhost:8000/listing/A"
              (Rejected "Failed to fetch"))
           ExampleHost.page _ eq_refl).
  intros url data. discriminate.
Defined.

(** The page after the events [es], with the run that leads to it. *)
Ltac example_run_to es p Hrun :=
  let Hp := fresh "Hp" in
  destruct (after (H := ExampleHost.host) es) as [p|] eqn:Hp;
  [|vm_compute in Hp; discriminate Hp];
  pose proof (after_run (H := ExampleHost.host) es p Hp) as Hrun;
  vm_compute in Hp; injection Hp as <-.

(** The assessment that arrives for "A" has no [overall_risk]: the page is
    taken down. A body of the listings that is an object takes it down
    too. *)
Lemma App_throws_with_section_witness :
  (exists p,
     after (H := ExampleHost.host)
       (AssessmentSettle "http://localhost:8000/listing/A"
          (Response true
             (inl (ExampleHost.without "overall_risk" ExampleHost.scenario)))
        :: ExampleHost.events) = Some p /\
     App (H := ExampleHost.host) (state p) = Throw TypeError /\ live p = false)
  /\ (exists p,
        after (H := ExampleHost.host)
          [ListingsSettle (Response false (inl (JObj [("detail", JStr "Not Found")])))]
        = Some p /\
        App (H := ExampleHost.host) (state p) = Throw TypeError /\ live p = false).
Proof.
  split.
  - example_run_to
      (AssessmentSettle "http://localhost:8000/listing/A"
         (Response true
            (inl (ExampleHost.without "overall_risk" ExampleHost.scenario)))
       :: ExampleHost.events) p Hrun.
    eexists. split; [reflexivity|]. split; [|reflexivity].
    apply (proj1 (App_throws_with_section (host := ExampleHost.host) _ _ TypeError
                    Hrun) ["A"; "B"] eq_refl).
    repeat split.
  - example_run_to
      [ListingsSettle (Response false (inl (JObj [("detail", JStr "Not Found")])))]
      p Hrun.
    eexists. split; [reflexivity|]. split; [|reflexivity].
    exact (proj2 (App_throws_with_section (host := ExampleHost.host) _ _ TypeError
                    Hrun) eq_refl).
Defined.

(** The listings fetch is rejected; it answers 500 with [null]; it answers
    404 with an object. *)
Lemma listings_failure_is_final_witness :
  (exists p,
     after (H := ExampleHost.host) [ListingsSettle (Rejected "Failed to fetch")]
       = Some p /\
     live p = true /\ error (state p) = JStr "Failed to load listings" /\
     listings (state p) = JArr [] /\
     react (H := ExampleHost.host) (Select "A") p = None)
  /\ (exists p,
        after (H := ExampleHost.host) [ListingsSettle (Response false (inl JNull))]
          = Some p /\
        live p = false /\ listings (state p) = JNull /\
        error (state p) = JStr "Failed to load listings")
  /\ (exists p,
        after (H := ExampleHost.host)
          [ListingsSettle (Response false (inl (JObj [("detail", JStr "Not Found")])))]
          = Some p /\
        live p = false /\
        listings (state p) = JObj [("detail", JStr "Not Found")] /\
        error (state p) = JNull).
Proof.
  split; [|split].
  - example_run_to [ListingsSettle (Rejected "Failed to fetch")] p Hrun.
    eexists. split; [reflexivity|].
    destruct (listings_failure_is_final (host := ExampleHost.host) _ _
                (Rejected "Failed to fetch") Hrun (or_introl eq_refl) eq_refl)
      as (_ & _ & Hnone & Hrej & _).
    destruct (Hrej eq_refl) as (Hl & He & Hls & _).
    split; [exact Hl|]. split; [exact He|]. split; [exact Hls|].
    exact (Hnone (Select "A")).
  - example_run_to [ListingsSettle (Response false (inl JNull))] p Hrun.
    eexists. split; [reflexivity|].
    destruct (listings_failure_is_final (host := ExampleHost.host) _ _
                (Response false (inl JNull)) Hrun (or_introl eq_refl) eq_refl)
      as (_ & _ & _ & _ & Hbody).
    destruct (Hbody false JNull eq_refl) as (Hl & Hd & _ & He & _).
    split; [exact Hl|]. split; [exact Hd|exact (He eq_refl)].
  - example_run_to
      [ListingsSettle (Response false (inl (JObj [("detail", JStr "Not Found")])))]
      p Hrun.
    eexists. split; [reflexivity|].
    destruct (listings_failure_is_final (host := ExampleHost.host) _ _
                (Response false (inl (JObj [("detail", JStr "Not Found")])))
                Hrun (or_introl eq_refl) eq_refl)
      as (_ & _ & _ & _ & Hbody).
    destruct (Hbody false _ eq_refl) as (Hl & Hd & _ & _ & He).
    split; [exact Hl|]. split; [exact Hd|exact (He _ eq_refl eq_refl)].
Defined.
